(** * SmartBagan backend: optimisation and scoring engine

    A shallow embedding of the scoring model of
    [src/services/zoneService.js], of the optimiser service
    ([optimizerService.js]: [shouldMoveBagan], [findBestSpots],
    [optimizeRoute], [generatePermutations], [optimizeBaganOperations])
    and of the candidate scanner of the [optimize] route
    ([scanAreaForSpots], [estimateScoreForLocation]).

    Numbers.  A JavaScript number is modelled by an exact rational ([Q]):
    every finite double is a rational, and the comparisons of the source
    are comparisons of rationals.  The IEEE rounding of intermediate
    products and sums is not modelled, except in the total distance of
    a route, whose additions are those of the runtime ([JS.plus]): the
    search compares totals made of the same legs added in another order.
    Neither are [NaN], the two infinities and the negative zero, except
    where the source divides by a value that can be zero without a
    guard: there the quotient is a [jsnum].  [Math.round] results are
    integers ([Z]). *)

From Stdlib Require Import QArith Qround Qabs ZArith List String Bool.
From Stdlib Require Import Permutation Sorted Lia Lqa DecimalString.
Import ListNotations.

Open Scope Q_scope.

(* ====================================================================== *)
(** ** JavaScript numeric primitives *)
(* ====================================================================== *)

Module JS.

(** [Math.floor], [Math.ceil] and [Math.round] (round half up, that is
    towards plus infinity: [Math.round(-2.5)] is [-2]). *)
Definition Math_floor (x : Q) : Z := Qfloor x.
Definition Math_ceil (x : Q) : Z := Qceiling x.
Definition Math_round (x : Q) : Z := Qfloor (x + (1 # 2)).

(** A number that may come out of an unguarded division. *)
Inductive jsnum : Type :=
| Fin (q : Q)
| PosInfinity
| NegInfinity
| NaN.

(** [a / b] on finite operands: a zero divisor yields an infinity of the
    sign of the dividend, and [0 / 0] is [NaN]. *)
Definition div (a b : Q) : jsnum :=
  if Qeq_bool b 0 then
    if Qlt_le_dec 0 a then PosInfinity
    else if Qlt_le_dec a 0 then NegInfinity
    else NaN
  else Fin (a / b).

(** [x * k] for a finite, strictly positive [k]. *)
Definition scale (x : jsnum) (k : Q) : jsnum :=
  match x with
  | Fin q => Fin (q * k)
  | other => other
  end.

(** [x.toFixed(f)] keeps the integer [n] for which [n / 10^f] is nearest
    to [x], the larger one on a tie, after the sign has been set aside.
    [toFixed_units] is that integer of the absolute value. *)
Definition pow10 (f : nat) : Z := Z.pow 10 (Z.of_nat f).

Definition toFixed_units (f : nat) (x : Q) : Z :=
  Qfloor (Qabs x * inject_Z (pow10 f) + (1 # 2)).

(** [parseFloat(x.toFixed(f))]. *)
Definition toFixed_value (f : nat) (x : Q) : Q :=
  let n := toFixed_units f x in
  if Qlt_le_dec x 0 then - (inject_Z n / inject_Z (pow10 f))
  else inject_Z n / inject_Z (pow10 f).

Definition digits (n : Z) : string :=
  NilZero.string_of_uint (N.to_uint (Z.to_N n)).

(** The [f] fractional digits of [n], padded with zeros on the left. *)
Fixpoint pad_left (f : nat) (s : string) : string :=
  match f with
  | O => s
  | S f' =>
      if Nat.ltb (String.length s) (S f') then pad_left f' ("0" ++ s)
      else s
  end.

Definition fraction_digits (f : nat) (n : Z) : string :=
  match f with
  | O => EmptyString
  | _ => ("." ++ pad_left f (digits (n mod pow10 f)))%string
  end.

(** The string [x.toFixed(f)] of a finite number below [1e21]. *)
Definition toFixed (f : nat) (x : Q) : string :=
  let n := toFixed_units f x in
  ((if Qlt_le_dec x 0 then "-" else "")
     ++ digits (n / pow10 f) ++ fraction_digits f n)%string.

Definition toFixed_jsnum (f : nat) (x : jsnum) : string :=
  match x with
  | Fin q => toFixed f q
  | PosInfinity => "Infinity"
  | NegInfinity => "-Infinity"
  | NaN => "NaN"
  end.

(** What the runtime supplies and the repository does not define: the
    [Math] functions used by the Haversine formula and by the scanner,
    the conversion of a number to a string in a template literal, and
    the sum of two numbers where the order of the additions decides a
    comparison: [plus a b] is the number [a + b] evaluates to, the
    exact sum rounded to a double, so that the same numbers added in
    another order may give another total. *)
Record Runtime : Type := {
  Math_sin : Q -> Q;
  Math_cos : Q -> Q;
  Math_sqrt : Q -> Q;
  Math_atan2 : Q -> Q -> Q;
  Math_PI : Q;
  Number_toString : Q -> string;
  plus : Q -> Q -> Q
}.

(** The values at which every implementation of [Math] is exact, and
    the compatibility of the functions with equality of rationals. *)
Record Lawful (rt : Runtime) : Prop := {
  sin_proper : forall x y, x == y -> Math_sin rt x == Math_sin rt y;
  cos_proper : forall x y, x == y -> Math_cos rt x == Math_cos rt y;
  sqrt_proper : forall x y, x == y -> Math_sqrt rt x == Math_sqrt rt y;
  atan2_proper : forall x y x' y', x == x' -> y == y' ->
                   Math_atan2 rt x y == Math_atan2 rt x' y';
  sin_0 : Math_sin rt 0 == 0;
  sqrt_0 : Math_sqrt rt 0 == 0;
  sqrt_1 : Math_sqrt rt 1 == 1;
  atan2_0_1 : Math_atan2 rt 0 1 == 0
}.

End JS.

(* ====================================================================== *)
(** ** zoneService.js: moon phase and zone score *)
(* ====================================================================== *)

Module ZoneService.

(** The calendar date read off the [Date] object by [getFullYear],
    [getMonth() + 1] and [getDate]. *)
Record CalendarDate : Type := {
  year : Z;
  month : Z;
  day : Z
}.

Record MoonPhase : Type := {
  illumination : Z;
  phase : string;
  moonQuality : string
}.

(** The Julian Day of [getMoonPhase]. *)
Definition julianDay (d : CalendarDate) : Q :=
  inject_Z (367 * year d)
  - inject_Z (JS.Math_floor
                (inject_Z (7 * (year d
                                + JS.Math_floor (inject_Z (month d + 9) / 12)))
                 / 4))
  + inject_Z (JS.Math_floor (inject_Z (275 * month d) / 9))
  + inject_Z (day d) + 1721013.5.

(** [phase = newMoons - Math.floor(newMoons)], the fraction of the
    synodic month elapsed since the reference new moon. *)
Definition moonFraction (d : CalendarDate) : Q :=
  let jd := julianDay d in
  let daysSinceNew := jd - 2451549.5 in
  let newMoons := daysSinceNew / 29.53 in
  newMoons - inject_Z (JS.Math_floor newMoons).

Definition phaseName (illum : Z) : string :=
  let i := inject_Z illum in
  if Qlt_le_dec i 6.25 then "New Moon"
  else if Qlt_le_dec i 18.75 then "Waxing Crescent"
  else if Qlt_le_dec i 31.25 then "First Quarter"
  else if Qlt_le_dec i 43.75 then "Waxing Gibbous"
  else if Qlt_le_dec i 56.25 then "Full Moon"
  else if Qlt_le_dec i 68.75 then "Waning Gibbous"
  else if Qlt_le_dec i 81.25 then "Last Quarter"
  else "Waning Crescent".

Definition getMoonPhase (d : CalendarDate) : MoonPhase :=
  let illum := JS.Math_round (moonFraction d * 100) in
  {| illumination := illum;
     phase := phaseName illum;
     moonQuality := if (illum <? 30)%Z then "excellent"
                    else if (illum <? 60)%Z then "good" else "poor" |}.

(** The readings [calculateZoneScore] looks at.  A field of the bundle
    is [None] when the property is absent (or falsy) in [data]. *)
Record Chlorophyll : Type := { chlValue : Q; chlSource : string }.
Record SeaSurfaceTemperature : Type := { sstValue : Q; sstSource : string }.
Record WaveHeight : Type := { waveValue : Q }.
Record WindSpeed : Type := { windSpeedValue : Q; windSource : string }.

Record ZoneData : Type := {
  chlorophyll : option Chlorophyll;
  sst : option SeaSurfaceTemperature;
  moon : option MoonPhase;
  waveHeight : option WaveHeight;
  wind : option WindSpeed
}.

Record FactorScore : Type := {
  fscore : Z;
  fmax : Z;
  rating : string
}.

Record Breakdown : Type := {
  b_chlorophyll : option FactorScore;
  b_sst : option FactorScore;
  b_moon : option FactorScore;
  b_wave : option FactorScore;
  b_wind : option FactorScore
}.

Record ZoneScore : Type := {
  score : Z;
  breakdown : Breakdown;
  maxScore : Z;
  actualScore : Z
}.

Definition factor (s m : Z) (r : string) : FactorScore :=
  {| fscore := s; fmax := m; rating := r |}.

(** The five banded factors.  Each returns the breakdown entry written
    by the source, whose [fscore] is what is added to [score]. *)
Definition chlorophyllFactor (c : Chlorophyll) : FactorScore :=
  let chl := chlValue c in
  if Qlt_le_dec 0.5 chl then factor 30 30 "Excellent"
  else if Qlt_le_dec 0.3 chl then factor 20 30 "Good"
  else if Qlt_le_dec 0.1 chl then factor 10 30 "Fair"
  else factor 0 30 "Poor".

Definition sstFactor (s : SeaSurfaceTemperature) : FactorScore :=
  let temp := sstValue s in
  if Qle_bool 27 temp && Qle_bool temp 30 then factor 25 25 "Optimal"
  else if Qle_bool 25 temp && Qle_bool temp 32 then factor 15 25 "Good"
  else if Qle_bool 23 temp && Qle_bool temp 34 then factor 5 25 "Fair"
  else factor 0 25 "Poor".

Definition moonFactor (m : MoonPhase) : FactorScore :=
  let illum := illumination m in
  if (illum <? 30)%Z then factor 20 20 "Excellent"
  else if (illum <? 50)%Z then factor 15 20 "Good"
  else if (illum <? 70)%Z then factor 10 20 "Fair"
  else factor 5 20 "Poor".

Definition waveFactor (w : WaveHeight) : FactorScore :=
  let wave := waveValue w in
  if Qlt_le_dec wave 1.0 then factor 15 15 "Calm"
  else if Qlt_le_dec wave 1.5 then factor 10 15 "Moderate"
  else if Qlt_le_dec wave 2.0 then factor 5 15 "Choppy"
  else factor 0 15 "Rough".

Definition windFactor (w : WindSpeed) : FactorScore :=
  let wind := windSpeedValue w in
  if Qlt_le_dec wind 5 then factor 10 10 "Calm"
  else if Qlt_le_dec wind 7 then factor 7 10 "Light"
  else if Qlt_le_dec wind 10 then factor 4 10 "Moderate"
  else factor 0 10 "Strong".

(** The accumulator pair [(score, maxScore)] after one factor block:
    [maxScore += max] is executed whether or not the reading is there,
    [score += points] only inside [if (data.factor)]. *)
Definition addFactor {A : Type} (max : Z) (f : A -> FactorScore)
    (reading : option A) (acc : Z * Z) : Z * Z :=
  let '(score, maxScore) := acc in
  let maxScore := (maxScore + max)%Z in
  match reading with
  | Some r => ((score + fscore (f r))%Z, maxScore)
  | None => (score, maxScore)
  end.

Definition calculateZoneScore (data : ZoneData) : ZoneScore :=
  let acc := (0%Z, 0%Z) in
  let acc := addFactor 30 chlorophyllFactor (chlorophyll data) acc in
  let acc := addFactor 25 sstFactor (sst data) acc in
  let acc := addFactor 20 moonFactor (moon data) acc in
  let acc := addFactor 15 waveFactor (waveHeight data) acc in
  let acc := addFactor 10 windFactor (wind data) acc in
  let '(score, maxScore) := acc in
  let finalScore :=
    JS.Math_round (inject_Z score / inject_Z maxScore * 100) in
  {| score := finalScore;
     breakdown :=
       {| b_chlorophyll := option_map chlorophyllFactor (chlorophyll data);
          b_sst := option_map sstFactor (sst data);
          b_moon := option_map moonFactor (moon data);
          b_wave := option_map waveFactor (waveHeight data);
          b_wind := option_map windFactor (wind data) |};
     maxScore := maxScore;
     actualScore := score |}.

(** The total as the specification words it: the earned points over the
    maximum points of the factors that are present, as a percentage.
    With no factor at all the quotient is [0 / 0]. *)
Definition presentMax {A : Type} (max : Z) (reading : option A) : Z :=
  match reading with Some _ => max | None => 0%Z end.

Definition earned {A : Type} (f : A -> FactorScore) (reading : option A) : Z :=
  match reading with Some r => fscore (f r) | None => 0%Z end.

Definition spec_earned (data : ZoneData) : Z :=
  (earned chlorophyllFactor (chlorophyll data)
   + earned sstFactor (sst data)
   + earned moonFactor (moon data)
   + earned waveFactor (waveHeight data)
   + earned windFactor (wind data))%Z.

Definition spec_maxPossible (data : ZoneData) : Z :=
  (presentMax 30 (chlorophyll data)
   + presentMax 25 (sst data)
   + presentMax 20 (moon data)
   + presentMax 15 (waveHeight data)
   + presentMax 10 (wind data))%Z.

Definition spec_renormalisedTotal (data : ZoneData) : option Z :=
  match JS.div (100 * inject_Z (spec_earned data))
               (inject_Z (spec_maxPossible data)) with
  | JS.Fin q => Some (JS.Math_round q)
  | _ => None
  end.

End ZoneService.

(* ====================================================================== *)
(** ** Exceptions *)
(* ====================================================================== *)

(** A computation that either returns or throws.  The modelled code
    itself raises only the [TypeError] of reading a property of
    [undefined] or [null] (its argument is the property read); a call to
    a collaborator may be [Rejected]. *)
Inductive exn : Type :=
| TypeError (property : string)
| Rejected (message : string).

Inductive result (A : Type) : Type :=
| Ok (a : A)
| Throw (e : exn).

Arguments Ok {A} a.
Arguments Throw {A} e.

Definition bind {A B : Type} (m : result A) (k : A -> result B) : result B :=
  match m with
  | Ok a => k a
  | Throw e => Throw e
  end.

Notation "x <- m ;; k" := (bind m (fun x => k))
  (at level 61, m at next level, right associativity).

(** Reading a property of a value that may be [null] or [undefined]. *)
Definition getProperty {A : Type} (o : option A) (property : string) : result A :=
  match o with
  | Some a => Ok a
  | None => Throw (TypeError property)
  end.

(* ====================================================================== *)
(** ** optimizerService.js *)
(* ====================================================================== *)

Module Optimizer.

(** The fields of [CONFIG] read by the functions below.  [CONFIG] is a
    module-level object that the [PUT /config] route updates in place,
    so every function takes the configuration in force as [cfg]. *)
Record Config : Type := {
  fuelPricePerLiter : Q;
  fuelConsumptionTow : Q;
  catchPricePerKg : Q;
  minProfitThreshold : Q;
  towSpeedKnots : Q;
  setupTimeMinutes : Q;
  maxTowDistance : Q
}.

Definition CONFIG : Config :=
  {| fuelPricePerLiter := 10000;
     fuelConsumptionTow := 4;
     catchPricePerKg := 35000;
     minProfitThreshold := 50000;
     towSpeedKnots := 2.5;
     setupTimeMinutes := 20;
     maxTowDistance := 5 |}.

Record Position : Type := { lat : Q; lng : Q }.

Record Bagan : Type := {
  b_id : string;
  b_name : string;
  b_lat : Q;
  b_lng : Q;
  b_score : Q
}.

Record Catch : Type := { c_min : Z; c_max : Z; c_avg : Z }.

Record Spot : Type := {
  s_id : string;
  s_name : string;
  s_lat : Q;
  s_lng : Q;
  s_score : Q;
  s_estimatedCatch : option Catch
}.

(** [currentPos = item.recommendation.targetSpot]: only [lat] and [lng]
    of the spot are read afterwards. *)
Definition spotPosition (s : Spot) : Position :=
  {| lat := s_lat s; lng := s_lng s |}.

Definition baganPosition (b : Bagan) : Position :=
  {| lat := b_lat b; lng := b_lng b |}.

Record Analysis : Type := {
  currentScore : Q;
  targetScore : Q;
  scoreDelta : Q;
  distance : Q;
  towTime : Z;
  setupTime : Q;
  totalTime : Z;
  fuelCost : Z;
  currentExpectedCatch : Catch;
  targetExpectedCatch : Catch;
  extraCatch : Z;
  extraRevenue : Z;
  netProfit : Z;
  roi : Z;
  worthIt : bool
}.

(** The two shapes [shouldMoveBagan] returns: [{shouldMove: false,
    reason}] and [{shouldMove, analysis}]. *)
Inductive Decision : Type :=
| TooFar (reason : string)
| Analysed (shouldMove : bool) (analysis : Analysis).

Definition shouldMove (d : Decision) : bool :=
  match d with
  | TooFar _ => false
  | Analysed b _ => b
  end.

Definition analysis (d : Decision) : option Analysis :=
  match d with
  | TooFar _ => None
  | Analysed _ a => Some a
  end.

Definition reason (d : Decision) : option string :=
  match d with
  | TooFar r => Some r
  | Analysed _ _ => None
  end.

Record CurrentAnalysis : Type := {
  ca_score : Q;
  ca_expectedCatch : Catch
}.

(** [recommendation]: [{action: 'move', targetSpot, analysis}] or
    [{action: 'stay', reason, currentAnalysis}].  The [analysis] of a
    move is the loop variable [bestAnalysis], which starts as [null]. *)
Inductive Recommendation : Type :=
| Move (targetSpot : Spot) (analysis : option Analysis)
| Stay (reason : string) (currentAnalysis : CurrentAnalysis).

Record BaganRecommendation : Type := {
  bagan : Bagan;
  recommendation : Recommendation
}.

(** An element of [bagansToMove]: a recommendation whose [action] is
    ['move'], with the fields [optimizeRoute] reads. *)
Record MoveItem : Type := {
  m_bagan : Bagan;
  m_targetSpot : Spot;
  m_analysis : option Analysis
}.

Record RouteStep : Type := {
  step : nat;
  baganId : string;
  baganName : string;
  from : Position;
  pickupLocation : Position;
  targetLocation : Spot;
  distanceToPickup : Q;
  distanceToTow : Q;
  totalStepDistance : Q;
  timeToPickup : Z;
  timeToTow : Z;
  stepSetupTime : Q;
  totalStepTime : Z;
  cumulativeDistance : Q;
  cumulativeTime : Z;
  stepTargetScore : Q;
  expectedProfit : Z
}.

Record RouteSummary : Type := {
  rs_totalBagans : nat;
  rs_totalDistance : Q;
  rs_totalTime : Z;
  rs_totalFuelCost : Z;
  rs_totalExpectedProfit : Z
}.

(** The two shapes [optimizeRoute] returns for a non-empty input:
    [{route, totalDistance, totalTime}] for a single item and
    [{route, summary}] otherwise. *)
Inductive RoutePlan : Type :=
| SingleRoute (route : list MoveItem) (totalDistance : Q) (totalTime : Z)
| DetailedRoute (route : list RouteStep) (summary : RouteSummary).

(** [optimizedRoute.summary]: [undefined] on the single-item shape. *)
Definition summary (r : RoutePlan) : option RouteSummary :=
  match r with
  | SingleRoute _ _ _ => None
  | DetailedRoute _ s => Some s
  end.

Record EstimatedTotals : Type := {
  et_totalDistance : Q;
  et_totalTime : Z;
  et_totalFuelCost : Z;
  et_totalExpectedProfit : Z;
  et_netProfit : Z;
  et_roi : string
}.

Record ResultSummary : Type := {
  totalBagans : nat;
  bagansToMove : nat;
  bagansToStay : Z;
  worthMoving : bool
}.

Record OptimizationResult : Type := {
  or_summary : ResultSummary;
  or_recommendations : list BaganRecommendation;
  or_optimizedRoute : option RoutePlan;
  or_estimatedTotals : option EstimatedTotals
}.

Record Input : Type := {
  kapalPosition : Position;
  currentBagans : list Bagan;
  candidateSpots : list Spot
}.

Section Engine.

Variable rt : JS.Runtime.
Variable cfg : Config.

Definition toRad (degrees : Q) : Q :=
  degrees * (JS.Math_PI rt / 180).

(** Haversine distance in kilometres. *)
Definition calculateDistance (lat1 lon1 lat2 lon2 : Q) : Q :=
  let R := 6371 in
  let dLat := toRad (lat2 - lat1) in
  let dLon := toRad (lon2 - lon1) in
  let a :=
    JS.Math_sin rt (dLat / 2) * JS.Math_sin rt (dLat / 2)
    + JS.Math_cos rt (toRad lat1) * JS.Math_cos rt (toRad lat2)
      * JS.Math_sin rt (dLon / 2) * JS.Math_sin rt (dLon / 2) in
  let c := 2 * JS.Math_atan2 rt (JS.Math_sqrt rt a) (JS.Math_sqrt rt (1 - a)) in
  R * c.

(** Tow time in minutes.  [towSpeedKnots] is taken to be non-zero. *)
Definition calculateTowTime (distanceKm : Q) : Q :=
  let distanceNM := distanceKm * 0.539957 in
  let hours := distanceNM / towSpeedKnots cfg in
  hours * 60.

Definition calculateFuelCost (distanceKm : Q) : Q :=
  let liters := distanceKm * fuelConsumptionTow cfg in
  liters * fuelPricePerLiter cfg.

Definition estimateCatch (score : Q) : Catch :=
  let baseMin := score * 0.6 in
  let baseMax := score * 0.9 in
  {| c_min := JS.Math_round baseMin;
     c_max := JS.Math_round baseMax;
     c_avg := JS.Math_round ((baseMin + baseMax) / 2) |}.

(** The average as the specification words it, from the rounded [min]
    and [max]. *)
Definition spec_avgOfRounded (score : Q) : Z :=
  let c := estimateCatch score in
  JS.Math_round ((inject_Z (c_min c) + inject_Z (c_max c)) / 2).

(** The quantities [shouldMoveBagan] computes before it rounds them
    for the [analysis] object. *)
Definition moveDistance (currentBagan : Bagan) (targetSpot : Spot) : Q :=
  calculateDistance (b_lat currentBagan) (b_lng currentBagan)
                    (s_lat targetSpot) (s_lng targetSpot).

Definition extraCatchAvg (currentBagan : Bagan) (targetSpot : Spot) : Z :=
  (c_avg (estimateCatch (s_score targetSpot))
   - c_avg (estimateCatch (b_score currentBagan)))%Z.

Definition rawExtraRevenue (currentBagan : Bagan) (targetSpot : Spot) : Q :=
  inject_Z (extraCatchAvg currentBagan targetSpot) * catchPricePerKg cfg.

Definition rawNetProfit (currentBagan : Bagan) (targetSpot : Spot) : Q :=
  rawExtraRevenue currentBagan targetSpot
  - calculateFuelCost (moveDistance currentBagan targetSpot).

Definition tooFarReason (distance : Q) : string :=
  ("Too far (" ++ JS.toFixed 1 distance ++ " km > "
     ++ JS.Number_toString rt (maxTowDistance cfg) ++ " km max)")%string.

Definition shouldMoveBagan (currentBagan : Bagan) (targetSpot : Spot) : Decision :=
  let distance := moveDistance currentBagan targetSpot in
  if Qlt_le_dec (maxTowDistance cfg) distance then
    TooFar (tooFarReason distance)
  else
    let towTime := calculateTowTime distance in
    let setupTime := setupTimeMinutes cfg in
    let totalTime := towTime + setupTime in
    let fuelCost := calculateFuelCost distance in
    let currentCatch := estimateCatch (b_score currentBagan) in
    let targetCatch := estimateCatch (s_score targetSpot) in
    let extraCatchAvg := (c_avg targetCatch - c_avg currentCatch)%Z in
    let extraRevenue := inject_Z extraCatchAvg * catchPricePerKg cfg in
    let netProfit := extraRevenue - fuelCost in
    let roi := if Qlt_le_dec 0 fuelCost
               then (netProfit / fuelCost) * 100 else 0 in
    let shouldMove := Qle_bool (minProfitThreshold cfg) netProfit in
    Analysed shouldMove
      {| currentScore := b_score currentBagan;
         targetScore := s_score targetSpot;
         scoreDelta := s_score targetSpot - b_score currentBagan;
         distance := JS.toFixed_value 2 distance;
         towTime := JS.Math_round towTime;
         setupTime := setupTime;
         totalTime := JS.Math_round totalTime;
         fuelCost := JS.Math_round fuelCost;
         currentExpectedCatch := currentCatch;
         targetExpectedCatch := targetCatch;
         extraCatch := extraCatchAvg;
         extraRevenue := JS.Math_round extraRevenue;
         netProfit := JS.Math_round netProfit;
         roi := JS.Math_round roi;
         worthIt := shouldMove |}.

(** *** findBestSpots *)

(** The variables of the per-bagan loop. *)
Record Best : Type := {
  bestSpot : option Spot;
  bestAnalysis : option Analysis;
  maxProfit : Q
}.

Definition initialBest : Best :=
  {| bestSpot := None;
     bestAnalysis := None;
     maxProfit := minProfitThreshold cfg |}.

(** One iteration of [for (const spot of availableSpots)]. *)
Definition evaluateSpot (b : Bagan) (st : Best) (spot : Spot) : Best :=
  match shouldMoveBagan b spot with
  | Analysed true a =>
      if Qlt_le_dec (maxProfit st) (inject_Z (netProfit a)) then
        {| bestSpot := Some spot;
           bestAnalysis := Some a;
           maxProfit := inject_Z (netProfit a) |}
      else st
  | _ => st
  end.

Definition bestFor (b : Bagan) (availableSpots : list Spot) : Best :=
  fold_left (evaluateSpot b) availableSpots initialBest.

Definition recommend (b : Bagan) (st : Best) : Recommendation :=
  match bestSpot st with
  | Some spot => Move spot (bestAnalysis st)
  | None =>
      Stay (match bestAnalysis st with
            | Some _ => "Not profitable enough"
            | None => "No better spot found"
            end)
           {| ca_score := b_score b;
              ca_expectedCatch := estimateCatch (b_score b) |}
  end.

Definition findBestSpots (currentBagans : list Bagan)
    (availableSpots : list Spot) : list BaganRecommendation :=
  map (fun b => {| bagan := b;
                   recommendation := recommend b (bestFor b availableSpots) |})
      currentBagans.

(** What the per-bagan loop has established once it has gone through
    [seen]: either no spot of [seen] passed the test of the loop, or the
    loop holds the first spot of [seen] whose rounded net profit is the
    largest among the spots that [shouldMoveBagan] accepts. *)
Definition Selected (b : Bagan) (seen : list Spot) (st : Best) : Prop :=
  match bestSpot st with
  | None =>
      bestAnalysis st = None
      /\ maxProfit st = minProfitThreshold cfg
      /\ forall s a, In s seen -> shouldMoveBagan b s = Analysed true a ->
           inject_Z (netProfit a) <= minProfitThreshold cfg
  | Some s =>
      exists before after a,
        seen = before ++ s :: after
        /\ shouldMoveBagan b s = Analysed true a
        /\ bestAnalysis st = Some a
        /\ maxProfit st = inject_Z (netProfit a)
        /\ minProfitThreshold cfg < inject_Z (netProfit a)
        /\ (forall s' a', In s' before ->
             shouldMoveBagan b s' = Analysed true a' ->
             (netProfit a' < netProfit a)%Z)
        /\ (forall s' a', In s' after ->
             shouldMoveBagan b s' = Analysed true a' ->
             (netProfit a' <= netProfit a)%Z)
  end.

(** *** generatePermutations *)

(** [arr.slice(0, i).concat(arr.slice(i + 1))]. *)
Definition removeAt {A : Type} (i : nat) (arr : list A) : list A :=
  firstn i arr ++ skipn (S i) arr.

(** The recursion is on the List.length of the array, which each call
    decreases by one; [fuel] is that length. *)
Fixpoint generatePermutationsFrom {A : Type} (fuel : nat) (arr : list A)
    : list (list A) :=
  match fuel with
  | O => [arr]
  | S fuel' =>
      if (List.length arr <=? 1)%nat then [arr]
      else
        flat_map
          (fun i =>
             match nth_error arr i with
             | Some current =>
                 map (cons current)
                     (generatePermutationsFrom fuel' (removeAt i arr))
             | None => []
             end)
          (seq 0 (List.length arr))
  end.

Definition generatePermutations {A : Type} (arr : list A) : list (list A) :=
  generatePermutationsFrom (List.length arr) arr.

(** *** optimizeRoute *)

(** The inner loop over one permutation: the accumulated [distance]
    and [currentPos].  The two [distance += ...] of an item are two
    additions of the runtime, made in that order. *)
Definition visit (acc : Q * Position) (item : MoveItem) : Q * Position :=
  let '(distance, currentPos) := acc in
  let distance :=
    JS.plus rt distance
      (calculateDistance (lat currentPos) (lng currentPos)
         (b_lat (m_bagan item)) (b_lng (m_bagan item))) in
  let distance :=
    JS.plus rt distance
      (calculateDistance (b_lat (m_bagan item)) (b_lng (m_bagan item))
         (s_lat (m_targetSpot item)) (s_lng (m_targetSpot item))) in
  (distance, spotPosition (m_targetSpot item)).

Definition routeDistance (kapalPosition : Position) (perm : list MoveItem) : Q :=
  fst (fold_left visit perm (0, kapalPosition)).

(** [currentPos] once the inner loop has gone through [perm]: the
    target spot of the last item, the vessel's position for no item. *)
Definition positionAfter (kapalPosition : Position) (perm : list MoveItem)
    : Position :=
  fold_left (fun _ item => spotPosition (m_targetSpot item)) perm kapalPosition.

(** The variables of the loop over the permutations; [minDistance]
    starts as [Infinity]. *)
Record Search : Type := {
  bestRoute : option (list MoveItem);
  minDistance : JS.jsnum
}.

Definition initialSearch : Search :=
  {| bestRoute := None; minDistance := JS.PosInfinity |}.

(** [distance < minDistance] for a finite [distance]. *)
Definition belowMin (distance : Q) (minDistance : JS.jsnum) : bool :=
  match minDistance with
  | JS.Fin m => if Qlt_le_dec distance m then true else false
  | JS.PosInfinity => true
  | JS.NegInfinity => false
  | JS.NaN => false
  end.

Definition considerPermutation (kapalPosition : Position)
    (st : Search) (perm : list MoveItem) : Search :=
  let distance := routeDistance kapalPosition perm in
  if belowMin distance (minDistance st) then
    {| bestRoute := Some perm; minDistance := JS.Fin distance |}
  else st.

Definition searchBestRoute (kapalPosition : Position)
    (bagansToMove : list MoveItem) : Search :=
  fold_left (considerPermutation kapalPosition)
            (generatePermutations bagansToMove) initialSearch.

(** What the loop over the permutations has established once it has
    gone through [seen]: the route it holds is the first of [seen] with
    the least total distance. *)
Definition Searched (kapalPosition : Position)
    (seen : list (list MoveItem)) (st : Search) : Prop :=
  match bestRoute st with
  | None => seen = [] /\ minDistance st = JS.PosInfinity
  | Some best =>
      minDistance st = JS.Fin (routeDistance kapalPosition best)
      /\ exists before after,
           seen = before ++ best :: after
           /\ (forall p, In p before ->
                routeDistance kapalPosition best < routeDistance kapalPosition p)
           /\ (forall p, In p after ->
                routeDistance kapalPosition best <= routeDistance kapalPosition p)
  end.

(** An item whose [recommendation.analysis] is an object. *)
Definition analysed (item : MoveItem) : Prop := m_analysis item <> None.

(** The variables of the loop that details the chosen route. *)
Record Details : Type := {
  routeDetails : list RouteStep;
  currentPos : Position;
  d_cumulativeTime : Q;
  d_cumulativeDistance : Q
}.

Definition detailStep (st : Details) (i : nat) (item : MoveItem)
    : result Details :=
  let distToPickup :=
    calculateDistance (lat (currentPos st)) (lng (currentPos st))
                      (b_lat (m_bagan item)) (b_lng (m_bagan item)) in
  a <- getProperty (m_analysis item) "distance" ;;
  let distToTow := distance a in
  let timeToPickup := calculateTowTime distToPickup in
  let timeToTow := towTime a in
  let setupTime := setupTimeMinutes cfg in
  let stepDistance := distToPickup + distToTow in
  let stepTime := timeToPickup + inject_Z timeToTow + setupTime in
  let cumulativeDistance := d_cumulativeDistance st + stepDistance in
  let cumulativeTime := d_cumulativeTime st + stepTime in
  Ok {| routeDetails :=
          routeDetails st ++
          [ {| step := i + 1;
               baganId := b_id (m_bagan item);
               baganName := b_name (m_bagan item);
               from := currentPos st;
               pickupLocation := baganPosition (m_bagan item);
               targetLocation := m_targetSpot item;
               distanceToPickup := JS.toFixed_value 2 distToPickup;
               distanceToTow := JS.toFixed_value 2 distToTow;
               totalStepDistance := JS.toFixed_value 2 stepDistance;
               timeToPickup := JS.Math_round timeToPickup;
               timeToTow := JS.Math_round (inject_Z timeToTow);
               stepSetupTime := setupTime;
               totalStepTime := JS.Math_round stepTime;
               cumulativeDistance := JS.toFixed_value 2 cumulativeDistance;
               cumulativeTime := JS.Math_round cumulativeTime;
               stepTargetScore := s_score (m_targetSpot item);
               expectedProfit := netProfit a |} ];
        currentPos := spotPosition (m_targetSpot item);
        d_cumulativeTime := cumulativeTime;
        d_cumulativeDistance := cumulativeDistance |}.

Fixpoint detailRoute (st : Details) (i : nat) (items : list MoveItem)
    : result Details :=
  match items with
  | [] => Ok st
  | item :: rest =>
      st' <- detailStep st i item ;;
      detailRoute st' (S i) rest
  end.

(** [bestRoute.reduce((sum, item) => sum +
    item.recommendation.analysis.netProfit, 0)]. *)
Fixpoint sumExpectedProfit (sum : Z) (items : list MoveItem) : result Z :=
  match items with
  | [] => Ok sum
  | item :: rest =>
      a <- getProperty (m_analysis item) "netProfit" ;;
      sumExpectedProfit (sum + netProfit a)%Z rest
  end.

Definition optimizeRoute (kapalPosition : Position)
    (bagansToMove : list MoveItem) : result (option RoutePlan) :=
  match bagansToMove with
  | [] => Ok None
  | [only] =>
      Ok (Some (SingleRoute [only]
                  (calculateDistance (lat kapalPosition) (lng kapalPosition)
                     (b_lat (m_bagan only)) (b_lng (m_bagan only)))
                  0))
  | _ =>
      let st := searchBestRoute kapalPosition bagansToMove in
      best <- getProperty (bestRoute st) "length" ;;
      d <- detailRoute {| routeDetails := [];
                          currentPos := kapalPosition;
                          d_cumulativeTime := 0;
                          d_cumulativeDistance := 0 |} 0 best ;;
      profit <- sumExpectedProfit 0 best ;;
      Ok (Some (DetailedRoute (routeDetails d)
                  {| rs_totalBagans := List.length best;
                     rs_totalDistance :=
                       JS.toFixed_value 2 (d_cumulativeDistance d);
                     rs_totalTime := JS.Math_round (d_cumulativeTime d);
                     rs_totalFuelCost :=
                       JS.Math_round (calculateFuelCost (d_cumulativeDistance d));
                     rs_totalExpectedProfit := profit |}))
  end.

(** *** optimizeBaganOperations *)

(** [recommendations.filter(r => r.recommendation.action === 'move')]. *)
Definition movesOf (recommendations : list BaganRecommendation) : list MoveItem :=
  flat_map
    (fun r =>
       match recommendation r with
       | Move spot a =>
           [ {| m_bagan := bagan r; m_targetSpot := spot; m_analysis := a |} ]
       | Stay _ _ => []
       end)
    recommendations.

Definition estimatedTotalsOf (optimizedRoute : RoutePlan) : result EstimatedTotals :=
  s <- getProperty (summary optimizedRoute) "totalDistance" ;;
  Ok {| et_totalDistance := rs_totalDistance s;
        et_totalTime := rs_totalTime s;
        et_totalFuelCost := rs_totalFuelCost s;
        et_totalExpectedProfit := rs_totalExpectedProfit s;
        et_netProfit := (rs_totalExpectedProfit s - rs_totalFuelCost s)%Z;
        et_roi :=
          JS.toFixed_jsnum 1
            (JS.scale
               (JS.div (inject_Z (rs_totalExpectedProfit s - rs_totalFuelCost s))
                       (inject_Z (rs_totalFuelCost s)))
               100) |}.

Definition optimizeBaganOperations (input : Input) : result OptimizationResult :=
  let recommendations :=
    findBestSpots (currentBagans input) (candidateSpots input) in
  let toMove := movesOf recommendations in
  optimizedRoute <-
    (if (0 <? List.length toMove)%nat
     then optimizeRoute (kapalPosition input) toMove
     else Ok None) ;;
  totals <-
    match optimizedRoute with
    | Some r => t <- estimatedTotalsOf r ;; Ok (Some t)
    | None => Ok None
    end ;;
  Ok {| or_summary :=
          {| totalBagans := List.length (currentBagans input);
             bagansToMove := List.length toMove;
             bagansToStay :=
               (Z.of_nat (List.length (currentBagans input))
                - Z.of_nat (List.length toMove))%Z;
             worthMoving := (0 <? List.length toMove)%nat |};
        or_recommendations := recommendations;
        or_optimizedRoute := optimizedRoute;
        or_estimatedTotals := totals |}.

End Engine.

(** The bagans of the steps of the route of a result, in order. *)
Definition routeOrder (r : result OptimizationResult) : option (list string) :=
  match r with
  | Ok res =>
      match or_optimizedRoute res with
      | Some (DetailedRoute steps _) => Some (map baganId steps)
      | _ => None
      end
  | Throw _ => None
  end.

(** The fuel cost, expected profit and [roi] of the [estimatedTotals] of
    a result, when it has some. *)
Definition fuelAndRoi (r : result OptimizationResult) : option (Z * Z * string) :=
  match r with
  | Ok res =>
      option_map (fun t => (et_totalFuelCost t, et_totalExpectedProfit t, et_roi t))
                 (or_estimatedTotals res)
  | Throw _ => None
  end.

End Optimizer.

(* ====================================================================== *)
(** ** routes/optimize.js: the candidate scanner *)
(* ====================================================================== *)

Module Scanner.

Import ZoneService Optimizer.

Record MarineWeather : Type := { mw_waveHeight : WaveHeight }.

(** The four fetches of [zoneService] the scanner awaits; a result
    [Throw] is a rejected promise. *)
Record Collaborator : Type := {
  getChlorophyllData : Q -> Q -> CalendarDate -> result Chlorophyll;
  getSST : Q -> Q -> CalendarDate -> result SeaSurfaceTemperature;
  getMarineWeather : Q -> Q -> result MarineWeather;
  getWindData : Q -> Q -> result WindSpeed
}.

Section Scan.

Variable rt : JS.Runtime.
Variable zoneService : Collaborator.

(** The body of the [try] block of [estimateScoreForLocation]. *)
Definition realScore (lat lng : Q) (date : CalendarDate) : result Z :=
  chlorophyll <- getChlorophyllData zoneService lat lng date ;;
  sst <- getSST zoneService lat lng date ;;
  marine <- getMarineWeather zoneService lat lng ;;
  wind <- getWindData zoneService lat lng ;;
  let moon := getMoonPhase date in
  let scoreResult :=
    calculateZoneScore
      {| chlorophyll := Some chlorophyll;
         sst := Some sst;
         waveHeight := Some (mw_waveHeight marine);
         wind := Some wind;
         moon := Some moon |} in
  Ok (score scoreResult).

Definition estimateScoreForLocation (lat lng : Q) (date : CalendarDate) : Z :=
  match realScore lat lng date with
  | Ok s => s
  | Throw _ => 75%Z
  end.

(** The integers [lo, lo + 1, ..., hi] of a [for] loop. *)
Definition steps (lo hi : Z) : list Z :=
  map (fun k => (lo + Z.of_nat k)%Z) (seq 0 (Z.to_nat (hi - lo + 1))).

(** The variables of the grid loops. *)
Record Found : Type := {
  spots : list Spot;
  spotId : Z
}.

Definition tooClose (currentBagans : list Bagan) (lat lng : Q) : bool :=
  existsb
    (fun b =>
       let distToBagan := calculateDistance rt (b_lat b) (b_lng b) lat lng in
       if Qlt_le_dec distToBagan 0.3 then true else false)
    currentBagans.

(** The body of the inner loop at the grid point [(lat, lng)]. *)
Definition visitPoint (center : Position) (currentBagans : list Bagan)
    (radiusKm : Q) (date : CalendarDate) (st : Found) (point : Q * Q) : Found :=
  let '(lat, lng) := point in
  let dist := calculateDistance rt (Optimizer.lat center) (Optimizer.lng center)
                                lat lng in
  if Qlt_le_dec radiusKm dist then st
  else if tooClose currentBagans lat lng then st
  else
    let score := estimateScoreForLocation lat lng date in
    if (70 <=? score)%Z then
      {| spots :=
           spots st ++
           [ {| s_id := ("SPOT_" ++ JS.digits (spotId st))%string;
                s_name := ("Candidate " ++ JS.digits (spotId st + 1))%string;
                s_lat := JS.toFixed_value 4 lat;
                s_lng := JS.toFixed_value 4 lng;
                s_score := inject_Z score;
                s_estimatedCatch := Some (estimateCatch (inject_Z score)) |} ];
         spotId := (spotId st + 1)%Z |}
    else st.

Definition gridPoints (center : Position) (radiusKm : Q) : list (Q * Q) :=
  let gridSize := 0.5 in
  let stepsPerSide := JS.Math_ceil (radiusKm / gridSize) in
  let kmPerDegreeLat := 111 in
  let kmPerDegreeLng :=
    111 * JS.Math_cos rt (Optimizer.lat center * JS.Math_PI rt / 180) in
  let degPerStepLat := gridSize / kmPerDegreeLat in
  let degPerStepLng := gridSize / kmPerDegreeLng in
  flat_map
    (fun latStep =>
       map (fun lngStep =>
              (Optimizer.lat center + inject_Z latStep * degPerStepLat,
               Optimizer.lng center + inject_Z lngStep * degPerStepLng))
           (steps (- stepsPerSide) stepsPerSide))
    (steps (- stepsPerSide) stepsPerSide).

(** [spots.sort((a, b) => b.score - a.score)]: the sort is stable, so
    its result is that of inserting each spot before the first spot
    whose score is not above its own. *)
Fixpoint insertByScore (x : Spot) (sorted : list Spot) : list Spot :=
  match sorted with
  | [] => [x]
  | y :: rest =>
      if Qle_bool (s_score y) (s_score x) then x :: y :: rest
      else y :: insertByScore x rest
  end.

Definition sortByScoreDescending (l : list Spot) : list Spot :=
  fold_right insertByScore [] l.

Definition scanAreaForSpots (center : Position) (currentBagans : list Bagan)
    (radiusKm : Q) (date : CalendarDate) : list Spot :=
  let found :=
    fold_left (visitPoint center currentBagans radiusKm date)
              (gridPoints center radiusKm)
              {| spots := []; spotId := 1 |} in
  firstn 20 (sortByScoreDescending (spots found)).

End Scan.



End Scanner.

(* ====================================================================== *)
(** ** A reference runtime *)
(* ====================================================================== *)

(** Rational stand-ins for the [Math] functions, accurate for the small
    angles of a fishing ground (a few kilometres): truncated series for
    [sin], [cos] and the arc tangent, and a square root through the
    integer square root, each result being cut to eighteen decimals.
    They are exact where [JS.Lawful] says every implementation is.  The
    sum is the exact sum rounded to the nearest double. *)
Module Reference.

Definition PI : Q := 3.14159265358979.

(** [x] cut to eighteen decimals. *)
Definition fixed (x : Q) : Q :=
  Qred (Qmake (Qfloor (x * inject_Z (10 ^ 18))) (10 ^ 18)).

Definition sin (x : Q) : Q := fixed (x - x * x * x / 6).

Definition cos (x : Q) : Q := fixed (1 - x * x / 2 + x * x * x * x / 24).

Definition sqrt (x : Q) : Q :=
  Qred (Qmake (Z.sqrt (Qfloor (x * inject_Z (10 ^ 36)))) (10 ^ 18)).

Definition atan2 (y x : Q) : Q :=
  let t := y / x in
  fixed (t - t * t * t / 3).

(** Integers print as their digits; no other number is printed by the
    inputs evaluated with this runtime. *)
Definition toString (x : Q) : string :=
  ((if Qlt_le_dec x 0 then "-" else "") ++ JS.digits (Qfloor (Qabs x)))%string.

(** The double nearest to [x], the one of even significand when [x] is
    half way between two doubles, for [x] in the range of the normal
    doubles: with [2^e <= |x| < 2^(e+1)], the multiple of [2^(e-52)]
    nearest to [x]. *)
Definition nearestDouble (x : Q) : Q :=
  if Qeq_bool x 0 then 0
  else
    let a := Qabs x in
    let e0 := (Z.log2 (Qnum a) - Z.log2 (Zpos (Qden a)))%Z in
    let e := if Qlt_le_dec a (Qpower 2 e0) then (e0 - 1)%Z else e0 in
    let ulp := Qpower 2 (e - 52) in
    let m := a / ulp in
    let n := Qfloor m in
    let r := m - inject_Z n in
    let nearest :=
      if Qlt_le_dec r (1 # 2) then n
      else if Qlt_le_dec (1 # 2) r then (n + 1)%Z
      else if Z.even n then n else (n + 1)%Z in
    let y := inject_Z nearest * ulp in
    Qred (if Qlt_le_dec x 0 then - y else y).

(** The sum of two doubles as IEEE 754 defines it. *)
Definition plus (a b : Q) : Q := nearestDouble (a + b).

Definition runtime : JS.Runtime :=
  {| JS.Math_sin := sin;
     JS.Math_cos := cos;
     JS.Math_sqrt := sqrt;
     JS.Math_atan2 := atan2;
     JS.Math_PI := PI;
     JS.Number_toString := toString;
     JS.plus := plus |}.

End Reference.

(* ====================================================================== *)
(** ** Concrete inputs *)
(* ====================================================================== *)

Module Scenarios.

Import ZoneService Optimizer.

(** A bundle with every factor but chlorophyll, each at its best band. *)
Definition noChlorophyll : ZoneData :=
  {| chlorophyll := None;
     sst := Some {| sstValue := 28; sstSource := "NOAA MUR SST" |};
     moon := Some {| illumination := 10; phase := "Waxing Crescent";
                     moonQuality := "excellent" |};
     waveHeight := Some {| waveValue := 0.5 |};
     wind := Some {| windSpeedValue := 3; windSource := "OpenWeather" |} |}.

Definition june_6_2024 : CalendarDate :=
  {| year := 2024; month := 6; day := 6 |}.

(** The base position of the example of [optimizerService.js]. *)
Definition base : Position := {| lat := -6.7500; lng := 105.5200 |}.

Definition B1 : Bagan :=
  {| b_id := "B1"; b_name := "Bagan 1";
     b_lat := -6.7500; b_lng := 105.5200; b_score := 75 |}.

(** A second bagan moored at the same coordinates as [B1]. *)
Definition B2 : Bagan :=
  {| b_id := "B2"; b_name := "Bagan 2";
     b_lat := -6.7500; b_lng := 105.5200; b_score := 68 |}.

Definition spotA : Spot :=
  {| s_id := "S1"; s_name := "Spot A";
     s_lat := -6.7480; s_lng := 105.5180; s_score := 89;
     s_estimatedCatch := None |}.

(** About eight kilometres south of [B1]. *)
Definition spotFar : Spot :=
  {| s_id := "S8"; s_name := "Spot Far";
     s_lat := -6.8220; s_lng := 105.5200; s_score := 89;
     s_estimatedCatch := None |}.

(** Two spots at the coordinates of [B1]: the distance to them is 0. *)
Definition spotHere89 : Spot :=
  {| s_id := "S2"; s_name := "Spot Here";
     s_lat := -6.7500; s_lng := 105.5200; s_score := 89;
     s_estimatedCatch := None |}.

Definition spotHere90 : Spot :=
  {| s_id := "S3"; s_name := "Spot Here Too";
     s_lat := -6.7500; s_lng := 105.5200; s_score := 90;
     s_estimatedCatch := None |}.

(** [CONFIG] after [PUT /config] with [{catchPricePerKg: 0.1,
    minProfitThreshold: 0}]. *)
Definition lowPrices : Config :=
  {| fuelPricePerLiter := 10000;
     fuelConsumptionTow := 4;
     catchPricePerKg := 0.1;
     minProfitThreshold := 0;
     towSpeedKnots := 2.5;
     setupTimeMinutes := 20;
     maxTowDistance := 5 |}.

(** One bagan and one spot worth the move. *)
Definition oneMover : Input :=
  {| kapalPosition := base;
     currentBagans := [B1];
     candidateSpots := [spotA] |}.

(** Two bagans at the position of the vessel and one spot there too:
    both bagans are moved and the whole route has length 0. *)
Definition B4 : Bagan :=
  {| b_id := "B4"; b_name := "Bagan 4";
     b_lat := -6.7560; b_lng := 105.5230; b_score := 71 |}.

Definition spotD : Spot :=
  {| s_id := "S4"; s_name := "Spot D";
     s_lat := -6.7550; s_lng := 105.5225; s_score := 81;
     s_estimatedCatch := None |}.

(** The vessel lies at [B1]; [B4] is listed first. *)
Definition twoMovers : Input :=
  {| kapalPosition := base;
     currentBagans := [B4; B1];
     candidateSpots := [spotA; spotD] |}.

Definition zeroLengthRoute : Input :=
  {| kapalPosition := base;
     currentBagans := [B1; B2];
     candidateSpots := [spotHere89] |}.

End Scenarios.

(* ====================================================================== *)
(** ** optimizerService.js: the island bonus and the sums of a route *)
(* ====================================================================== *)

Module OptimizerMore.

Import Optimizer.

(** An entry of [CONFIG.islands]. *)
Record Island : Type := {
  i_name : string;
  i_lat : Q;
  i_lng : Q
}.

Definition CONFIG_islands : list Island :=
  [ {| i_name := "Pulau Badul"; i_lat := -6.7450; i_lng := 105.5150 |};
    {| i_name := "Pulau Tinjil"; i_lat := -6.7300; i_lng := 105.5000 |};
    {| i_name := "Karang Bokor"; i_lat := -6.7600; i_lng := 105.5300 |} ].

Section Bonus.

Variable rt : JS.Runtime.

(** One iteration of [for (const island of CONFIG.islands)]. *)
Definition addIslandBonus (lat lng : Q) (bonus : Z) (island : Island) : Z :=
  let dist := calculateDistance rt lat lng (i_lat island) (i_lng island) in
  if Qlt_le_dec dist 0.5 then (bonus + 5)%Z
  else if Qlt_le_dec dist 1.0 then (bonus + 3)%Z
  else if Qlt_le_dec dist 2.0 then (bonus + 1)%Z
  else bonus.

Definition nearIslandBonus (islands : list Island) (lat lng : Q) : Z :=
  let bonus := fold_left (addIslandBonus lat lng) islands 0%Z in
  Z.min bonus 10.

End Bonus.

(** The net profit the route summary adds for an item. *)
Definition profitOf (item : MoveItem) : Z :=
  match m_analysis item with
  | Some a => netProfit a
  | None => 0%Z
  end.

Definition sumZ (l : list Z) : Z := fold_right Z.add 0%Z l.

(** The last element of an array, if it has one. *)
Definition lastOf {A : Type} (l : list A) : option A :=
  nth_error l (List.length l - 1).

(** The running totals agree with the last step that was detailed. *)
Definition Totalled (st : Details) : Prop :=
  match lastOf (routeDetails st) with
  | Some last =>
      cumulativeDistance last = JS.toFixed_value 2 (d_cumulativeDistance st)
      /\ cumulativeTime last = JS.Math_round (d_cumulativeTime st)
  | None => True
  end.

(** The position the vessel is at before each step of a route. *)
Fixpoint departures (start : Position) (route : list MoveItem) : list Position :=
  match route with
  | [] => []
  | item :: rest => start :: departures (spotPosition (m_targetSpot item)) rest
  end.

End OptimizerMore.

(* ====================================================================== *)
(** ** A runtime with an odd sine *)
(* ====================================================================== *)

(** The stand-ins of [Reference] with the series of the sine left
    uncut, so that [sin (- x)] is exactly [- sin x], as it is for the
    sine of every JavaScript engine. *)
Module Series.

Definition sin (x : Q) : Q := x - x * x * x / 6.

Definition runtime : JS.Runtime :=
  {| JS.Math_sin := sin;
     JS.Math_cos := Reference.cos;
     JS.Math_sqrt := Reference.sqrt;
     JS.Math_atan2 := Reference.atan2;
     JS.Math_PI := Reference.PI;
     JS.Number_toString := Reference.toString;
     JS.plus := Reference.plus |}.

End Series.

(* ====================================================================== *)
(** ** The candidate scanner: where a candidate comes from *)
(* ====================================================================== *)

Module ScannerMore.

Import ZoneService Optimizer Scanner.

Section Origin.

Variable rt : JS.Runtime.
Variable zoneService : Collaborator.
Variable center : Position.
Variable currentBagans : list Bagan.
Variable radiusKm : Q.
Variable date : CalendarDate.

(** The spot [s] was made from the grid point [(plat, plng)], found as
    the [k]-th candidate. *)
Definition MadeFrom (s : Spot) (plat plng : Q) (k : Z) : Prop :=
  calculateDistance rt (lat center) (lng center) plat plng <= radiusKm
  /\ (forall b, In b currentBagans ->
       0.3 <= calculateDistance rt (b_lat b) (b_lng b) plat plng)
  /\ (70 <= estimateScoreForLocation zoneService plat plng date)%Z
  /\ (1 <= k)%Z
  /\ s = {| s_id := ("SPOT_" ++ JS.digits k)%string;
            s_name := ("Candidate " ++ JS.digits (k + 1))%string;
            s_lat := JS.toFixed_value 4 plat;
            s_lng := JS.toFixed_value 4 plng;
            s_score := inject_Z (estimateScoreForLocation zoneService plat plng date);
            s_estimatedCatch :=
              Some (estimateCatch
                      (inject_Z (estimateScoreForLocation zoneService plat plng date))) |}.

(** Every spot found so far was made from one of [points], with a
    number below the next [spotId]. *)
Definition Traced (points : list (Q * Q)) (st : Found) : Prop :=
  (1 <= spotId st)%Z
  /\ Forall (fun s => exists plat plng k,
                In (plat, plng) points /\ (k < spotId st)%Z
                /\ MadeFrom s plat plng k)
            (spots st).

(** The candidates in the order in which the grid loops found them:
    the array [spots] before it is sorted. *)
Definition discovered : list Spot :=
  spots (fold_left (visitPoint rt zoneService center currentBagans radiusKm date)
                   (gridPoints rt center radiusKm)
                   {| spots := []; spotId := 1 |}).

(** The candidates found so far are numbered in the order in which
    they were found, from 1, and [spotId] is the next number. *)
Definition Numbered (st : Found) : Prop :=
  spotId st = (Z.of_nat (List.length (spots st)) + 1)%Z
  /\ forall n s,
       nth_error (spots st) n = Some s ->
       s_id s = ("SPOT_" ++ JS.digits (Z.of_nat n + 1))%string
       /\ s_name s = ("Candidate " ++ JS.digits (Z.of_nat n + 2))%string.


End Origin.

End ScannerMore.

(* ====================================================================== *)
(** ** zoneService.js: the fetches and the zone recommendations *)
(* ====================================================================== *)

Module Fetchers.

Import ZoneService Optimizer Scanner.

(** [error.message]. *)
Definition messageOf (e : exn) : string :=
  match e with
  | TypeError property => property
  | Rejected message => message
  end.

(** *** fetchWithRetry *)

Section Retry.

Context {A : Type}.

(** [get i] is the outcome of the request sent at the iteration [i] of
    the loop; [remaining] is [retries - i].  The wait of one second
    between two attempts is not modelled. *)
Fixpoint fetchWithRetryFrom (get : nat -> result A) (i remaining : nat) : result A :=
  match get i with
  | Ok data => Ok data
  | Throw error =>
      match remaining with
      | O => Throw error
      | S remaining' => fetchWithRetryFrom get (S i) remaining'
      end
  end.

Definition fetchWithRetry (get : nat -> result A) (retries : nat) : result A :=
  fetchWithRetryFrom get 0 retries.

End Retry.

(** *** The payloads *)

(** A row of an ERDDAP table: its cell of index 3, read by [parseFloat]
    as a finite number. *)
Record ErddapRow : Type := { cell3 : Q }.

Record ErddapTable : Type := { rows : option (list ErddapRow) }.

Record ErddapData : Type := { table : option ErddapTable }.

(** [data.current] of the marine API; a field is [None] when it is
    absent or not a number. *)
Record MarineCurrent : Type := {
  wave_height : option Q;
  wave_direction : option Q;
  wave_period : option Q
}.

Record MarineData : Type := { current : option MarineCurrent }.

Record WindPayload : Type := {
  wp_speed : option Q;
  wp_deg : option Q;
  wp_gust : option Q
}.

Record WeatherData : Type := { wd_wind : option WindPayload }.

(** The remote services: the outcome of each attempt of a request, and
    whether [CONFIG.apis.openWeather] holds a key. *)
Record Network : Type := {
  erddapChlorophyll : Q -> Q -> CalendarDate -> nat -> result ErddapData;
  erddapSST : Q -> Q -> CalendarDate -> nat -> result ErddapData;
  marineApi : Q -> Q -> nat -> result MarineData;
  openWeatherApi : Q -> Q -> nat -> result WeatherData;
  openWeatherKey : bool
}.

(** *** The readings *)

Record ChlorophyllReading : Type := {
  cr_value : Q;
  cr_unit : string;
  cr_quality : string;
  cr_source : string;
  cr_error : option string
}.

Record SSTReading : Type := {
  sr_value : Q;
  sr_unit : string;
  sr_quality : string;
  sr_source : string;
  sr_error : option string
}.

Record Measure : Type := {
  me_value : Q;
  me_unit : string;
  me_quality : string
}.

Record MarineReading : Type := {
  mr_waveHeight : Measure;
  mr_waveDirection : Q;
  mr_wavePeriod : Q;
  mr_source : string;
  mr_error : option string
}.

Record WindReading : Type := {
  wr_speed : Measure;
  wr_direction : Q;
  wr_gust : option Q;
  wr_source : string;
  wr_error : option string
}.

(** [x || 0] for a number that may be missing, and [x || null]. *)
Definition orZero (x : option Q) : Q :=
  match x with
  | Some v => v
  | None => 0
  end.

Definition orNull (x : option Q) : option Q :=
  match x with
  | Some v => if Qeq_bool v 0 then None else Some v
  | None => None
  end.

(** [data.table && data.table.rows && data.table.rows.length > 0], and
    then the first row. *)
Definition firstRow (data : ErddapData) : option ErddapRow :=
  match table data with
  | Some t =>
      match rows t with
      | Some (row :: _) => Some row
      | _ => None
      end
  | None => None
  end.

Section Fetch.

Variable net : Network.

Definition chlorophyllFallback (message : string) : ChlorophyllReading :=
  {| cr_value := 0.35;
     cr_unit := "mg/m³";
     cr_quality := "medium";
     cr_source := "Estimated";
     cr_error := Some message |}.

Definition getChlorophyllData (lat lon : Q) (date : CalendarDate) : ChlorophyllReading :=
  match fetchWithRetry (erddapChlorophyll net lat lon date) 2 with
  | Ok data =>
      match firstRow data with
      | Some row =>
          let chlorophyll := cell3 row in
          {| cr_value := chlorophyll;
             cr_unit := "mg/m³";
             cr_quality := if Qlt_le_dec 0.5 chlorophyll then "high"
                           else if Qlt_le_dec 0.3 chlorophyll then "medium"
                           else "low";
             cr_source := "NASA VIIRS";
             cr_error := None |}
      | None => chlorophyllFallback "No chlorophyll data available"
      end
  | Throw error => chlorophyllFallback (messageOf error)
  end.

Definition sstFallback (message : string) : SSTReading :=
  {| sr_value := 28.5;
     sr_unit := "°C";
     sr_quality := "optimal";
     sr_source := "Estimated";
     sr_error := Some message |}.

Definition getSST (lat lon : Q) (date : CalendarDate) : SSTReading :=
  match fetchWithRetry (erddapSST net lat lon date) 2 with
  | Ok data =>
      match firstRow data with
      | Some row =>
          let sstKelvin := cell3 row in
          let sstCelsius := sstKelvin - 273.15 in
          {| sr_value := JS.toFixed_value 2 sstCelsius;
             sr_unit := "°C";
             sr_quality := if Qle_bool 27 sstCelsius && Qle_bool sstCelsius 30
                           then "optimal" else "suboptimal";
             sr_source := "NOAA MUR SST";
             sr_error := None |}
      | None => sstFallback "No SST data available"
      end
  | Throw error => sstFallback (messageOf error)
  end.

Definition marineFallback (message : string) : MarineReading :=
  {| mr_waveHeight := {| me_value := 0.8; me_unit := "m"; me_quality := "calm" |};
     mr_waveDirection := 90;
     mr_wavePeriod := 5;
     mr_source := "Estimated";
     mr_error := Some message |}.

Definition getMarineWeather (lat lon : Q) : MarineReading :=
  match fetchWithRetry (marineApi net lat lon) 2 with
  | Ok data =>
      match current data with
      | Some cur =>
          let waveHeight := orZero (wave_height cur) in
          {| mr_waveHeight :=
               {| me_value := waveHeight;
                  me_unit := "m";
                  me_quality := if Qlt_le_dec waveHeight 1.5 then "calm"
                                else if Qlt_le_dec waveHeight 2.5 then "moderate"
                                else "rough" |};
             mr_waveDirection := orZero (wave_direction cur);
             mr_wavePeriod := orZero (wave_period cur);
             mr_source := "Open-Meteo Marine";
             mr_error := None |}
      | None => marineFallback "No marine weather data available"
      end
  | Throw error => marineFallback (messageOf error)
  end.

Definition windFallback (message : string) : WindReading :=
  {| wr_speed := {| me_value := 4.5; me_unit := "m/s"; me_quality := "calm" |};
     wr_direction := 90;
     wr_gust := None;
     wr_source := "Estimated";
     wr_error := Some message |}.

Definition getWindData (lat lon : Q) : WindReading :=
  if negb (openWeatherKey net)
  then windFallback "OpenWeather API key not configured"
  else
    match fetchWithRetry (openWeatherApi net lat lon) 2 with
    | Ok data =>
        match wd_wind data with
        | Some w =>
            let windSpeed := orZero (wp_speed w) in
            {| wr_speed :=
                 {| me_value := windSpeed;
                    me_unit := "m/s";
                    me_quality := if Qlt_le_dec windSpeed 5 then "calm"
                                  else if Qlt_le_dec windSpeed 10 then "moderate"
                                  else "strong" |};
               wr_direction := orZero (wp_deg w);
               wr_gust := orNull (wp_gust w);
               wr_source := "OpenWeather";
               wr_error := None |}
        | None => windFallback "No wind data available"
        end
    | Throw error => windFallback (messageOf error)
    end.

(** What [calculateZoneScore] reads of each reading. *)
Definition chlorophyllOf (r : ChlorophyllReading) : Chlorophyll :=
  {| chlValue := cr_value r; chlSource := cr_source r |}.

Definition sstOf (r : SSTReading) : SeaSurfaceTemperature :=
  {| sstValue := sr_value r; sstSource := sr_source r |}.

Definition waveHeightOf (r : MarineReading) : WaveHeight :=
  {| waveValue := me_value (mr_waveHeight r) |}.

Definition windOf (r : WindReading) : WindSpeed :=
  {| windSpeedValue := me_value (wr_speed r); windSource := wr_source r |}.

(** The bundle [getZoneRecommendations] and [estimateScoreForLocation]
    pass to [calculateZoneScore]. *)
Definition zoneData (lat lng : Q) (date : CalendarDate) : ZoneData :=
  {| chlorophyll := Some (chlorophyllOf (getChlorophyllData lat lng date));
     sst := Some (sstOf (getSST lat lng date));
     waveHeight := Some (waveHeightOf (getMarineWeather lat lng));
     wind := Some (windOf (getWindData lat lng));
     moon := Some (getMoonPhase date) |}.

(** The module [zoneService] as the scanner uses it: none of its
    fetches rejects. *)
Definition zoneService : Collaborator :=
  {| Scanner.getChlorophyllData :=
       fun lat lng date => Ok (chlorophyllOf (getChlorophyllData lat lng date));
     Scanner.getSST := fun lat lng date => Ok (sstOf (getSST lat lng date));
     Scanner.getMarineWeather :=
       fun lat lng => Ok {| mw_waveHeight := waveHeightOf (getMarineWeather lat lng) |};
     Scanner.getWindData := fun lat lng => Ok (windOf (getWindData lat lng)) |}.

(** *** getZoneRecommendations *)

Record Zone : Type := {
  z_id : string;
  z_name : string;
  z_lat : Q;
  z_lng : Q
}.

Record PredictedCatch : Type := { pc_min : Z; pc_max : Z }.

Record ZoneRecommendation : Type := {
  zoneId : string;
  zoneName : string;
  latitude : Q;
  longitude : Q;
  zr_score : Z;
  scoreBreakdown : Breakdown;
  predictedCatch : PredictedCatch;
  zr_recommendation : string
}.

Definition recommendationLabel (score : Z) : string :=
  if (80 <=? score)%Z then "Highly Recommended"
  else if (60 <=? score)%Z then "Recommended"
  else if (40 <=? score)%Z then "Fair"
  else "Not Recommended".

(** The body of the [map] over the zones; it returns no [null], none of
    the fetches rejecting. *)
Definition recommendZone (date : CalendarDate) (zone : Zone) : ZoneRecommendation :=
  let scoreResult := calculateZoneScore (zoneData (z_lat zone) (z_lng zone) date) in
  {| zoneId := z_id zone;
     zoneName := z_name zone;
     latitude := z_lat zone;
     longitude := z_lng zone;
     zr_score := score scoreResult;
     scoreBreakdown := breakdown scoreResult;
     predictedCatch :=
       {| pc_min := JS.Math_round (inject_Z (score scoreResult) * 0.6);
          pc_max := JS.Math_round (inject_Z (score scoreResult) * 0.9) |};
     zr_recommendation := recommendationLabel (score scoreResult) |}.

(** [results.sort((a, b) => b.score - a.score)], a stable sort. *)
Fixpoint insertZone (x : ZoneRecommendation) (sorted : list ZoneRecommendation)
    : list ZoneRecommendation :=
  match sorted with
  | [] => [x]
  | y :: rest =>
      if (zr_score y <=? zr_score x)%Z then x :: y :: rest
      else y :: insertZone x rest
  end.

Definition sortZones (l : list ZoneRecommendation) : list ZoneRecommendation :=
  fold_right insertZone [] l.

(** [cached] is what [cache.get] returned for the date; the second
    component of the result is what the call stores with [cache.set]. *)
Definition getZoneRecommendations (zones : list Zone)
    (cached : option (list ZoneRecommendation)) (date : CalendarDate)
    : list ZoneRecommendation * option (list ZoneRecommendation) :=
  match cached with
  | Some recommendations => (recommendations, None)
  | None =>
      let validResults := sortZones (map (recommendZone date) zones) in
      (validResults, Some validResults)
  end.

End Fetch.

(** [CONFIG.zones] without any override from the environment. *)
Definition CONFIG_zones : list Zone :=
  [ {| z_id := "A"; z_name := "Zona A"; z_lat := -6.9456; z_lng := 105.6234 |};
    {| z_id := "B"; z_name := "Zona B"; z_lat := -6.9123; z_lng := 105.6789 |};
    {| z_id := "C"; z_name := "Zona C"; z_lat := -6.8900; z_lng := 105.7000 |} ].

(** A request whose attempts all fail. *)
Definition failing {A : Type} (get : nat -> result A) (retries : nat) : Prop :=
  forall i, (i <= retries)%nat -> exists e, get i = Throw e.



(** The order of the list of recommendations. *)
Definition byScore (a b : ZoneRecommendation) : Prop := (zr_score b <= zr_score a)%Z.

End Fetchers.

(* ====================================================================== *)
(** ** routes/optimize.js: the handlers *)
(* ====================================================================== *)

Module Routes.

Import ZoneService Optimizer Scanner.

(** The body of [POST /analyze]; a field is [None] when it is absent. *)
Record AnalyzeBody : Type := {
  ab_kapalPosition : option Position;
  ab_currentBagans : option (list Bagan);
  ab_scanRadius : option Q;
  ab_date : option CalendarDate
}.

(** The three answers of the handlers: [200] with the data, [400] with
    an error text and [500] with the error caught. *)
Inductive Response (A : Type) : Type :=
| Success (data : A)
| BadRequest (error : string)
| ServerError (error : exn).

Arguments Success {A} data.
Arguments BadRequest {A} error.
Arguments ServerError {A} error.

Definition status {A : Type} (r : Response A) : Z :=
  match r with
  | Success _ => 200
  | BadRequest _ => 400
  | ServerError _ => 500
  end.

Section Handlers.

Variable rt : JS.Runtime.
Variable cfg : Config.
Variable zoneService : Collaborator.

(** The date of the day, [new Date().toISOString().split('T')[0]]. *)
Variable today : CalendarDate.

(** The candidate spots [POST /analyze] scans for. *)
Definition scannedSpots (kapalPosition : Position) (currentBagans : list Bagan)
    (body : AnalyzeBody) : list Spot :=
  scanAreaForSpots rt zoneService kapalPosition currentBagans
    (match ab_scanRadius body with Some r => r | None => 5 end)
    (match ab_date body with Some d => d | None => today end).

Definition analyze (body : AnalyzeBody) : Response OptimizationResult :=
  match ab_kapalPosition body, ab_currentBagans body with
  | Some kapalPosition, Some (first :: others) =>
      let currentBagans := first :: others in
      let candidateSpots := scannedSpots kapalPosition currentBagans body in
      match optimizeBaganOperations rt cfg
              {| Optimizer.kapalPosition := kapalPosition;
                 Optimizer.currentBagans := currentBagans;
                 Optimizer.candidateSpots := candidateSpots |} with
      | Ok result => Success result
      | Throw error => ServerError error
      end
  | _, _ => BadRequest "Missing required fields: kapalPosition, currentBagans"
  end.

End Handlers.

(** The body of [PUT /config]: the fields of [CONFIG] it gives. *)
Record ConfigUpdates : Type := {
  u_fuelPricePerLiter : option Q;
  u_fuelConsumptionTow : option Q;
  u_catchPricePerKg : option Q;
  u_minProfitThreshold : option Q;
  u_towSpeedKnots : option Q;
  u_setupTimeMinutes : option Q;
  u_maxTowDistance : option Q
}.

Definition updated (old : Q) (new : option Q) : Q :=
  match new with
  | Some v => v
  | None => old
  end.

(** [Object.assign(optimizer.CONFIG, updates)]. *)
Definition assignConfig (cfg : Config) (updates : ConfigUpdates) : Config :=
  {| fuelPricePerLiter := updated (fuelPricePerLiter cfg) (u_fuelPricePerLiter updates);
     fuelConsumptionTow :=
       updated (fuelConsumptionTow cfg) (u_fuelConsumptionTow updates);
     catchPricePerKg := updated (catchPricePerKg cfg) (u_catchPricePerKg updates);
     minProfitThreshold :=
       updated (minProfitThreshold cfg) (u_minProfitThreshold updates);
     towSpeedKnots := updated (towSpeedKnots cfg) (u_towSpeedKnots updates);
     setupTimeMinutes := updated (setupTimeMinutes cfg) (u_setupTimeMinutes updates);
     maxTowDistance := updated (maxTowDistance cfg) (u_maxTowDistance updates) |}.

(** Two bodies in one: the fields of the second win. *)
Definition later (first second : option Q) : option Q :=
  match second with
  | Some v => Some v
  | None => first
  end.

Definition mergeUpdates (first second : ConfigUpdates) : ConfigUpdates :=
  {| u_fuelPricePerLiter :=
       later (u_fuelPricePerLiter first) (u_fuelPricePerLiter second);
     u_fuelConsumptionTow :=
       later (u_fuelConsumptionTow first) (u_fuelConsumptionTow second);
     u_catchPricePerKg := later (u_catchPricePerKg first) (u_catchPricePerKg second);
     u_minProfitThreshold :=
       later (u_minProfitThreshold first) (u_minProfitThreshold second);
     u_towSpeedKnots := later (u_towSpeedKnots first) (u_towSpeedKnots second);
     u_setupTimeMinutes :=
       later (u_setupTimeMinutes first) (u_setupTimeMinutes second);
     u_maxTowDistance := later (u_maxTowDistance first) (u_maxTowDistance second) |}.

Definition noUpdates : ConfigUpdates :=
  {| u_fuelPricePerLiter := None;
     u_fuelConsumptionTow := None;
     u_catchPricePerKg := None;
     u_minProfitThreshold := None;
     u_towSpeedKnots := None;
     u_setupTimeMinutes := None;
     u_maxTowDistance := None |}.

End Routes.

(* ====================================================================== *)
(** ** More concrete inputs *)
(* ====================================================================== *)

Module MoreScenarios.

Import ZoneService Optimizer Scenarios.

(** A spot at the place of [spotA], scored below [B1]. *)
Definition spotWorse : Spot :=
  {| s_id := "S9"; s_name := "Spot Worse";
     s_lat := -6.7480; s_lng := 105.5180; s_score := 60;
     s_estimatedCatch := None |}.

(** A network on which every request fails, without an OpenWeather
    key. *)
Definition offlineNet : Fetchers.Network :=
  {| Fetchers.erddapChlorophyll := fun _ _ _ _ => Throw (Rejected "timeout");
     Fetchers.erddapSST := fun _ _ _ _ => Throw (Rejected "timeout");
     Fetchers.marineApi := fun _ _ _ => Throw (Rejected "timeout");
     Fetchers.openWeatherApi := fun _ _ _ => Throw (Rejected "timeout");
     Fetchers.openWeatherKey := false |}.

(** A network whose sea-surface temperature service answers at once
    with [kelvin], the other services failing. *)
Definition sstNet (kelvin : Q) : Fetchers.Network :=
  {| Fetchers.erddapChlorophyll := fun _ _ _ _ => Throw (Rejected "timeout");
     Fetchers.erddapSST :=
       fun _ _ _ _ =>
         Ok {| Fetchers.table :=
                 Some {| Fetchers.rows := Some [ {| Fetchers.cell3 := kelvin |} ] |} |};
     Fetchers.marineApi := fun _ _ _ => Throw (Rejected "timeout");
     Fetchers.openWeatherApi := fun _ _ _ => Throw (Rejected "timeout");
     Fetchers.openWeatherKey := false |}.

(** A bundle with the five factors, each in its best band. *)
Definition bestBundle : ZoneData :=
  {| chlorophyll := Some {| chlValue := 0.8; chlSource := "NASA VIIRS" |};
     sst := Some {| sstValue := 28; sstSource := "NOAA MUR SST" |};
     moon := Some {| illumination := 10; phase := "Waxing Crescent";
                     moonQuality := "excellent" |};
     waveHeight := Some {| waveValue := 0.5 |};
     wind := Some {| windSpeedValue := 3; windSource := "OpenWeather" |} |}.

(** [{catchPricePerKg: 0.1, minProfitThreshold: 0}], the body that
    turns [CONFIG] into [lowPrices]. *)
Definition lowPricesBody : Routes.ConfigUpdates :=
  {| Routes.u_fuelPricePerLiter := None;
     Routes.u_fuelConsumptionTow := None;
     Routes.u_catchPricePerKg := Some 0.1;
     Routes.u_minProfitThreshold := Some 0;
     Routes.u_towSpeedKnots := None;
     Routes.u_setupTimeMinutes := None;
     Routes.u_maxTowDistance := None |}.

(** The day 2953 days after [june_6_2024]. *)
Definition july_7_2032 : CalendarDate :=
  {| year := 2032; month := 7; day := 7 |}.

(** A day a little after a new moon. *)
Definition january_15_2024 : CalendarDate :=
  {| year := 2024; month := 1; day := 15 |}.

(** A request that fails twice and then answers. *)
Definition thirdTimeLucky (i : nat) : result Z :=
  match i with
  | 2%nat => Ok 42%Z
  | _ => Throw (Rejected "timeout")
  end.

(** Bagan 2 and Bagan 3 of the example of [optimizerService.js], and
    that example with [B1], Bagan 3 and Bagan 2, in this order, and the
    one spot [spotA]: the three bagans are moved there. *)
Definition exampleB2 : Bagan :=
  {| b_id := "B2"; b_name := "Bagan 2";
     b_lat := -6.7520; b_lng := 105.5210; b_score := 68 |}.

Definition exampleB3 : Bagan :=
  {| b_id := "B3"; b_name := "Bagan 3";
     b_lat := -6.7540; b_lng := 105.5220; b_score := 82 |}.

Definition threeMovers : Input :=
  {| kapalPosition := base;
     currentBagans := [B1; exampleB3; exampleB2];
     candidateSpots := [spotA] |}.

(** The two items of [twoMovers], as [findBestSpots] hands them to
    [optimizeRoute]. *)
Definition moverB4 : MoveItem :=
  {| m_bagan := B4; m_targetSpot := spotA;
     m_analysis := analysis (shouldMoveBagan Reference.runtime CONFIG B4 spotA) |}.

Definition moverB1 : MoveItem :=
  {| m_bagan := B1; m_targetSpot := spotA;
     m_analysis := analysis (shouldMoveBagan Reference.runtime CONFIG B1 spotA) |}.

(** The items of [threeMovers] for Bagan 2 and Bagan 3. *)
Definition moverB2 : MoveItem :=
  {| m_bagan := exampleB2; m_targetSpot := spotA;
     m_analysis :=
       analysis (shouldMoveBagan Reference.runtime CONFIG exampleB2 spotA) |}.

Definition moverB3 : MoveItem :=
  {| m_bagan := exampleB3; m_targetSpot := spotA;
     m_analysis :=
       analysis (shouldMoveBagan Reference.runtime CONFIG exampleB3 spotA) |}.

End MoreScenarios.

(* ====================================================================== *)
(** * Properties *)
(* ====================================================================== *)

(** Closed goals are settled by evaluation, one conjunct at a time. *)
Ltac evaluate :=
  repeat match goal with |- _ /\ _ => split end;
  vm_compute; reflexivity.

(** ** Rounding *)

Module RoundingFacts.

Lemma Qfloor_unique (q : Q) (z : Z) :
  inject_Z z <= q -> q < inject_Z (z + 1) -> Qfloor q = z.
Proof.
  intros Hlo Hhi.
  pose proof (Qfloor_le q) as Hfl.
  pose proof (Qlt_floor q) as Hlt.
  assert (inject_Z z < inject_Z (Qfloor q + 1)) as H1
      by (eapply Qle_lt_trans; eassumption).
  assert (inject_Z (Qfloor q) < inject_Z (z + 1)) as H2
      by (eapply Qle_lt_trans; eassumption).
  rewrite <- Zlt_Qlt in H1, H2.
  lia.
Qed.

Lemma Math_round_comp (x y : Q) : x == y -> JS.Math_round x = JS.Math_round y.
Proof.
  intros E. unfold JS.Math_round. apply Qfloor_comp. rewrite E. reflexivity.
Qed.

Lemma Math_round_inject_Z (z : Z) : JS.Math_round (inject_Z z) = z.
Proof.
  unfold JS.Math_round. apply Qfloor_unique.
  - lra.
  - rewrite inject_Z_plus. change (inject_Z 1) with 1. lra.
Qed.

(** [Math.round] of a number of [[lo, hi]] lies between the integers
    [lo] and [hi]. *)
Lemma Math_round_between (x : Q) (lo hi : Z) :
  inject_Z lo <= x -> x <= inject_Z hi ->
  (lo <= JS.Math_round x <= hi)%Z.
Proof.
  intros Hlo Hhi. unfold JS.Math_round.
  pose proof (Qfloor_le (x + (1 # 2))) as Hfl.
  pose proof (Qlt_floor (x + (1 # 2))) as Hlt.
  set (r := Qfloor (x + (1 # 2))) in *.
  rewrite inject_Z_plus in Hlt. change (inject_Z 1) with 1 in Hlt.
  split.
  - assert (inject_Z lo < inject_Z (r + 1)) as H.
    { rewrite inject_Z_plus. change (inject_Z 1) with 1. lra. }
    rewrite <- Zlt_Qlt in H. lia.
  - assert (inject_Z r < inject_Z (hi + 1)) as H.
    { rewrite inject_Z_plus. change (inject_Z 1) with 1. lra. }
    rewrite <- Zlt_Qlt in H. lia.
Qed.

(** The fractional part [x - Math.floor(x)]. *)
Lemma fraction_range (x : Q) :
  0 <= x - inject_Z (JS.Math_floor x) /\ x - inject_Z (JS.Math_floor x) < 1.
Proof.
  unfold JS.Math_floor.
  pose proof (Qfloor_le x) as Hfl.
  pose proof (Qlt_floor x) as Hlt.
  rewrite inject_Z_plus in Hlt. change (inject_Z 1) with 1 in Hlt.
  split; lra.
Qed.

End RoundingFacts.

(** ** zoneService.js *)

Module ZoneServiceFacts.

Import ZoneService RoundingFacts Scenarios.

Lemma chlorophyllFactor_range (c : Chlorophyll) :
  (0 <= fscore (chlorophyllFactor c) <= 30)%Z.
Proof.
  unfold chlorophyllFactor.
  repeat (destruct (Qlt_le_dec _ _); [ simpl; lia | ]).
  simpl; lia.
Qed.

Lemma sstFactor_range (s : SeaSurfaceTemperature) :
  (0 <= fscore (sstFactor s) <= 25)%Z.
Proof.
  unfold sstFactor.
  repeat (destruct (_ && _); [ simpl; lia | ]).
  simpl; lia.
Qed.

Lemma moonFactor_range (m : MoonPhase) :
  (0 <= fscore (moonFactor m) <= 20)%Z.
Proof.
  unfold moonFactor.
  repeat (destruct (_ <? _)%Z; [ simpl; lia | ]).
  simpl; lia.
Qed.

Lemma waveFactor_range (w : WaveHeight) :
  (0 <= fscore (waveFactor w) <= 15)%Z.
Proof.
  unfold waveFactor.
  repeat (destruct (Qlt_le_dec _ _); [ simpl; lia | ]).
  simpl; lia.
Qed.

Lemma windFactor_range (w : WindSpeed) :
  (0 <= fscore (windFactor w) <= 10)%Z.
Proof.
  unfold windFactor.
  repeat (destruct (Qlt_le_dec _ _); [ simpl; lia | ]).
  simpl; lia.
Qed.

Lemma earned_range {A : Type} (f : A -> FactorScore) (max : Z) (r : option A) :
  (forall a, 0 <= fscore (f a) <= max)%Z ->
  (0 <= earned f r <= presentMax max r)%Z.
Proof.
  intros H. destruct r as [a | ]; simpl; [ apply H | lia ].
Qed.

Lemma spec_earned_range (data : ZoneData) :
  (0 <= spec_earned data <= spec_maxPossible data)%Z.
Proof.
  unfold spec_earned, spec_maxPossible.
  pose proof (earned_range chlorophyllFactor 30 (chlorophyll data)
                chlorophyllFactor_range).
  pose proof (earned_range sstFactor 25 (sst data) sstFactor_range).
  pose proof (earned_range moonFactor 20 (moon data) moonFactor_range).
  pose proof (earned_range waveFactor 15 (waveHeight data) waveFactor_range).
  pose proof (earned_range windFactor 10 (wind data) windFactor_range).
  lia.
Qed.

Lemma spec_maxPossible_le_100 (data : ZoneData) :
  (spec_maxPossible data <= 100)%Z.
Proof.
  unfold spec_maxPossible.
  destruct (chlorophyll data), (sst data), (moon data), (waveHeight data),
    (wind data); simpl; lia.
Qed.

(** The accumulators at the end of [calculateZoneScore]. *)
Lemma accumulators (data : ZoneData) :
  actualScore (calculateZoneScore data) = spec_earned data
  /\ maxScore (calculateZoneScore data) = 100%Z.
Proof.
  unfold calculateZoneScore, spec_earned, addFactor, earned.
  destruct (chlorophyll data), (sst data), (moon data), (waveHeight data),
    (wind data); simpl; split; reflexivity || lia.
Qed.

Lemma percentage_of_100 (s : Z) :
  JS.Math_round (inject_Z s / inject_Z 100 * 100) = s.
Proof.
  rewrite (Math_round_comp _ (inject_Z s)).
  - apply Math_round_inject_Z.
  - change (inject_Z 100) with 100. field.
Qed.

Lemma score_is_earned (data : ZoneData) :
  score (calculateZoneScore data) = spec_earned data.
Proof.
  unfold calculateZoneScore, spec_earned, addFactor, earned.
  destruct (chlorophyll data), (sst data), (moon data), (waveHeight data),
    (wind data); cbn [score fst snd];
    match goal with
    | |- JS.Math_round (inject_Z ?s / inject_Z ?m * 100) = ?r =>
        replace m with 100%Z by lia;
        replace r with s by lia;
        apply percentage_of_100
    end.
Qed.

Lemma breakdown_entries (data : ZoneData) :
  breakdown (calculateZoneScore data)
  = {| b_chlorophyll := option_map chlorophyllFactor (chlorophyll data);
       b_sst := option_map sstFactor (sst data);
       b_moon := option_map moonFactor (moon data);
       b_wave := option_map waveFactor (waveHeight data);
       b_wind := option_map windFactor (wind data) |}.
Proof.
  unfold calculateZoneScore.
  destruct (addFactor 10 windFactor (wind data) _) as [s m].
  reflexivity.
Qed.

(** C1, counterexample: without the chlorophyll reading and with the
    four other factors at their maximum, [calculateZoneScore] still
    divides by 100 and returns 70, whereas the total renormalised over
    the 70 points of the present factors is 100. *)
Lemma C1_partial_bundle_not_renormalised :
  score (calculateZoneScore noChlorophyll) = 70%Z
  /\ maxScore (calculateZoneScore noChlorophyll) = 100%Z
  /\ b_chlorophyll (breakdown (calculateZoneScore noChlorophyll)) = None
  /\ spec_maxPossible noChlorophyll = 70%Z
  /\ spec_renormalisedTotal noChlorophyll = Some 100%Z.
Proof.
  evaluate.
Qed.

(** C1, amended: for every reading bundle, a missing factor adds nothing
    to the accumulated score and has no entry in the breakdown, but
    [maxScore] is 100 whatever factors are present; the returned total
    is [round(earned / 100 * 100)], which is the number of points
    earned by the present factors, and it lies in [[0, 100]]. *)
Theorem C1_zone_score_over_fixed_maximum (data : ZoneData) :
  actualScore (calculateZoneScore data) = spec_earned data
  /\ maxScore (calculateZoneScore data) = 100%Z
  /\ score (calculateZoneScore data)
     = JS.Math_round (inject_Z (spec_earned data) / inject_Z 100 * 100)
  /\ score (calculateZoneScore data) = spec_earned data
  /\ (0 <= score (calculateZoneScore data) <= 100)%Z
  /\ (chlorophyll data = None ->
      b_chlorophyll (breakdown (calculateZoneScore data)) = None)
  /\ (sst data = None -> b_sst (breakdown (calculateZoneScore data)) = None)
  /\ (moon data = None -> b_moon (breakdown (calculateZoneScore data)) = None)
  /\ (waveHeight data = None ->
      b_wave (breakdown (calculateZoneScore data)) = None)
  /\ (wind data = None -> b_wind (breakdown (calculateZoneScore data)) = None).
Proof.
  pose proof (accumulators data) as [Ha Hm].
  pose proof (score_is_earned data) as Hs.
  pose proof (spec_earned_range data) as Hr.
  pose proof (spec_maxPossible_le_100 data) as Hmax.
  repeat split; try assumption; try lia.
  - rewrite percentage_of_100. exact Hs.
  - intros E. rewrite breakdown_entries, E. reflexivity.
  - intros E. rewrite breakdown_entries, E. reflexivity.
  - intros E. rewrite breakdown_entries, E. reflexivity.
  - intros E. rewrite breakdown_entries, E. reflexivity.
  - intros E. rewrite breakdown_entries, E. reflexivity.
Qed.

(** When the five factors are present the two totals agree. *)
Lemma full_bundle_total (data : ZoneData) :
  spec_maxPossible data = 100%Z ->
  spec_renormalisedTotal data = Some (score (calculateZoneScore data)).
Proof.
  intros E. unfold spec_renormalisedTotal, JS.div. rewrite E.
  change (Qeq_bool (inject_Z 100) 0) with false. cbv iota.
  f_equal. rewrite score_is_earned.
  rewrite (Math_round_comp _ (inject_Z (spec_earned data))).
  - apply Math_round_inject_Z.
  - change (inject_Z 100) with 100. field.
Qed.

(** *** Moon phase *)

(** C7, counterexample: on 6 June 2024 the phase is about 0.998, below
    1, and [Math.round(phase * 100)] is 100. *)
Lemma C7_illumination_reaches_100 :
  illumination (getMoonPhase june_6_2024) = 100%Z
  /\ 0.997 < moonFraction june_6_2024
  /\ moonFraction june_6_2024 < 1.
Proof.
  evaluate.
Qed.

(** C7, amended: for every calendar date the phase lies in [[0, 1)],
    the illumination is [round(phase * 100)], and the illumination lies
    in the closed range [[0, 100]]. *)
Theorem C7_moon_phase_ranges (d : CalendarDate) :
  0 <= moonFraction d /\ moonFraction d < 1
  /\ illumination (getMoonPhase d) = JS.Math_round (moonFraction d * 100)
  /\ (0 <= illumination (getMoonPhase d) <= 100)%Z.
Proof.
  assert (0 <= moonFraction d /\ moonFraction d < 1) as [Hlo Hhi].
  { unfold moonFraction. cbv zeta. apply fraction_range. }
  split; [ exact Hlo | split; [ exact Hhi | split; [ reflexivity | ] ] ].
  change (illumination (getMoonPhase d))
    with (JS.Math_round (moonFraction d * 100)).
  apply Math_round_between.
  - change (inject_Z 0) with 0. lra.
  - change (inject_Z 100) with 100. lra.
Qed.

End ZoneServiceFacts.

(** ** The runtime *)

Module RuntimeFacts.

Import Optimizer.

Lemma fixed_comp (x y : Q) : x == y -> Reference.fixed x = Reference.fixed y.
Proof.
  intros E. unfold Reference.fixed.
  assert (Qfloor (x * inject_Z (10 ^ 18)) = Qfloor (y * inject_Z (10 ^ 18))) as ->
      by (apply Qfloor_comp; rewrite E; reflexivity).
  reflexivity.
Qed.

Lemma reference_lawful : JS.Lawful Reference.runtime.
Proof.
  constructor; cbn [JS.Math_sin JS.Math_cos JS.Math_sqrt JS.Math_atan2
                      Reference.runtime].
  - intros x y E. unfold Reference.sin.
    rewrite (fixed_comp _ (y - y * y * y / 6)); [ reflexivity | ].
    rewrite E. reflexivity.
  - intros x y E. unfold Reference.cos.
    rewrite (fixed_comp _ (1 - y * y / 2 + y * y * y * y / 24)); [ reflexivity | ].
    rewrite E. reflexivity.
  - intros x y E. unfold Reference.sqrt.
    assert (Qfloor (x * inject_Z (10 ^ 36)) = Qfloor (y * inject_Z (10 ^ 36))) as ->
        by (apply Qfloor_comp; rewrite E; reflexivity).
    reflexivity.
  - intros x y x' y' E1 E2. unfold Reference.atan2. cbv zeta.
    rewrite (fixed_comp _ (x' / y' - x' / y' * (x' / y') * (x' / y') / 3));
      [ reflexivity | ].
    rewrite E1, E2. reflexivity.
  - vm_compute. reflexivity.
  - vm_compute. reflexivity.
  - vm_compute. reflexivity.
  - vm_compute. reflexivity.
Qed.

Section Distance.

Variable rt : JS.Runtime.
Hypothesis lawful : JS.Lawful rt.

(** The Haversine distance from a point to itself: [dLat] and [dLon] are
    0, so [a] is 0 and [c = 2 * atan2(0, 1)] is 0. *)
Lemma calculateDistance_same (lat lng : Q) :
  calculateDistance rt lat lng lat lng == 0.
Proof.
  unfold calculateDistance. cbv zeta.
  assert (JS.Math_sin rt (toRad rt (lat - lat) / 2) == 0) as Hlat.
  { rewrite (JS.sin_proper rt lawful _ 0).
    - apply (JS.sin_0 rt lawful).
    - unfold toRad. field. }
  assert (JS.Math_sin rt (toRad rt (lng - lng) / 2) == 0) as Hlng.
  { rewrite (JS.sin_proper rt lawful _ 0).
    - apply (JS.sin_0 rt lawful).
    - unfold toRad. field. }
  set (a := JS.Math_sin rt (toRad rt (lat - lat) / 2)
            * JS.Math_sin rt (toRad rt (lat - lat) / 2)
            + JS.Math_cos rt (toRad rt lat) * JS.Math_cos rt (toRad rt lat)
              * JS.Math_sin rt (toRad rt (lng - lng) / 2)
              * JS.Math_sin rt (toRad rt (lng - lng) / 2)).
  assert (a == 0) as Ha.
  { unfold a. rewrite Hlat, Hlng. ring. }
  assert (JS.Math_sqrt rt a == 0) as Hsa.
  { rewrite (JS.sqrt_proper rt lawful _ _ Ha). apply (JS.sqrt_0 rt lawful). }
  assert (JS.Math_sqrt rt (1 - a) == 1) as Hs1.
  { rewrite (JS.sqrt_proper rt lawful _ 1).
    - apply (JS.sqrt_1 rt lawful).
    - rewrite Ha. ring. }
  rewrite (JS.atan2_proper rt lawful _ _ _ _ Hsa Hs1).
  rewrite (JS.atan2_0_1 rt lawful). ring.
Qed.

(** A bagan and a spot at the same coordinates are at distance 0. *)
Lemma moveDistance_here (b : Bagan) (s : Spot) :
  b_lat b = s_lat s -> b_lng b = s_lng s -> moveDistance rt b s == 0.
Proof.
  intros Elat Elng. unfold moveDistance. rewrite Elat, Elng.
  apply calculateDistance_same.
Qed.

End Distance.

End RuntimeFacts.

(** ** estimateCatch, shouldMoveBagan and findBestSpots *)

Module DecisionFacts.

Import Optimizer RoundingFacts Scenarios.

(** C6, counterexample: for the score 3 the rounded bounds are 2 and 3,
    whose average 2.5 rounds to 3, but [estimateCatch] rounds the average
    2.25 of the unrounded bounds 1.8 and 2.7 and returns 2. *)
Lemma C6_average_of_unrounded_bounds :
  c_min (estimateCatch 3) = 2%Z
  /\ c_max (estimateCatch 3) = 3%Z
  /\ c_avg (estimateCatch 3) = 2%Z
  /\ spec_avgOfRounded 3 = 3%Z.
Proof.
  evaluate.
Qed.

(** C6, amended: for every score, [estimateCatch] returns
    [min = round(score * 0.6)], [max = round(score * 0.9)] and
    [avg = round((score * 0.6 + score * 0.9) / 2)], the average being
    taken of the unrounded bounds; it is [round(score * 0.75)]. *)
Theorem C6_estimateCatch_bounds (score : Q) :
  c_min (estimateCatch score) = JS.Math_round (score * 0.6)
  /\ c_max (estimateCatch score) = JS.Math_round (score * 0.9)
  /\ c_avg (estimateCatch score)
     = JS.Math_round ((score * 0.6 + score * 0.9) / 2)
  /\ c_avg (estimateCatch score) = JS.Math_round (score * 0.75).
Proof.
  repeat split; try reflexivity.
  unfold estimateCatch, c_avg. apply Math_round_comp. field.
Qed.

Section Decision.

Variable rt : JS.Runtime.
Variable cfg : Config.

(** What an [analysis] says about the unrounded quantities. *)
Lemma shouldMoveBagan_analysed (b : Bagan) (s : Spot) (sm : bool) (a : Analysis) :
  shouldMoveBagan rt cfg b s = Analysed sm a ->
  moveDistance rt b s <= maxTowDistance cfg
  /\ sm = Qle_bool (minProfitThreshold cfg) (rawNetProfit rt cfg b s)
  /\ netProfit a = JS.Math_round (rawNetProfit rt cfg b s)
  /\ worthIt a = sm.
Proof.
  unfold shouldMoveBagan. cbv zeta.
  destruct (Qlt_le_dec (maxTowDistance cfg) (moveDistance rt b s)) as [Hfar | Hnear].
  - discriminate.
  - intros E. injection E as Esm Ea. subst sm a.
    repeat split; try reflexivity. exact Hnear.
Qed.

(** C5: whenever the Haversine distance between the bagan and the spot
    exceeds [CONFIG.maxTowDistance], [shouldMoveBagan] returns the object
    [{shouldMove: false, reason}] whatever the two scores are: the flag
    is false, the reason starts with "Too far (" followed by the distance
    to one decimal, and there is no [analysis], none of the costs and
    revenues having been computed. *)
Theorem C5_too_far_short_circuit (b : Bagan) (s : Spot) :
  maxTowDistance cfg < moveDistance rt b s ->
  shouldMoveBagan rt cfg b s = TooFar (tooFarReason rt cfg (moveDistance rt b s))
  /\ shouldMove (shouldMoveBagan rt cfg b s) = false
  /\ analysis (shouldMoveBagan rt cfg b s) = None
  /\ exists rest : string,
       reason (shouldMoveBagan rt cfg b s)
       = Some ("Too far (" ++ JS.toFixed 1 (moveDistance rt b s) ++ rest)%string.
Proof.
  intros Hfar.
  assert (shouldMoveBagan rt cfg b s
          = TooFar (tooFarReason rt cfg (moveDistance rt b s))) as E.
  { unfold shouldMoveBagan. cbv zeta.
    destruct (Qlt_le_dec (maxTowDistance cfg) (moveDistance rt b s)) as [_ | Hnear].
    - reflexivity.
    - exfalso. apply (Qlt_irrefl (maxTowDistance cfg)).
      eapply Qlt_le_trans; eassumption. }
  rewrite E. repeat split.
  eexists. cbn [reason]. unfold tooFarReason. reflexivity.
Qed.

(** *** The selection loop *)

Lemma Selected_initial (b : Bagan) : Selected rt cfg b [] (initialBest cfg).
Proof.
  unfold Selected, initialBest. cbn.
  repeat split. intros s a [].
Qed.

Lemma Selected_step (b : Bagan) (seen : list Spot) (st : Best) (spot : Spot) :
  Selected rt cfg b seen st ->
  Selected rt cfg b (seen ++ [spot]) (evaluateSpot rt cfg b st spot).
Proof.
  intros Inv. unfold evaluateSpot.
  destruct (shouldMoveBagan rt cfg b spot) as [r | sm a] eqn:Edec.
  - (* too far: the state is unchanged *)
    unfold Selected in *. destruct (bestSpot st) as [s | ].
    + destruct Inv as (before & after & a & Eseen & Es & Ea & Emax & Hthr & Hb & Ha).
      exists before, (after ++ [spot]), a. rewrite Eseen, <- app_assoc.
      repeat split; try assumption.
      intros s' a' Hin Es'. apply in_app_or in Hin as [Hin | [<- | []]].
      * eapply Ha; eassumption.
      * congruence.
    + destruct Inv as (Ea & Emax & Hnone). repeat split; try assumption.
      intros s a Hin Es. apply in_app_or in Hin as [Hin | [<- | []]].
      * eapply Hnone; eassumption.
      * congruence.
  - destruct sm.
    + destruct (Qlt_le_dec (maxProfit st) (inject_Z (netProfit a))) as [Hgt | Hle].
      * (* a strictly larger rounded profit: the spot becomes the best *)
        unfold Selected in *. cbn [bestSpot bestAnalysis maxProfit].
        exists seen, [], a. repeat split; try assumption; try reflexivity.
        -- destruct (bestSpot st) as [s | ].
           ++ destruct Inv as (before & after & a0 & _ & _ & _ & Emax & Hthr & _).
              rewrite Emax in Hgt. eapply Qlt_trans; eassumption.
           ++ destruct Inv as (_ & Emax & _). rewrite Emax in Hgt. exact Hgt.
        -- intros s' a' Hin Es'.
           destruct (bestSpot st) as [s | ].
           ++ destruct Inv as (before & after & a0 & Eseen & Es & _ & Emax & _ & Hb & Ha).
              rewrite Emax in Hgt. rewrite <- Zlt_Qlt in Hgt.
              rewrite Eseen in Hin.
              apply in_app_or in Hin as [Hin | [<- | Hin]].
              ** specialize (Hb s' a' Hin Es'). lia.
              ** assert (a' = a0) by congruence. subst a'. exact Hgt.
              ** specialize (Ha s' a' Hin Es'). lia.
           ++ destruct Inv as (_ & Emax & Hnone).
              specialize (Hnone s' a' Hin Es'). rewrite Emax in Hgt.
              rewrite Zlt_Qlt. eapply Qle_lt_trans; eassumption.
        -- intros s' a' [].
      * (* not larger: the state is unchanged *)
        unfold Selected in *. destruct (bestSpot st) as [s | ].
        -- destruct Inv as (before & after & a0 & Eseen & Es & Ea & Emax & Hthr & Hb & Ha).
           exists before, (after ++ [spot]), a0. rewrite Eseen, <- app_assoc.
           repeat split; try assumption.
           intros s' a' Hin Es'. apply in_app_or in Hin as [Hin | [<- | []]].
           ++ eapply Ha; eassumption.
           ++ assert (a' = a) by congruence. subst a'.
              rewrite Emax in Hle. rewrite <- Zle_Qle in Hle. exact Hle.
        -- destruct Inv as (Ea & Emax & Hnone). repeat split; try assumption.
           intros s a' Hin Es. apply in_app_or in Hin as [Hin | [<- | []]].
           ++ eapply Hnone; eassumption.
           ++ assert (a' = a) by congruence. subst a'.
              rewrite Emax in Hle. exact Hle.
    + (* shouldMove is false: the state is unchanged *)
      unfold Selected in *. destruct (bestSpot st) as [s | ].
      * destruct Inv as (before & after & a0 & Eseen & Es & Ea & Emax & Hthr & Hb & Ha).
        exists before, (after ++ [spot]), a0. rewrite Eseen, <- app_assoc.
        repeat split; try assumption.
        intros s' a' Hin Es'. apply in_app_or in Hin as [Hin | [<- | []]].
        -- eapply Ha; eassumption.
        -- congruence.
      * destruct Inv as (Ea & Emax & Hnone). repeat split; try assumption.
        intros s a' Hin Es. apply in_app_or in Hin as [Hin | [<- | []]].
        -- eapply Hnone; eassumption.
        -- congruence.
Qed.

Lemma Selected_fold (b : Bagan) (spots seen : list Spot) (st : Best) :
  Selected rt cfg b seen st ->
  Selected rt cfg b (seen ++ spots) (fold_left (evaluateSpot rt cfg b) spots st).
Proof.
  revert seen st.
  induction spots as [ | spot spots IH ]; intros seen st Inv; cbn [fold_left].
  - rewrite app_nil_r. exact Inv.
  - replace (seen ++ spot :: spots) with ((seen ++ [spot]) ++ spots)
      by (rewrite <- app_assoc; reflexivity).
    apply IH, Selected_step, Inv.
Qed.

Lemma bestFor_Selected (b : Bagan) (spots : list Spot) :
  Selected rt cfg b spots (bestFor rt cfg b spots).
Proof.
  unfold bestFor.
  change spots with ([] ++ spots) at 1.
  apply Selected_fold, Selected_initial.
Qed.

Lemma shouldMove_true (b : Bagan) (s : Spot) :
  shouldMove (shouldMoveBagan rt cfg b s) = true ->
  exists a, shouldMoveBagan rt cfg b s = Analysed true a.
Proof.
  destruct (shouldMoveBagan rt cfg b s) as [r | sm a]; cbn [shouldMove].
  - discriminate.
  - intros ->. exists a. reflexivity.
Qed.

(** C4, amended: for every bagan, [findBestSpots] keeps the first spot of
    the candidate list that maximises the rounded net profit
    [Math.round(netProfit)] among the spots with [shouldMove] true (that
    is, with the unrounded net profit at or above
    [CONFIG.minProfitThreshold]) and with the rounded net profit strictly
    above the threshold; the spots before it have a strictly smaller
    rounded net profit and those after it none larger.  When no spot
    passes, the recommendation is to stay. *)
Theorem C4_first_spot_of_largest_rounded_profit (b : Bagan) (spots : list Spot) :
  match bestSpot (bestFor rt cfg b spots) with
  | Some s =>
      exists before after a,
        spots = before ++ s :: after
        /\ recommend b (bestFor rt cfg b spots) = Move s (Some a)
        /\ shouldMoveBagan rt cfg b s = Analysed true a
        /\ minProfitThreshold cfg <= rawNetProfit rt cfg b s
        /\ netProfit a = JS.Math_round (rawNetProfit rt cfg b s)
        /\ minProfitThreshold cfg < inject_Z (netProfit a)
        /\ (forall s', In s' before ->
             shouldMove (shouldMoveBagan rt cfg b s') = true ->
             (JS.Math_round (rawNetProfit rt cfg b s') < netProfit a)%Z)
        /\ (forall s', In s' after ->
             shouldMove (shouldMoveBagan rt cfg b s') = true ->
             (JS.Math_round (rawNetProfit rt cfg b s') <= netProfit a)%Z)
  | None =>
      (exists ca, recommend b (bestFor rt cfg b spots)
                  = Stay "No better spot found" ca)
      /\ forall s, In s spots ->
           shouldMove (shouldMoveBagan rt cfg b s) = true ->
           inject_Z (JS.Math_round (rawNetProfit rt cfg b s))
           <= minProfitThreshold cfg
  end.
Proof.
  pose proof (bestFor_Selected b spots) as Inv.
  unfold Selected in Inv. unfold recommend.
  destruct (bestSpot (bestFor rt cfg b spots)) as [s | ].
  - destruct Inv as (before & after & a & Espots & Es & Ea & _ & Hthr & Hb & Ha).
    destruct (shouldMoveBagan_analysed b s true a Es) as (_ & Esm & Enet & _).
    exists before, after, a. rewrite Ea.
    repeat split; try assumption; try reflexivity.
    + apply Qle_bool_iff. symmetry. exact Esm.
    + intros s' Hin Hsm. destruct (shouldMove_true b s' Hsm) as [a' Es'].
      destruct (shouldMoveBagan_analysed b s' true a' Es') as (_ & _ & <- & _).
      eapply Hb; eassumption.
    + intros s' Hin Hsm. destruct (shouldMove_true b s' Hsm) as [a' Es'].
      destruct (shouldMoveBagan_analysed b s' true a' Es') as (_ & _ & <- & _).
      eapply Ha; eassumption.
  - destruct Inv as (Ea & _ & Hnone). rewrite Ea. split.
    + eexists. reflexivity.
    + intros s Hin Hsm. destruct (shouldMove_true b s Hsm) as [a Es].
      destruct (shouldMoveBagan_analysed b s true a Es) as (_ & _ & <- & _).
      eapply Hnone; eassumption.
Qed.

(** C10: in the loop of [findBestSpots], [bestAnalysis] is non-null
    exactly when [bestSpot] is; so every recommendation to stay has the
    reason 'No better spot found', and no input makes the reason
    'Not profitable enough'. *)
Theorem C10_best_analysis_with_best_spot
    (currentBagans : list Bagan) (availableSpots : list Spot) :
  (forall b, bestAnalysis (bestFor rt cfg b availableSpots) <> None
             <-> bestSpot (bestFor rt cfg b availableSpots) <> None)
  /\ (forall r why ca,
        In r (findBestSpots rt cfg currentBagans availableSpots) ->
        recommendation r = Stay why ca ->
        why = "No better spot found"%string)
  /\ (forall r ca,
        In r (findBestSpots rt cfg currentBagans availableSpots) ->
        recommendation r <> Stay "Not profitable enough" ca).
Proof.
  assert (forall b why ca,
             recommend b (bestFor rt cfg b availableSpots) = Stay why ca ->
             why = "No better spot found"%string) as Hstay.
  { intros b why ca. unfold recommend.
    pose proof (bestFor_Selected b availableSpots) as Inv. unfold Selected in Inv.
    destruct (bestSpot (bestFor rt cfg b availableSpots)) as [s | ].
    - discriminate.
    - destruct Inv as (-> & _). intros E. injection E as <- _. reflexivity. }
  split; [ | split ].
  - intros b.
    pose proof (bestFor_Selected b availableSpots) as Inv. unfold Selected in Inv.
    destruct (bestSpot (bestFor rt cfg b availableSpots)) as [s | ].
    + destruct Inv as (before & after & a & _ & _ & -> & _).
      split; intros _; discriminate.
    + destruct Inv as (-> & _). split; intros H; exfalso; apply H; reflexivity.
  - intros r why ca Hin E. unfold findBestSpots in Hin.
    apply in_map_iff in Hin as (b & <- & _). cbn [recommendation] in E.
    eapply Hstay; eassumption.
  - intros r ca Hin E. unfold findBestSpots in Hin.
    apply in_map_iff in Hin as (b & <- & _). cbn [recommendation] in E.
    apply Hstay in E. discriminate.
Qed.

(** *** Spots at the bagan's own position *)

Lemma shouldMoveBagan_near (b : Bagan) (s : Spot) :
  moveDistance rt b s <= maxTowDistance cfg ->
  exists a,
    shouldMoveBagan rt cfg b s
    = Analysed (Qle_bool (minProfitThreshold cfg) (rawNetProfit rt cfg b s)) a
    /\ netProfit a = JS.Math_round (rawNetProfit rt cfg b s).
Proof.
  intros Hnear. unfold shouldMoveBagan. cbv zeta.
  destruct (Qlt_le_dec (maxTowDistance cfg) (moveDistance rt b s)) as [Hfar | _].
  - exfalso. apply (Qlt_irrefl (maxTowDistance cfg)).
    eapply Qlt_le_trans; eassumption.
  - eexists. split; reflexivity.
Qed.

End Decision.

(** The selection of [C4_rounded_profits_compared] does not depend on
    how the runtime computes its [Math] functions: the two distances are
    0 on every lawful runtime. *)
Lemma rounded_profits_compared_on_any_runtime (rt : JS.Runtime) :
  JS.Lawful rt ->
  bestSpot (bestFor rt lowPrices B1 [spotHere89; spotHere90]) = Some spotHere89
  /\ rawNetProfit rt lowPrices B1 spotHere89 == 1.1
  /\ rawNetProfit rt lowPrices B1 spotHere90 == 1.2.
Proof.
  intros lawful.
  pose proof (RuntimeFacts.moveDistance_here rt lawful B1 spotHere89 eq_refl eq_refl)
    as H89.
  pose proof (RuntimeFacts.moveDistance_here rt lawful B1 spotHere90 eq_refl eq_refl)
    as H90.
  assert (rawNetProfit rt lowPrices B1 spotHere89 == 1.1) as R89.
  { unfold rawNetProfit, calculateFuelCost. rewrite H89. vm_compute. reflexivity. }
  assert (rawNetProfit rt lowPrices B1 spotHere90 == 1.2) as R90.
  { unfold rawNetProfit, calculateFuelCost. rewrite H90. vm_compute. reflexivity. }
  split; [ | split; assumption ].
  destruct (shouldMoveBagan_near rt lowPrices B1 spotHere89) as (a89 & E89 & N89).
  { rewrite H89. vm_compute. discriminate. }
  destruct (shouldMoveBagan_near rt lowPrices B1 spotHere90) as (a90 & E90 & N90).
  { rewrite H90. vm_compute. discriminate. }
  rewrite (Math_round_comp _ _ R89) in N89.
  rewrite (Math_round_comp _ _ R90) in N90.
  change (JS.Math_round 1.1) with 1%Z in N89.
  change (JS.Math_round 1.2) with 1%Z in N90.
  assert (Qle_bool (minProfitThreshold lowPrices)
                   (rawNetProfit rt lowPrices B1 spotHere89) = true) as T89.
  { apply Qle_bool_iff. rewrite R89. vm_compute. discriminate. }
  assert (Qle_bool (minProfitThreshold lowPrices)
                   (rawNetProfit rt lowPrices B1 spotHere90) = true) as T90.
  { apply Qle_bool_iff. rewrite R90. vm_compute. discriminate. }
  rewrite T89 in E89. rewrite T90 in E90.
  unfold bestFor. cbn [fold_left].
  unfold evaluateSpot at 2. rewrite E89, N89. cbn.
  unfold evaluateSpot. rewrite E90, N90. cbn. reflexivity.
Qed.

(** C5 at a spot about eight kilometres from the bagan. *)
Lemma C5_too_far_witness :
  maxTowDistance CONFIG < moveDistance Reference.runtime B1 spotFar
  /\ shouldMove (shouldMoveBagan Reference.runtime CONFIG B1 spotFar) = false
  /\ reason (shouldMoveBagan Reference.runtime CONFIG B1 spotFar)
     = Some "Too far (8.0 km > 5 km max)"%string.
Proof.
  assert (maxTowDistance CONFIG < moveDistance Reference.runtime B1 spotFar) as Hfar
      by (vm_compute; reflexivity).
  destruct (C5_too_far_short_circuit Reference.runtime CONFIG B1 spotFar Hfar)
    as (E & Hsm & _ & _).
  split; [ exact Hfar | split; [ exact Hsm | ] ].
  rewrite E. vm_compute. reflexivity.
Defined.

(** C4, counterexample: with a catch price of 0.1 and a threshold of 0,
    two spots at the bagan's own position with scores 89 and 90 have the
    unrounded net profits 1.1 and 1.2, which both round to 1.  The second
    spot is worth the move and has the larger unrounded net profit, above
    the threshold, but the loop keeps the first. *)
Lemma C4_rounded_profits_compared :
  bestSpot (bestFor Reference.runtime lowPrices B1 [spotHere89; spotHere90])
  = Some spotHere89
  /\ shouldMove (shouldMoveBagan Reference.runtime lowPrices B1 spotHere90) = true
  /\ minProfitThreshold lowPrices
     < rawNetProfit Reference.runtime lowPrices B1 spotHere90
  /\ rawNetProfit Reference.runtime lowPrices B1 spotHere89
     < rawNetProfit Reference.runtime lowPrices B1 spotHere90
  /\ rawNetProfit Reference.runtime lowPrices B1 spotHere89 == 1.1
  /\ rawNetProfit Reference.runtime lowPrices B1 spotHere90 == 1.2.
Proof.
  evaluate.
Qed.

End DecisionFacts.

(** ** generatePermutations and optimizeRoute *)

Module RouteFacts.

Import Optimizer.

Lemma removeAt_middle {A : Type} (l1 l2 : list A) (x : A) :
  removeAt (List.length l1) (l1 ++ x :: l2) = l1 ++ l2.
Proof.
  unfold removeAt.
  induction l1 as [ | y l1 IH ]; cbn [List.length app firstn skipn].
  - reflexivity.
  - f_equal. exact IH.
Qed.

Lemma nth_error_middle {A : Type} (l1 l2 : list A) (x : A) :
  nth_error (l1 ++ x :: l2) (List.length l1) = Some x.
Proof.
  induction l1 as [ | y l1 IH ]; cbn; [ reflexivity | exact IH ].
Qed.

(** Every array [generatePermutations] returns is a rearrangement of its
    argument. *)
Lemma generatePermutationsFrom_sound {A : Type} (fuel : nat) :
  forall (arr p : list A),
    In p (generatePermutationsFrom fuel arr) -> Permutation arr p.
Proof.
  induction fuel as [ | fuel IH ]; intros arr p Hin; cbn [generatePermutationsFrom] in Hin.
  - destruct Hin as [<- | []]. reflexivity.
  - destruct (List.length arr <=? 1)%nat.
    + destruct Hin as [<- | []]. reflexivity.
    + apply in_flat_map in Hin as (i & _ & Hin).
      destruct (nth_error arr i) as [current | ] eqn:Enth; [ | destruct Hin ].
      apply in_map_iff in Hin as (rest & <- & Hrest).
      apply nth_error_split in Enth as (l1 & l2 & -> & <-).
      rewrite removeAt_middle in Hrest.
      apply IH in Hrest.
      symmetry. apply Permutation_cons_app. symmetry. exact Hrest.
Qed.

(** Every rearrangement of the argument is returned. *)
Lemma generatePermutationsFrom_complete {A : Type} (fuel : nat) :
  forall (arr p : list A),
    (List.length arr <= fuel)%nat -> Permutation arr p ->
    In p (generatePermutationsFrom fuel arr).
Proof.
  induction fuel as [ | fuel IH ]; intros arr p Hlen Hperm;
    cbn [generatePermutationsFrom].
  - destruct arr; [ | cbn in Hlen; lia ].
    apply Permutation_nil in Hperm. subst p. left. reflexivity.
  - destruct (Nat.leb_spec (List.length arr) 1) as [Hshort | Hlong].
    + left. destruct arr as [ | x [ | y arr ] ].
      * apply Permutation_nil in Hperm. congruence.
      * apply Permutation_length_1_inv in Hperm. congruence.
      * cbn in Hshort. lia.
    + destruct p as [ | x p ].
      * apply Permutation_sym, Permutation_nil in Hperm. subst arr.
        cbn in Hlong. lia.
      * assert (In x arr) as Hx.
        { eapply Permutation_in; [ symmetry; exact Hperm | left; reflexivity ]. }
        apply in_split in Hx as (l1 & l2 & ->).
        apply in_flat_map. exists (List.length l1). split.
        -- apply in_seq. rewrite length_app. cbn. lia.
        -- rewrite nth_error_middle, removeAt_middle.
           apply in_map, IH.
           ++ rewrite length_app in *. cbn in Hlen. lia.
           ++ symmetry in Hperm. apply Permutation_cons_app_inv in Hperm.
              symmetry. exact Hperm.
Qed.

Lemma generatePermutations_spec {A : Type} (arr p : list A) :
  In p (generatePermutations arr) <-> Permutation arr p.
Proof.
  unfold generatePermutations. split.
  - apply generatePermutationsFrom_sound.
  - apply generatePermutationsFrom_complete. lia.
Qed.

Section Route.

Variable rt : JS.Runtime.
Variable cfg : Config.
Variable kapalPosition : Position.

Lemma Searched_step (seen : list (list MoveItem)) (st : Search) (perm : list MoveItem) :
  Searched rt kapalPosition seen st ->
  Searched rt kapalPosition (seen ++ [perm]) (considerPermutation rt kapalPosition st perm).
Proof.
  unfold Searched, considerPermutation. cbv zeta.
  destruct (bestRoute st) as [best | ] eqn:Ebest.
  - intros (Emin & before & after & Eseen & Hb & Ha). rewrite Emin.
    cbn [belowMin].
    destruct (Qlt_le_dec (routeDistance rt kapalPosition perm) (routeDistance rt kapalPosition best)) as [Hlt | Hge];
      cbn [bestRoute minDistance].
    + split; [ reflexivity | ].
      exists seen, []. split; [ reflexivity | ]. split.
      * intros p Hin. rewrite Eseen in Hin.
        apply in_app_or in Hin as [Hin | [<- | Hin]].
        -- eapply Qlt_trans; [ exact Hlt | apply Hb, Hin ].
        -- exact Hlt.
        -- eapply Qlt_le_trans; [ exact Hlt | apply Ha, Hin ].
      * intros p [].
    + rewrite Ebest. split; [ exact Emin | ].
      exists before, (after ++ [perm]). rewrite Eseen, <- app_assoc.
      split; [ reflexivity | ]. split; [ exact Hb | ].
      intros p Hin. apply in_app_or in Hin as [Hin | [<- | []]].
      * apply Ha, Hin.
      * exact Hge.
  - intros (-> & ->). cbn [belowMin bestRoute minDistance].
    split; [ reflexivity | ].
    exists [], []. split; [ reflexivity | ].
    split; intros p [].
Qed.

Lemma Searched_fold (perms seen : list (list MoveItem)) (st : Search) :
  Searched rt kapalPosition seen st ->
  Searched rt kapalPosition (seen ++ perms)
           (fold_left (considerPermutation rt kapalPosition) perms st).
Proof.
  revert seen st.
  induction perms as [ | perm perms IH ]; intros seen st Inv; cbn [fold_left].
  - rewrite app_nil_r. exact Inv.
  - replace (seen ++ perm :: perms) with ((seen ++ [perm]) ++ perms)
      by (rewrite <- app_assoc; reflexivity).
    apply IH, Searched_step, Inv.
Qed.

Lemma searchBestRoute_Searched (bagansToMove : list MoveItem) :
  Searched rt kapalPosition (generatePermutations bagansToMove)
           (searchBestRoute rt kapalPosition bagansToMove).
Proof.
  unfold searchBestRoute.
  change (generatePermutations bagansToMove)
    with ([] ++ generatePermutations bagansToMove) at 1.
  apply Searched_fold. unfold Searched. cbn. split; reflexivity.
Qed.

(** The position the inner loop holds does not depend on the distance
    it has accumulated. *)
Lemma visit_position (perm : list MoveItem) :
  forall (d : Q) (pos : Position),
    snd (fold_left (visit rt) perm (d, pos)) = positionAfter pos perm.
Proof.
  unfold positionAfter.
  induction perm as [ | item perm IH ]; intros d pos; cbn [fold_left].
  - reflexivity.
  - unfold visit at 2. apply IH.
Qed.

(** The total distance of a route, as the loop accumulates it: the
    pickup leg and then the tow leg of the last item are added, in that
    order, to the total of the items before it. *)
Lemma routeDistance_snoc (pos : Position) (perm : list MoveItem) (item : MoveItem) :
  routeDistance rt pos (perm ++ [item])
  = JS.plus rt
      (JS.plus rt (routeDistance rt pos perm)
         (calculateDistance rt
            (lat (positionAfter pos perm)) (lng (positionAfter pos perm))
            (b_lat (m_bagan item)) (b_lng (m_bagan item))))
      (calculateDistance rt (b_lat (m_bagan item)) (b_lng (m_bagan item))
         (s_lat (m_targetSpot item)) (s_lng (m_targetSpot item))).
Proof.
  unfold routeDistance. rewrite fold_left_app. cbn [fold_left].
  rewrite <- (visit_position perm 0 pos).
  destruct (fold_left (visit rt) perm (0, pos)) as [d current].
  reflexivity.
Qed.

Lemma positionAfter_snoc (pos : Position) (perm : list MoveItem) (item : MoveItem) :
  positionAfter pos (perm ++ [item]) = spotPosition (m_targetSpot item).
Proof.
  unfold positionAfter. rewrite fold_left_app. reflexivity.
Qed.

Lemma detailRoute_ok (items : list MoveItem) :
  forall (st : Details) (i : nat),
    Forall analysed items ->
    exists d,
      detailRoute rt cfg st i items = Ok d
      /\ map baganId (routeDetails d)
         = map baganId (routeDetails st)
           ++ map (fun item => b_id (m_bagan item)) items
      /\ map targetLocation (routeDetails d)
         = map targetLocation (routeDetails st) ++ map m_targetSpot items.
Proof.
  induction items as [ | item items IH ]; intros st i Hall; cbn [detailRoute].
  - exists st. cbn [map]. rewrite !app_nil_r. repeat split.
  - inversion Hall as [ | x l Hitem Hrest ]; subst.
    unfold analysed in Hitem.
    unfold detailStep. destruct (m_analysis item) as [a | ]; [ | congruence ].
    cbn [getProperty bind].
    match goal with
    | |- exists d, detailRoute rt cfg ?st' (S i) items = Ok d /\ _ =>
        destruct (IH st' (S i) Hrest) as (d & Ed & Hids & Htargets)
    end.
    exists d. split; [ exact Ed | ].
    cbn [routeDetails] in Hids, Htargets.
    rewrite map_app in Hids, Htargets. cbn [map baganId targetLocation] in Hids, Htargets.
    rewrite <- app_assoc in Hids, Htargets.
    split; assumption.
Qed.

Lemma sumExpectedProfit_ok (items : list MoveItem) :
  forall sum, Forall analysed items ->
              exists profit, sumExpectedProfit sum items = Ok profit.
Proof.
  induction items as [ | item items IH ]; intros sum Hall; cbn [sumExpectedProfit].
  - exists sum. reflexivity.
  - inversion Hall as [ | x l Hitem Hrest ]; subst.
    unfold analysed in Hitem.
    destruct (m_analysis item) as [a | ]; [ | congruence ].
    cbn [getProperty bind]. apply IH, Hrest.
Qed.

(** C3: the total distance of a permutation is what the loop
    accumulates from 0, step after step: the pickup leg, from the
    target of the previous step (the vessel's own position at first),
    and then the tow leg are added to the total so far, each by an
    addition of the runtime.  For a move-set of two items or more, the
    route held at the end of the search is a permutation of the move-set
    whose total distance is at most that of every permutation; it is
    the first such permutation in the order of generation, every earlier
    one having a strictly larger total; and the detailed route is laid
    out in its order.  The empty move-set gives [null] and a single item
    gives the one-step route, neither through the search. *)
Theorem C3_route_of_least_total_distance (bagansToMove : list MoveItem) :
  (forall pos, routeDistance rt pos [] = 0 /\ positionAfter pos [] = pos)
  /\ (forall pos perm item,
        routeDistance rt pos (perm ++ [item])
        = JS.plus rt
            (JS.plus rt (routeDistance rt pos perm)
               (calculateDistance rt
                  (lat (positionAfter pos perm)) (lng (positionAfter pos perm))
                  (b_lat (m_bagan item)) (b_lng (m_bagan item))))
            (calculateDistance rt (b_lat (m_bagan item)) (b_lng (m_bagan item))
               (s_lat (m_targetSpot item)) (s_lng (m_targetSpot item)))
        /\ positionAfter pos (perm ++ [item]) = spotPosition (m_targetSpot item))
  /\ (bagansToMove = [] -> optimizeRoute rt cfg kapalPosition bagansToMove = Ok None)
  /\ (forall only, bagansToMove = [only] ->
       optimizeRoute rt cfg kapalPosition bagansToMove
       = Ok (Some (SingleRoute [only]
                     (calculateDistance rt (lat kapalPosition) (lng kapalPosition)
                        (b_lat (m_bagan only)) (b_lng (m_bagan only)))
                     0)))
  /\ ((2 <= List.length bagansToMove)%nat ->
      exists best before after,
        bestRoute (searchBestRoute rt kapalPosition bagansToMove) = Some best
        /\ Permutation bagansToMove best
        /\ (forall p, Permutation bagansToMove p ->
             routeDistance rt kapalPosition best
             <= routeDistance rt kapalPosition p)
        /\ generatePermutations bagansToMove = before ++ best :: after
        /\ (forall p, In p before ->
             routeDistance rt kapalPosition best
             < routeDistance rt kapalPosition p)
        /\ (Forall analysed bagansToMove ->
            exists steps s,
              optimizeRoute rt cfg kapalPosition bagansToMove
              = Ok (Some (DetailedRoute steps s))
              /\ map baganId steps = map (fun item => b_id (m_bagan item)) best
              /\ map targetLocation steps = map m_targetSpot best
              /\ rs_totalBagans s = List.length bagansToMove)).
Proof.
  split; [ | split; [ | split; [ | split ] ] ].
  - intros pos. split; reflexivity.
  - intros pos perm item.
    split; [ apply routeDistance_snoc | apply positionAfter_snoc ].
  - intros ->. reflexivity.
  - intros only ->. reflexivity.
  - intros Hlen.
    pose proof (searchBestRoute_Searched bagansToMove) as Inv.
    unfold Searched in Inv.
    destruct (bestRoute (searchBestRoute rt kapalPosition bagansToMove))
      as [best | ] eqn:Ebest.
    + destruct Inv as (_ & before & after & Eperms & Hb & Ha).
      assert (Permutation bagansToMove best) as Hperm.
      { apply generatePermutations_spec. rewrite Eperms.
        apply in_or_app. right. left. reflexivity. }
      exists best, before, after.
      split; [ reflexivity | ]. split; [ exact Hperm | ].
      split; [ | split; [ exact Eperms | split; [ exact Hb | ] ] ].
      * intros p Hp. apply generatePermutations_spec in Hp.
        rewrite Eperms in Hp. apply in_app_or in Hp as [Hp | [<- | Hp]].
        -- apply Qlt_le_weak, Hb, Hp.
        -- apply Qle_refl.
        -- apply Ha, Hp.
      * intros Hall.
        assert (Forall analysed best) as Hbest
            by (eapply Permutation_Forall; eassumption).
        destruct (detailRoute_ok best
                    {| routeDetails := []; currentPos := kapalPosition;
                       d_cumulativeTime := 0; d_cumulativeDistance := 0 |}
                    0%nat Hbest) as (d & Ed & Hids & Htargets).
        destruct (sumExpectedProfit_ok best 0%Z Hbest) as (profit & Eprofit).
        destruct bagansToMove as [ | x [ | y rest ] ]; cbn in Hlen; try lia.
        unfold optimizeRoute. rewrite Ebest. cbn [getProperty bind].
        rewrite Ed. cbn [bind]. rewrite Eprofit. cbn [bind].
        eexists _, _. split; [ reflexivity | ].
        cbn [rs_totalBagans]. repeat split.
        -- exact Hids.
        -- exact Htargets.
        -- symmetry. apply Permutation_length, Hperm.
    + destruct Inv as (Eperms & _). exfalso.
      assert (In bagansToMove (generatePermutations bagansToMove)) as Hin
          by (apply generatePermutations_spec; reflexivity).
      rewrite Eperms in Hin. destruct Hin.
Qed.

End Route.

(** Two bagans bound for [spotA] and the vessel at [B1]: the permutation
    generated first starts at [B4] and is about 2.42 km long, the second
    starts at [B1] and is about 2.41 km long, and the route follows the
    second. *)
Example route_of_two_movers :
  routeOrder (optimizeBaganOperations Reference.runtime CONFIG Scenarios.twoMovers)
  = Some ["B1"%string; "B4"%string]
  /\ map (map (fun item => b_id (m_bagan item)))
         (generatePermutations
            (movesOf (findBestSpots Reference.runtime CONFIG
                        (currentBagans Scenarios.twoMovers)
                        (candidateSpots Scenarios.twoMovers))))
     = [ ["B4"%string; "B1"%string]; ["B1"%string; "B4"%string] ].
Proof.
  evaluate.
Qed.

(** Three bagans bound for [spotA] and the vessel at [B1]: the two
    permutations generated first are made of the same legs, taken in
    another order, and the additions of the doubles give the second a
    total below that of the first, by one unit in the last place
    ([2^-51]); the route follows the second. *)
Example route_totals_depend_on_the_order :
  movesOf (findBestSpots Reference.runtime CONFIG
             (currentBagans MoreScenarios.threeMovers)
             (candidateSpots MoreScenarios.threeMovers))
  = [ MoreScenarios.moverB1; MoreScenarios.moverB3; MoreScenarios.moverB2 ]
  /\ firstn 2 (generatePermutations
                 [ MoreScenarios.moverB1; MoreScenarios.moverB3;
                   MoreScenarios.moverB2 ])
     = [ [ MoreScenarios.moverB1; MoreScenarios.moverB3; MoreScenarios.moverB2 ];
         [ MoreScenarios.moverB1; MoreScenarios.moverB2; MoreScenarios.moverB3 ] ]
  /\ routeDistance Reference.runtime Scenarios.base
       [ MoreScenarios.moverB1; MoreScenarios.moverB3; MoreScenarios.moverB2 ]
     - routeDistance Reference.runtime Scenarios.base
         [ MoreScenarios.moverB1; MoreScenarios.moverB2; MoreScenarios.moverB3 ]
     == 1 # 2251799813685248
  /\ routeOrder (optimizeBaganOperations Reference.runtime CONFIG
                   MoreScenarios.threeMovers)
     = Some ["B1"%string; "B2"%string; "B3"%string].
Proof.
  evaluate.
Qed.

End RouteFacts.

(** ** optimizeBaganOperations *)

Module OrchestratorFacts.

Import Optimizer Scenarios.

Section Orchestrator.

Variable rt : JS.Runtime.
Variable cfg : Config.

(** Whenever exactly one bagan is to be moved, [optimizeRoute] returns
    the object without [summary] and reading [summary.totalDistance]
    throws. *)
Lemma single_mover_throws (input : Input) :
  List.length (movesOf (findBestSpots rt cfg (currentBagans input)
                                      (candidateSpots input))) = 1%nat ->
  optimizeBaganOperations rt cfg input = Throw (TypeError "totalDistance").
Proof.
  intros Hone. unfold optimizeBaganOperations. cbv zeta.
  destruct (movesOf (findBestSpots rt cfg (currentBagans input)
                                   (candidateSpots input)))
    as [ | only [ | second rest ] ]; cbn in Hone; try discriminate.
  reflexivity.
Qed.

(** With a route of two steps or more that costs no fuel, the [roi] of
    [estimatedTotals] is the text of an infinity or of [NaN]. *)
Lemma roi_without_fuel (r : RoutePlan) (t : EstimatedTotals) :
  estimatedTotalsOf r = Ok t ->
  et_totalFuelCost t = 0%Z ->
  et_roi t = "Infinity"%string \/ et_roi t = "-Infinity"%string
  \/ et_roi t = "NaN"%string.
Proof.
  unfold estimatedTotalsOf.
  destruct (summary r) as [s | ]; cbn [getProperty bind]; [ | discriminate ].
  intros E. injection E as <-. cbn [et_totalFuelCost et_roi]. intros ->.
  unfold JS.div. change (Qeq_bool (inject_Z 0) 0) with true. cbv iota.
  destruct (Qlt_le_dec 0 _); [ left; reflexivity | ].
  destruct (Qlt_le_dec _ 0); [ right; left; reflexivity | ].
  right; right; reflexivity.
Qed.

End Orchestrator.

(** C2, the code at the failing input: with the bagan [B1] and the one
    candidate [spotA], 0.31 km away and worth the move, exactly one
    bagan is to be moved and [optimizeBaganOperations] throws the
    [TypeError] of reading [totalDistance] of [undefined] instead of
    returning a result. *)
Theorem C2_single_mover_has_no_summary :
  List.length (movesOf (findBestSpots Reference.runtime CONFIG
                          (currentBagans oneMover) (candidateSpots oneMover)))
  = 1%nat
  /\ (exists plan d t,
        optimizeRoute Reference.runtime CONFIG (kapalPosition oneMover)
          (movesOf (findBestSpots Reference.runtime CONFIG
                      (currentBagans oneMover) (candidateSpots oneMover)))
        = Ok (Some (SingleRoute plan d t))
        /\ summary (SingleRoute plan d t) = None)
  /\ optimizeBaganOperations Reference.runtime CONFIG oneMover
     = Throw (TypeError "totalDistance").
Proof.
  split; [ vm_compute; reflexivity | split ].
  - eexists _, _, _. split; [ vm_compute; reflexivity | reflexivity ].
  - apply single_mover_throws. vm_compute. reflexivity.
Qed.

(** C8, the code at the failing input: two bagans at the position of the
    vessel and a better spot at that same position.  Both are moved over
    a route of length 0, the fuel cost of the route is 0 and the expected
    profit 945000: the division is carried out and [roi] is the text
    "Infinity".  [shouldMoveBagan] on the same pair guards its own
    division and reports a [roi] of 0. *)
Theorem C8_roi_divides_by_zero_fuel_cost :
  fuelAndRoi (optimizeBaganOperations Reference.runtime CONFIG zeroLengthRoute)
  = Some (0%Z, 945000%Z, "Infinity"%string)
  /\ option_map roi
       (analysis (shouldMoveBagan Reference.runtime CONFIG B1 spotHere89))
     = Some 0%Z.
Proof.
  evaluate.
Qed.

End OrchestratorFacts.

(** ** The candidate scanner *)

Module ScannerFacts.

Import ZoneService Optimizer Scanner Scenarios.

Lemma insertByScore_Forall (P : Spot -> Prop) (x : Spot) (l : list Spot) :
  P x -> Forall P l -> Forall P (insertByScore x l).
Proof.
  intros Hx Hl. induction Hl as [ | y l Hy Hl IH ]; cbn [insertByScore].
  - constructor; [ exact Hx | constructor ].
  - destruct (Qle_bool (s_score y) (s_score x)).
    + constructor; [ exact Hx | constructor; assumption ].
    + constructor; assumption.
Qed.

Lemma sortByScoreDescending_Forall (P : Spot -> Prop) (l : list Spot) :
  Forall P l -> Forall P (sortByScoreDescending l).
Proof.
  intros Hl. unfold sortByScoreDescending.
  induction Hl as [ | x l Hx Hl IH ]; cbn [fold_right].
  - constructor.
  - apply insertByScore_Forall; assumption.
Qed.



Lemma firstn_Forall {A : Type} (P : A -> Prop) (n : nat) (l : list A) :
  Forall P l -> Forall P (firstn n l).
Proof.
  intros Hl. revert n.
  induction Hl as [ | x l Hx Hl IH ]; intros [ | n ]; cbn [firstn];
    constructor; auto.
Qed.


Section Scan.

Variable rt : JS.Runtime.
Variable zoneService : Collaborator.




End Scan.

End ScannerFacts.

(** ** generatePermutations: how many arrays it returns *)

Module PermutationFacts.

Import Optimizer RouteFacts.

Lemma length_removeAt {A : Type} (i : nat) (arr : list A) :
  (i < List.length arr)%nat ->
  List.length (removeAt i arr) = (List.length arr - 1)%nat.
Proof.
  intros Hi. unfold removeAt.
  rewrite length_app, length_firstn, length_skipn. lia.
Qed.

Lemma length_flat_map_constant {A B : Type} (f : A -> list B) (k : nat) (l : list A) :
  (forall x, In x l -> List.length (f x) = k) ->
  List.length (flat_map f l) = (List.length l * k)%nat.
Proof.
  induction l as [ | x l IH ]; intros Hk; cbn [flat_map List.length].
  - reflexivity.
  - rewrite length_app, Hk, IH.
    + lia.
    + intros y Hy. apply Hk. right. exact Hy.
    + left. reflexivity.
Qed.

Lemma length_generatePermutationsFrom {A : Type} (fuel : nat) :
  forall arr : list A,
    (List.length arr <= fuel)%nat ->
    List.length (generatePermutationsFrom fuel arr) = fact (List.length arr).
Proof.
  induction fuel as [ | fuel IH ]; intros arr Hlen; cbn [generatePermutationsFrom].
  - destruct arr; [ reflexivity | cbn in Hlen; lia ].
  - destruct (Nat.leb_spec (List.length arr) 1) as [Hshort | Hlong].
    + destruct arr as [ | x [ | y arr ] ]; try reflexivity. cbn in Hshort. lia.
    + rewrite (length_flat_map_constant _ (fact (List.length arr - 1))).
      * rewrite length_seq.
        destruct (List.length arr) as [ | n ]; [ lia | ].
        cbn [fact]. replace (S n - 1)%nat with n by lia. lia.
      * intros i Hi. apply in_seq in Hi.
        destruct (nth_error arr i) as [current | ] eqn:Enth.
        -- rewrite length_map, IH; rewrite length_removeAt; try lia.
        -- apply nth_error_None in Enth. lia.
Qed.

(** X1: [generatePermutations] returns [n!] arrays for an array of [n]
    elements. *)
Theorem generatePermutations_count {A : Type} (arr : list A) :
  List.length (generatePermutations arr) = fact (List.length arr).
Proof.
  unfold generatePermutations. apply length_generatePermutationsFrom. lia.
Qed.

Lemma NoDup_removeAt {A : Type} (i : nat) (arr : list A) :
  NoDup arr -> NoDup (removeAt i arr).
Proof.
  intros Hnd. unfold removeAt.
  rewrite <- (firstn_skipn i arr) in Hnd.
  destruct (skipn i arr) as [ | x rest ] eqn:Eskip.
  - replace (skipn (S i) arr) with (@nil A).
    + exact Hnd.
    + symmetry. apply skipn_all2.
      assert (List.length (skipn i arr) = 0%nat) as H0 by (rewrite Eskip; reflexivity).
      rewrite length_skipn in H0. lia.
  - replace (skipn (S i) arr) with rest.
    + apply NoDup_remove_1 in Hnd. exact Hnd.
    + change (S i) with (1 + i)%nat. rewrite <- skipn_skipn, Eskip. reflexivity.
Qed.

Lemma NoDup_map_cons {A : Type} (x : A) (l : list (list A)) :
  NoDup l -> NoDup (map (cons x) l).
Proof.
  intros Hnd. induction Hnd as [ | p l Hnotin Hnd IH ]; cbn [map].
  - constructor.
  - constructor; [ | exact IH ].
    intros Hin. apply in_map_iff in Hin as (q & E & Hq).
    injection E as ->. contradiction.
Qed.

Lemma NoDup_flat_map {A B : Type} (f : A -> list B) (l : list A) :
  NoDup l ->
  (forall x, In x l -> NoDup (f x)) ->
  (forall x y b, In x l -> In y l -> In b (f x) -> In b (f y) -> x = y) ->
  NoDup (flat_map f l).
Proof.
  intros Hnd. induction Hnd as [ | x l Hnotin Hnd IH ]; intros Heach Hdisjoint;
    cbn [flat_map].
  - constructor.
  - apply NoDup_app.
    + apply Heach. left. reflexivity.
    + apply IH.
      * intros y Hy. apply Heach. right. exact Hy.
      * intros y z b Hy Hz. apply Hdisjoint; right; assumption.
    + intros b Hbx Hbl. apply in_flat_map in Hbl as (y & Hy & Hby).
      assert (x = y) as -> by (eapply Hdisjoint; eauto; [ left | right ]; auto).
      contradiction.
Qed.

Lemma NoDup_generatePermutationsFrom {A : Type} (fuel : nat) :
  forall arr : list A, NoDup arr -> NoDup (generatePermutationsFrom fuel arr).
Proof.
  induction fuel as [ | fuel IH ]; intros arr Hnd; cbn [generatePermutationsFrom].
  - constructor; [ intros [] | constructor ].
  - destruct (List.length arr <=? 1)%nat.
    + constructor; [ intros [] | constructor ].
    + apply NoDup_flat_map.
      * apply seq_NoDup.
      * intros i _. destruct (nth_error arr i) as [current | ]; [ | constructor ].
        apply NoDup_map_cons, IH, NoDup_removeAt, Hnd.
      * intros i j p _ _ Hi Hj.
        destruct (nth_error arr i) as [ci | ] eqn:Ei; [ | destruct Hi ].
        destruct (nth_error arr j) as [cj | ] eqn:Ej; [ | destruct Hj ].
        apply in_map_iff in Hi as (pi & <- & _).
        apply in_map_iff in Hj as (pj & E & _).
        injection E as Ehead _. subst cj.
        eapply NoDup_nth_error; [ exact Hnd | | congruence ].
        apply nth_error_Some. congruence.
Qed.

(** X2: when the array has no repeated element, [generatePermutations]
    returns no array twice. *)
Theorem generatePermutations_NoDup {A : Type} (arr : list A) :
  NoDup arr -> NoDup (generatePermutations arr).
Proof.
  apply NoDup_generatePermutationsFrom.
Qed.

(** X2 on the array [[1; 2; 3]]. *)
Lemma generatePermutations_NoDup_witness :
  NoDup [1; 2; 3]%nat /\ NoDup (generatePermutations [1; 2; 3]%nat).
Proof.
  assert (NoDup [1; 2; 3]%nat) as Hnd.
  { repeat constructor; cbn; intuition discriminate. }
  split; [ exact Hnd | apply (generatePermutations_NoDup [1; 2; 3]%nat Hnd) ].
Defined.

End PermutationFacts.

(** ** estimateCatch, shouldMoveBagan and findBestSpots: further facts *)

Module DecisionMore.

Import Optimizer RoundingFacts DecisionFacts Scenarios MoreScenarios.

Lemma Math_round_le (x y : Q) :
  x <= y -> (JS.Math_round x <= JS.Math_round y)%Z.
Proof.
  intros Hxy. unfold JS.Math_round. apply Qfloor_resp_le. lra.
Qed.

Lemma average_of_bounds (score : Q) :
  (score * 0.6 + score * 0.9) / 2 == score * 0.75.
Proof.
  field.
Qed.

(** X3: for a score from 0 to 100, the range of the zone scores, the
    three figures of [estimateCatch] are ordered:
    [0 <= min <= avg <= max]. *)
Theorem estimateCatch_ordered (score : Q) :
  0 <= score ->
  score <= 100 ->
  (0 <= c_min (estimateCatch score))%Z
  /\ (c_min (estimateCatch score) <= c_avg (estimateCatch score))%Z
  /\ (c_avg (estimateCatch score) <= c_max (estimateCatch score))%Z.
Proof.
  intros Hpos _. unfold estimateCatch. cbn [c_min c_avg c_max].
  rewrite (Math_round_comp _ _ (average_of_bounds score)).
  split; [ | split ].
  - pose proof (Math_round_le 0 (score * 0.6)) as H.
    change (JS.Math_round 0) with 0%Z in H. apply H. lra.
  - apply Math_round_le. lra.
  - apply Math_round_le. lra.
Qed.

Lemma estimateCatch_ordered_witness :
  0 <= 75
  /\ 75 <= 100
  /\ (0 <= c_min (estimateCatch 75))%Z
  /\ (c_min (estimateCatch 75) <= c_avg (estimateCatch 75))%Z
  /\ (c_avg (estimateCatch 75) <= c_max (estimateCatch 75))%Z.
Proof.
  assert (0 <= 75) as H by (vm_compute; discriminate).
  assert (75 <= 100) as H' by (vm_compute; discriminate).
  split; [ exact H | split; [ exact H' | apply (estimateCatch_ordered 75 H H') ] ].
Defined.

Lemma estimateCatch_avg_le (low high : Q) :
  low <= high -> (c_avg (estimateCatch low) <= c_avg (estimateCatch high))%Z.
Proof.
  intros Hle. unfold estimateCatch. cbn [c_avg].
  rewrite !(Math_round_comp _ _ (average_of_bounds _)).
  apply Math_round_le. lra.
Qed.

(** X4: [estimateCatch] is monotone: a higher score never lowers the
    minimum, the average or the maximum. *)
Theorem estimateCatch_monotone (low high : Q) :
  low <= high ->
  (c_min (estimateCatch low) <= c_min (estimateCatch high))%Z
  /\ (c_avg (estimateCatch low) <= c_avg (estimateCatch high))%Z
  /\ (c_max (estimateCatch low) <= c_max (estimateCatch high))%Z.
Proof.
  intros Hle. unfold estimateCatch. cbn [c_min c_avg c_max].
  rewrite !(Math_round_comp _ _ (average_of_bounds _)).
  repeat split; apply Math_round_le; lra.
Qed.

Lemma estimateCatch_monotone_witness :
  68 <= 75
  /\ (c_min (estimateCatch 68) <= c_min (estimateCatch 75))%Z
  /\ (c_avg (estimateCatch 68) <= c_avg (estimateCatch 75))%Z
  /\ (c_max (estimateCatch 68) <= c_max (estimateCatch 75))%Z.
Proof.
  assert (68 <= 75) as H by (vm_compute; discriminate).
  split; [ exact H | apply (estimateCatch_monotone 68 75 H) ].
Defined.

Section Decision.

Variable rt : JS.Runtime.
Variable cfg : Config.

Lemma shouldMove_reaches_threshold (b : Bagan) (s : Spot) :
  shouldMove (shouldMoveBagan rt cfg b s) = true ->
  moveDistance rt b s <= maxTowDistance cfg
  /\ minProfitThreshold cfg <= rawNetProfit rt cfg b s.
Proof.
  intros Hsm. destruct (shouldMove_true rt cfg b s Hsm) as [a Ea].
  destruct (shouldMoveBagan_analysed rt cfg b s true a Ea) as (Hnear & Esm & _).
  split; [ exact Hnear | ]. apply Qle_bool_iff. symmetry. exact Esm.
Qed.

(** X5: [shouldMoveBagan] says to move exactly when the spot is within
    [CONFIG.maxTowDistance] and the unrounded net profit reaches
    [CONFIG.minProfitThreshold]. *)
Theorem shouldMove_iff (b : Bagan) (s : Spot) :
  shouldMove (shouldMoveBagan rt cfg b s) = true
  <-> moveDistance rt b s <= maxTowDistance cfg
      /\ minProfitThreshold cfg <= rawNetProfit rt cfg b s.
Proof.
  split.
  - apply shouldMove_reaches_threshold.
  - intros [Hnear Hprofit].
    destruct (shouldMoveBagan_near rt cfg b s Hnear) as (a & Ea & _).
    rewrite Ea. cbn [shouldMove]. apply Qle_bool_iff. exact Hprofit.
Qed.

(** X6: the return on investment of an analysis is guarded: when the
    tow costs no fuel the [roi] is 0, and otherwise it is the rounded
    percentage of the net profit over the fuel cost. *)
Theorem roi_guarded (b : Bagan) (s : Spot) (a : Analysis) :
  analysis (shouldMoveBagan rt cfg b s) = Some a ->
  (calculateFuelCost cfg (moveDistance rt b s) <= 0 -> roi a = 0%Z)
  /\ (0 < calculateFuelCost cfg (moveDistance rt b s) ->
      roi a = JS.Math_round
                (rawNetProfit rt cfg b s
                 / calculateFuelCost cfg (moveDistance rt b s) * 100)).
Proof.
  unfold shouldMoveBagan. cbv zeta.
  destruct (Qlt_le_dec (maxTowDistance cfg) (moveDistance rt b s)) as [Hfar | Hnear];
    cbn [analysis]; [ discriminate | ].
  intros E. injection E as <-. cbn [roi].
  destruct (Qlt_le_dec 0 (calculateFuelCost cfg (moveDistance rt b s))) as [Hpos | Hzero].
  - split; [ | reflexivity ].
    intros Hle. exfalso. apply (Qlt_irrefl 0). eapply Qlt_le_trans; eassumption.
  - split; [ reflexivity | ].
    intros Hpos. exfalso. apply (Qlt_irrefl 0). eapply Qlt_le_trans; eassumption.
Qed.

Lemma nonpositive_times_nonnegative (x p : Q) : x <= 0 -> 0 <= p -> x * p <= 0.
Proof.
  intros Hx Hp.
  assert (0 <= (- x) * p) as H by (apply Qmult_le_0_compat; lra).
  setoid_replace ((- x) * p) with (- (x * p)) in H by ring.
  lra.
Qed.

(** X7: with a catch price and a fuel cost that are not negative and a
    positive profit threshold, [shouldMoveBagan] never says to move to a
    spot whose score is not above the bagan's. *)
Theorem no_move_to_a_spot_not_better (b : Bagan) (s : Spot) :
  s_score s <= b_score b ->
  0 <= catchPricePerKg cfg ->
  0 <= calculateFuelCost cfg (moveDistance rt b s) ->
  0 < minProfitThreshold cfg ->
  shouldMove (shouldMoveBagan rt cfg b s) = false.
Proof.
  intros Hscore Hprice Hfuel Hthr.
  destruct (shouldMove (shouldMoveBagan rt cfg b s)) eqn:Esm; [ | reflexivity ].
  apply shouldMove_reaches_threshold in Esm as [_ Hprofit].
  exfalso. unfold rawNetProfit, rawExtraRevenue in Hprofit.
  assert (inject_Z (extraCatchAvg b s) <= 0) as Hextra.
  { unfold extraCatchAvg.
    pose proof (estimateCatch_avg_le _ _ Hscore) as Havg.
    change 0 with (inject_Z 0). rewrite <- Zle_Qle. lia. }
  pose proof (nonpositive_times_nonnegative _ _ Hextra Hprice) as Hrev.
  lra.
Qed.

(** X8: [findBestSpots] returns one recommendation per bagan, in the
    order of the bagans, and a recommendation to move always names a
    spot of the candidate list that is within [CONFIG.maxTowDistance] of
    the bagan, with its analysis, whose unrounded net profit reaches the
    threshold and whose rounded net profit exceeds it. *)
Theorem findBestSpots_recommendations
    (currentBagans : list Bagan) (availableSpots : list Spot) :
  map bagan (findBestSpots rt cfg currentBagans availableSpots) = currentBagans
  /\ forall r s a,
       In r (findBestSpots rt cfg currentBagans availableSpots) ->
       recommendation r = Move s a ->
       In s availableSpots
       /\ moveDistance rt (bagan r) s <= maxTowDistance cfg
       /\ minProfitThreshold cfg <= rawNetProfit rt cfg (bagan r) s
       /\ exists an,
            a = Some an
            /\ shouldMoveBagan rt cfg (bagan r) s = Analysed true an
            /\ worthIt an = true
            /\ minProfitThreshold cfg < inject_Z (netProfit an).
Proof.
  split.
  - unfold findBestSpots. rewrite map_map. cbn [bagan]. apply map_id.
  - intros r s a Hin Emove. unfold findBestSpots in Hin.
    apply in_map_iff in Hin as (b & <- & _).
    cbn [recommendation bagan] in *. unfold recommend in Emove.
    pose proof (bestFor_Selected rt cfg b availableSpots) as Inv.
    unfold Selected in Inv.
    destruct (bestSpot (bestFor rt cfg b availableSpots)) as [s0 | ];
      [ | discriminate ].
    injection Emove as -> <-.
    destruct Inv as (before & after & an & Espots & Es & Ea & _ & Hthr & _).
    destruct (shouldMoveBagan_analysed rt cfg b s true an Es)
      as (Hnear & Esm & _ & Hworth).
    split; [ rewrite Espots; apply in_or_app; right; left; reflexivity | ].
    split; [ exact Hnear | ].
    split; [ apply Qle_bool_iff; symmetry; exact Esm | ].
    exists an. repeat split; assumption.
Qed.

End Decision.

Lemma roi_guarded_witness :
  exists a,
    analysis (shouldMoveBagan Reference.runtime CONFIG B1 spotHere89) = Some a
    /\ calculateFuelCost CONFIG (moveDistance Reference.runtime B1 spotHere89) <= 0
    /\ roi a = 0%Z.
Proof.
  assert (calculateFuelCost CONFIG (moveDistance Reference.runtime B1 spotHere89) <= 0)
    as Hfuel by (vm_compute; discriminate).
  eexists. split; [ vm_compute; reflexivity | ].
  split; [ exact Hfuel | ].
  refine (proj1 (roi_guarded Reference.runtime CONFIG B1 spotHere89 _ _) Hfuel).
  vm_compute. reflexivity.
Defined.

Lemma no_move_to_a_spot_not_better_witness :
  s_score spotWorse <= b_score B1
  /\ 0 <= catchPricePerKg CONFIG
  /\ 0 <= calculateFuelCost CONFIG (moveDistance Reference.runtime B1 spotWorse)
  /\ 0 < minProfitThreshold CONFIG
  /\ shouldMove (shouldMoveBagan Reference.runtime CONFIG B1 spotWorse) = false.
Proof.
  assert (s_score spotWorse <= b_score B1) as H1 by (vm_compute; discriminate).
  assert (0 <= catchPricePerKg CONFIG) as H2 by (vm_compute; discriminate).
  assert (0 <= calculateFuelCost CONFIG (moveDistance Reference.runtime B1 spotWorse))
    as H3 by (vm_compute; discriminate).
  assert (0 < minProfitThreshold CONFIG) as H4 by (vm_compute; reflexivity).
  split; [ exact H1 | split; [ exact H2 | split; [ exact H3 | split; [ exact H4 | ] ] ] ].
  exact (no_move_to_a_spot_not_better Reference.runtime CONFIG B1 spotWorse H1 H2 H3 H4).
Defined.

End DecisionMore.

(** ** optimizeRoute and optimizeBaganOperations: further facts *)

Module RouteMore.

Import Optimizer OptimizerMore DecisionFacts RouteFacts OrchestratorFacts.
Import Scenarios MoreScenarios.

Lemma sumZ_Permutation (l1 l2 : list Z) : Permutation l1 l2 -> sumZ l1 = sumZ l2.
Proof.
  unfold sumZ. intros Hperm.
  induction Hperm as [ | x l1 l2 _ IH | x y l | l1 l2 l3 _ IH1 _ IH2 ];
    cbn [fold_right]; lia.
Qed.

Lemma lastOf_snoc {A : Type} (l : list A) (x : A) : lastOf (l ++ [x]) = Some x.
Proof.
  unfold lastOf. rewrite length_app. cbn [List.length].
  replace (List.length l + 1 - 1)%nat with (List.length l) by lia.
  apply nth_error_middle.
Qed.

Section Route.

Variable rt : JS.Runtime.
Variable cfg : Config.

(** What [detailRoute] appends to the route details, item by item. *)
Lemma detailRoute_steps (items : list MoveItem) :
  forall (st : Details) (i : nat) (d : Details),
    detailRoute rt cfg st i items = Ok d ->
    exists new,
      routeDetails d = routeDetails st ++ new
      /\ map step new = seq (i + 1) (List.length items)
      /\ map from new = departures (currentPos st) items
      /\ map pickupLocation new = map (fun item => baganPosition (m_bagan item)) items
      /\ map targetLocation new = map m_targetSpot items
      /\ map expectedProfit new = map profitOf items.
Proof.
  induction items as [ | item items IH ]; intros st i d; cbn [detailRoute].
  - intros E. injection E as <-. exists []. rewrite app_nil_r. repeat split.
  - unfold detailStep at 1.
    destruct (m_analysis item) as [a | ] eqn:Ea; cbn [getProperty bind];
      [ | discriminate ].
    intros E. apply IH in E.
    destruct E as (new & Edetails & Hstep & Hfrom & Hpick & Htarget & Hprofit).
    cbn [routeDetails currentPos] in Edetails, Hfrom.
    rewrite <- app_assoc in Edetails. cbn [app] in Edetails.
    eexists (_ :: new). split; [ exact Edetails | ].
    cbn [map step from pickupLocation targetLocation expectedProfit List.length
             seq departures].
    unfold profitOf at 1. rewrite Ea.
    replace (S i + 1)%nat with (S (i + 1)) in Hstep by lia.
    rewrite Hstep, Hfrom, Hpick, Htarget, Hprofit.
    repeat split.
Qed.

Lemma detailRoute_Totalled (items : list MoveItem) :
  forall (st : Details) (i : nat) (d : Details),
    Totalled st -> detailRoute rt cfg st i items = Ok d -> Totalled d.
Proof.
  induction items as [ | item items IH ]; intros st i d Hst; cbn [detailRoute].
  - intros E. injection E as <-. exact Hst.
  - unfold detailStep at 1.
    destruct (m_analysis item) as [a | ]; cbn [getProperty bind]; [ | discriminate ].
    apply IH. unfold Totalled. cbn [routeDetails]. rewrite lastOf_snoc.
    cbn [cumulativeDistance cumulativeTime d_cumulativeDistance d_cumulativeTime].
    split; reflexivity.
Qed.

Lemma sumExpectedProfit_sum (items : list MoveItem) :
  forall sum profit,
    sumExpectedProfit sum items = Ok profit ->
    profit = (sum + sumZ (map profitOf items))%Z.
Proof.
  induction items as [ | item items IH ]; intros sum profit;
    cbn [sumExpectedProfit map].
  - intros E. injection E as <-. cbn. lia.
  - destruct (m_analysis item) as [a | ] eqn:Ea; cbn [getProperty bind];
      [ | discriminate ].
    intros E. apply IH in E. unfold sumZ in *. cbn [fold_right].
    unfold profitOf at 1. rewrite Ea. lia.
Qed.

(** What [optimizeRoute] does with two items or more that all have an
    analysis: the search finds a route, the details and the sum of the
    profits go through, and the plan is assembled from them. *)
Lemma optimizeRoute_detailed (kapalPosition : Position) (bagansToMove : list MoveItem) :
  (2 <= List.length bagansToMove)%nat ->
  Forall analysed bagansToMove ->
  exists best d profit,
    bestRoute (searchBestRoute rt kapalPosition bagansToMove) = Some best
    /\ Permutation bagansToMove best
    /\ detailRoute rt cfg
         {| routeDetails := []; currentPos := kapalPosition;
            d_cumulativeTime := 0; d_cumulativeDistance := 0 |} 0 best = Ok d
    /\ sumExpectedProfit 0 best = Ok profit
    /\ optimizeRoute rt cfg kapalPosition bagansToMove
       = Ok (Some (DetailedRoute (routeDetails d)
                     {| rs_totalBagans := List.length best;
                        rs_totalDistance :=
                          JS.toFixed_value 2 (d_cumulativeDistance d);
                        rs_totalTime := JS.Math_round (d_cumulativeTime d);
                        rs_totalFuelCost :=
                          JS.Math_round (calculateFuelCost cfg (d_cumulativeDistance d));
                        rs_totalExpectedProfit := profit |})).
Proof.
  intros Hlen Hall.
  pose proof (searchBestRoute_Searched rt kapalPosition bagansToMove) as Inv.
  unfold Searched in Inv.
  destruct (bestRoute (searchBestRoute rt kapalPosition bagansToMove))
    as [best | ] eqn:Ebest.
  - destruct Inv as (_ & before & after & Eperms & _).
    assert (Permutation bagansToMove best) as Hperm.
    { apply generatePermutations_spec. rewrite Eperms.
      apply in_or_app. right. left. reflexivity. }
    assert (Forall analysed best) as Hbest
        by (eapply Permutation_Forall; eassumption).
    destruct (detailRoute_ok rt cfg best
                {| routeDetails := []; currentPos := kapalPosition;
                   d_cumulativeTime := 0; d_cumulativeDistance := 0 |}
                0%nat Hbest) as (d & Ed & _).
    destruct (sumExpectedProfit_ok best 0%Z Hbest) as (profit & Eprofit).
    exists best, d, profit.
    repeat (split; [ assumption || reflexivity | ]).
    destruct bagansToMove as [ | x [ | y rest ] ]; cbn in Hlen; try lia.
    unfold optimizeRoute. rewrite Ebest. cbn [getProperty bind].
    rewrite Ed. cbn [bind]. rewrite Eprofit. reflexivity.
  - destruct Inv as (Eperms & _). exfalso.
    assert (In bagansToMove (generatePermutations bagansToMove)) as Hin
        by (apply generatePermutations_spec; reflexivity).
    rewrite Eperms in Hin. destruct Hin.
Qed.

(** X9: with two items or more that all have an analysis,
    [optimizeRoute] returns a detailed route with one step per item,
    numbered from 1; the first step leaves from the vessel's position and
    every later step from the target spot of the step before it; each
    step picks up its bagan where it is moored. *)
Theorem route_steps_are_chained (kapalPosition : Position)
    (bagansToMove : list MoveItem) :
  (2 <= List.length bagansToMove)%nat ->
  Forall analysed bagansToMove ->
  exists steps s best,
    optimizeRoute rt cfg kapalPosition bagansToMove
    = Ok (Some (DetailedRoute steps s))
    /\ Permutation bagansToMove best
    /\ List.length steps = List.length bagansToMove
    /\ map step steps = seq 1 (List.length bagansToMove)
    /\ map from steps = departures kapalPosition best
    /\ map pickupLocation steps
       = map (fun item => baganPosition (m_bagan item)) best
    /\ map targetLocation steps = map m_targetSpot best.
Proof.
  intros Hlen Hall.
  destruct (optimizeRoute_detailed kapalPosition bagansToMove Hlen Hall)
    as (best & d & profit & _ & Hperm & Ed & _ & Eroute).
  destruct (detailRoute_steps best _ _ _ Ed)
    as (new & Edetails & Hstep & Hfrom & Hpick & Htarget & _).
  cbn [routeDetails app currentPos] in Edetails, Hfrom. subst new.
  eexists _, _, best. split; [ exact Eroute | ].
  rewrite (Permutation_length Hperm).
  repeat split; try assumption.
  rewrite <- (length_map step), Hstep, length_seq. reflexivity.
Qed.

(** X10: the expected profit of the route summary is the sum of the
    net profits of the items, whatever order the route visits them in,
    and it is the sum of the expected profits of the steps. *)
Theorem route_profit_is_the_sum (kapalPosition : Position)
    (bagansToMove : list MoveItem) :
  (2 <= List.length bagansToMove)%nat ->
  Forall analysed bagansToMove ->
  exists steps s,
    optimizeRoute rt cfg kapalPosition bagansToMove
    = Ok (Some (DetailedRoute steps s))
    /\ rs_totalExpectedProfit s = sumZ (map profitOf bagansToMove)
    /\ rs_totalExpectedProfit s = sumZ (map expectedProfit steps)
    /\ rs_totalBagans s = List.length bagansToMove.
Proof.
  intros Hlen Hall.
  destruct (optimizeRoute_detailed kapalPosition bagansToMove Hlen Hall)
    as (best & d & profit & _ & Hperm & Ed & Eprofit & Eroute).
  destruct (detailRoute_steps best _ _ _ Ed)
    as (new & Edetails & _ & _ & _ & _ & Hprofit).
  cbn [routeDetails app] in Edetails. subst new.
  apply sumExpectedProfit_sum in Eprofit.
  eexists _, _. split; [ exact Eroute | ].
  cbn [rs_totalExpectedProfit rs_totalBagans]. subst profit.
  rewrite Hprofit.
  rewrite (sumZ_Permutation _ _ (Permutation_map profitOf Hperm)).
  repeat split; try lia.
  symmetry. apply Permutation_length, Hperm.
Qed.

(** X11: the total distance and the total time of the route summary
    are the cumulative distance and the cumulative time of the last
    step. *)
Theorem route_totals_are_the_last_cumulatives (kapalPosition : Position)
    (bagansToMove : list MoveItem) :
  (2 <= List.length bagansToMove)%nat ->
  Forall analysed bagansToMove ->
  exists steps s last,
    optimizeRoute rt cfg kapalPosition bagansToMove
    = Ok (Some (DetailedRoute steps s))
    /\ lastOf steps = Some last
    /\ rs_totalDistance s = cumulativeDistance last
    /\ rs_totalTime s = cumulativeTime last.
Proof.
  intros Hlen Hall.
  destruct (optimizeRoute_detailed kapalPosition bagansToMove Hlen Hall)
    as (best & d & profit & _ & Hperm & Ed & _ & Eroute).
  assert (Totalled {| routeDetails := []; currentPos := kapalPosition;
                      d_cumulativeTime := 0; d_cumulativeDistance := 0 |}) as Hinit
      by exact I.
  pose proof (detailRoute_Totalled best _ _ _ Hinit Ed) as Htot.
  destruct (detailRoute_steps best _ _ _ Ed) as (new & Edetails & Hstep & _).
  cbn [routeDetails app] in Edetails.
  unfold Totalled in Htot.
  destruct (lastOf (routeDetails d)) as [last | ] eqn:Elast.
  - destruct Htot as [Hd Ht].
    eexists _, _, last. split; [ exact Eroute | ].
    cbn [rs_totalDistance rs_totalTime]. repeat split; congruence.
  - exfalso. unfold lastOf in Elast. apply nth_error_None in Elast.
    assert (List.length (routeDetails d) = List.length bagansToMove) as El.
    { rewrite Edetails, <- (length_map step), Hstep, length_seq.
      symmetry. apply Permutation_length, Hperm. }
    lia.
Qed.

(** Every item [findBestSpots] hands over has an analysis. *)
Lemma movers_analysed (currentBagans : list Bagan) (availableSpots : list Spot) :
  Forall analysed (movesOf (findBestSpots rt cfg currentBagans availableSpots)).
Proof.
  apply Forall_forall. intros item Hin. unfold movesOf in Hin.
  apply in_flat_map in Hin as (r & Hr & Hitem).
  unfold findBestSpots in Hr. apply in_map_iff in Hr as (b & <- & _).
  cbn [recommendation bagan] in Hitem. unfold recommend in Hitem.
  pose proof (bestFor_Selected rt cfg b availableSpots) as Inv.
  unfold Selected in Inv.
  destruct (bestSpot (bestFor rt cfg b availableSpots)) as [s | ].
  - destruct Inv as (_ & _ & a & _ & _ & Ea & _).
    destruct Hitem as [<- | []]. unfold analysed. cbn [m_analysis].
    rewrite Ea. discriminate.
  - destruct Hitem.
Qed.

Lemma length_movesOf (recommendations : list BaganRecommendation) :
  (List.length (movesOf recommendations) <= List.length recommendations)%nat.
Proof.
  unfold movesOf.
  induction recommendations as [ | r l IH ]; cbn [flat_map List.length].
  - lia.
  - rewrite length_app. destruct (recommendation r); cbn [List.length]; lia.
Qed.

(** X12: [optimizeBaganOperations] throws exactly when one bagan is to
    be moved.  With none it returns a result without route and without
    totals; with two or more it returns a result with a detailed route
    and its totals. *)
Theorem optimize_throws_exactly_for_one_mover (input : Input) :
  let movers :=
    movesOf (findBestSpots rt cfg (currentBagans input) (candidateSpots input)) in
  (List.length movers = 1%nat ->
   optimizeBaganOperations rt cfg input = Throw (TypeError "totalDistance"))
  /\ (List.length movers = 0%nat ->
      exists r, optimizeBaganOperations rt cfg input = Ok r
                /\ or_optimizedRoute r = None
                /\ or_estimatedTotals r = None)
  /\ ((2 <= List.length movers)%nat ->
      exists r steps s t,
        optimizeBaganOperations rt cfg input = Ok r
        /\ or_optimizedRoute r = Some (DetailedRoute steps s)
        /\ or_estimatedTotals r = Some t
        /\ et_netProfit t = (rs_totalExpectedProfit s - rs_totalFuelCost s)%Z).
Proof.
  cbv zeta. split; [ | split ].
  - apply single_mover_throws.
  - intros Hnone. unfold optimizeBaganOperations. cbv zeta.
    destruct (movesOf _) as [ | x l ]; [ | discriminate ].
    cbn. eexists. repeat split.
  - intros Hmany.
    destruct (optimizeRoute_detailed (kapalPosition input) _ Hmany
                (movers_analysed (currentBagans input) (candidateSpots input)))
      as (best & d & profit & _ & _ & _ & _ & Eroute).
    unfold optimizeBaganOperations. cbv zeta.
    destruct (movesOf _) as [ | x [ | y l ] ] eqn:Emoves;
      cbn [List.length] in Hmany; try lia.
    cbn [List.length Nat.ltb Nat.leb]. rewrite Eroute. cbn.
    eexists _, _, _, _. repeat split.
Qed.

(** X13: the counts of a result add up: the bagans to move and the
    bagans to stay make up all the bagans, neither count is negative,
    the number to move is the number of recommendations to move, it is
    never 1, and [worthMoving] says whether it is positive. *)
Theorem result_counts_add_up (input : Input) (r : OptimizationResult) :
  optimizeBaganOperations rt cfg input = Ok r ->
  totalBagans (or_summary r) = List.length (currentBagans input)
  /\ List.length (or_recommendations r) = totalBagans (or_summary r)
  /\ bagansToMove (or_summary r) = List.length (movesOf (or_recommendations r))
  /\ (Z.of_nat (bagansToMove (or_summary r)) + bagansToStay (or_summary r))%Z
     = Z.of_nat (totalBagans (or_summary r))
  /\ (0 <= bagansToStay (or_summary r))%Z
  /\ bagansToMove (or_summary r) <> 1%nat
  /\ (worthMoving (or_summary r) = true <-> (0 < bagansToMove (or_summary r))%nat).
Proof.
  intros E.
  assert (List.length (movesOf (findBestSpots rt cfg (currentBagans input)
                                              (candidateSpots input))) <> 1%nat)
    as Hnot1.
  { intros Hone. rewrite (single_mover_throws rt cfg input Hone) in E. discriminate. }
  pose proof (length_movesOf (findBestSpots rt cfg (currentBagans input)
                                            (candidateSpots input))) as Hle.
  assert (List.length (findBestSpots rt cfg (currentBagans input)
                                     (candidateSpots input))
          = List.length (currentBagans input)) as Hrecs
      by (unfold findBestSpots; apply length_map).
  unfold optimizeBaganOperations in E. cbv zeta in E.
  destruct (if (0 <? _)%nat then _ else _) as [route | e]; cbn [bind] in E;
    [ | discriminate ].
  destruct (match route with Some _ => _ | None => _ end) as [totals | e];
    cbn [bind] in E; [ | discriminate ].
  injection E as <-.
  cbn [or_summary or_recommendations totalBagans bagansToMove bagansToStay worthMoving].
  repeat split; try assumption; try lia.
  - intros H. apply Nat.ltb_lt in H. exact H.
  - intros H. apply Nat.ltb_lt. exact H.
Qed.

(** X14: without any candidate spot every bagan stays, for want of a
    better spot, and the result has no route and no totals. *)
Theorem no_candidate_spots (kapalPosition : Position) (currentBagans : list Bagan) :
  exists r,
    optimizeBaganOperations rt cfg
      {| Optimizer.kapalPosition := kapalPosition;
         Optimizer.currentBagans := currentBagans;
         candidateSpots := [] |} = Ok r
    /\ or_optimizedRoute r = None
    /\ or_estimatedTotals r = None
    /\ bagansToMove (or_summary r) = 0%nat
    /\ bagansToStay (or_summary r) = Z.of_nat (List.length currentBagans)
    /\ worthMoving (or_summary r) = false
    /\ map recommendation (or_recommendations r)
       = map (fun b => Stay "No better spot found"
                         {| ca_score := b_score b;
                            ca_expectedCatch := estimateCatch (b_score b) |})
             currentBagans.
Proof.
  assert (movesOf (findBestSpots rt cfg currentBagans []) = []) as Enone.
  { unfold movesOf, findBestSpots.
    induction currentBagans as [ | b l IH ]; cbn [map flat_map].
    - reflexivity.
    - rewrite IH. reflexivity. }
  unfold optimizeBaganOperations. cbv zeta.
  cbn [Optimizer.currentBagans Optimizer.kapalPosition candidateSpots].
  rewrite Enone. cbn [List.length Nat.ltb Nat.leb bind].
  eexists. split; [ reflexivity | ].
  cbn [or_optimizedRoute or_estimatedTotals or_summary or_recommendations
         bagansToMove bagansToStay worthMoving].
  repeat split.
  - lia.
  - unfold findBestSpots. rewrite map_map. reflexivity.
Qed.

End Route.

Lemma twoMoverItems_analysed : Forall analysed [moverB4; moverB1].
Proof.
  repeat constructor; unfold analysed; vm_compute; discriminate.
Qed.

Lemma route_steps_are_chained_witness :
  (2 <= List.length [moverB4; moverB1])%nat
  /\ Forall analysed [moverB4; moverB1]
  /\ exists steps s best,
       optimizeRoute Reference.runtime CONFIG base [moverB4; moverB1]
       = Ok (Some (DetailedRoute steps s))
       /\ Permutation [moverB4; moverB1] best
       /\ List.length steps = List.length [moverB4; moverB1]
       /\ map step steps = seq 1 (List.length [moverB4; moverB1])
       /\ map from steps = departures base best
       /\ map pickupLocation steps
          = map (fun item => baganPosition (m_bagan item)) best
       /\ map targetLocation steps = map m_targetSpot best.
Proof.
  assert (2 <= List.length [moverB4; moverB1])%nat as Hlen by (cbn; lia).
  split; [ exact Hlen | split; [ exact twoMoverItems_analysed | ] ].
  exact (route_steps_are_chained Reference.runtime CONFIG base [moverB4; moverB1]
           Hlen twoMoverItems_analysed).
Defined.

Lemma route_profit_is_the_sum_witness :
  (2 <= List.length [moverB4; moverB1])%nat
  /\ Forall analysed [moverB4; moverB1]
  /\ exists steps s,
       optimizeRoute Reference.runtime CONFIG base [moverB4; moverB1]
       = Ok (Some (DetailedRoute steps s))
       /\ rs_totalExpectedProfit s = sumZ (map profitOf [moverB4; moverB1])
       /\ rs_totalExpectedProfit s = sumZ (map expectedProfit steps)
       /\ rs_totalBagans s = List.length [moverB4; moverB1].
Proof.
  assert (2 <= List.length [moverB4; moverB1])%nat as Hlen by (cbn; lia).
  split; [ exact Hlen | split; [ exact twoMoverItems_analysed | ] ].
  exact (route_profit_is_the_sum Reference.runtime CONFIG base [moverB4; moverB1]
           Hlen twoMoverItems_analysed).
Defined.

Lemma route_totals_are_the_last_cumulatives_witness :
  (2 <= List.length [moverB4; moverB1])%nat
  /\ Forall analysed [moverB4; moverB1]
  /\ exists steps s last,
       optimizeRoute Reference.runtime CONFIG base [moverB4; moverB1]
       = Ok (Some (DetailedRoute steps s))
       /\ lastOf steps = Some last
       /\ rs_totalDistance s = cumulativeDistance last
       /\ rs_totalTime s = cumulativeTime last.
Proof.
  assert (2 <= List.length [moverB4; moverB1])%nat as Hlen by (cbn; lia).
  split; [ exact Hlen | split; [ exact twoMoverItems_analysed | ] ].
  exact (route_totals_are_the_last_cumulatives Reference.runtime CONFIG base
           [moverB4; moverB1] Hlen twoMoverItems_analysed).
Defined.

Lemma result_counts_add_up_witness :
  exists r,
    optimizeBaganOperations Reference.runtime CONFIG zeroLengthRoute = Ok r
    /\ (Z.of_nat (bagansToMove (or_summary r)) + bagansToStay (or_summary r))%Z
       = Z.of_nat (totalBagans (or_summary r))
    /\ bagansToMove (or_summary r) <> 1%nat.
Proof.
  assert (exists r, optimizeBaganOperations Reference.runtime CONFIG zeroLengthRoute
                    = Ok r) as [r E].
  { vm_compute. eexists. reflexivity. }
  exists r. split; [ exact E | ].
  destruct (result_counts_add_up Reference.runtime CONFIG zeroLengthRoute r E)
    as (_ & _ & _ & Hsum & _ & Hnot1 & _).
  split; assumption.
Defined.

End RouteMore.

(** ** nearIslandBonus and the symmetry of the distance *)

Module GeoMore.

Import Optimizer OptimizerMore Scenarios.

(** X15: the island bonus lies between 0 and 10, and it is at most 5
    points per island. *)
Theorem nearIslandBonus_range (rt : JS.Runtime) (islands : list Island) (lat lng : Q) :
  (0 <= nearIslandBonus rt islands lat lng <= 10)%Z
  /\ (nearIslandBonus rt islands lat lng <= 5 * Z.of_nat (List.length islands))%Z.
Proof.
  unfold nearIslandBonus. cbv zeta.
  assert (forall l acc,
             (0 <= acc)%Z ->
             (0 <= fold_left (addIslandBonus rt lat lng) l acc
              <= acc + 5 * Z.of_nat (List.length l))%Z) as Hfold.
  { induction l as [ | island l IH ]; intros acc Hacc; cbn [fold_left List.length].
    - lia.
    - assert (acc <= addIslandBonus rt lat lng acc island <= acc + 5)%Z as Hstep.
      { unfold addIslandBonus. cbv zeta.
        repeat (destruct (Qlt_le_dec _ _); [ lia | ]). lia. }
      specialize (IH (addIslandBonus rt lat lng acc island)). lia. }
  specialize (Hfold islands 0%Z). lia.
Qed.

Section Symmetry.

Variable rt : JS.Runtime.
Hypothesis lawful : JS.Lawful rt.
Hypothesis sin_odd : forall x, JS.Math_sin rt (- x) == - JS.Math_sin rt x.

Lemma sin_squared_opposite (x y : Q) :
  x == - y ->
  JS.Math_sin rt x * JS.Math_sin rt x == JS.Math_sin rt y * JS.Math_sin rt y.
Proof.
  intros E. rewrite (JS.sin_proper rt lawful x (- y) E), sin_odd. ring.
Qed.

(** X16: on a runtime whose sine is odd, the distance from a point to
    another is the distance back. *)
Theorem calculateDistance_symmetric (lat1 lon1 lat2 lon2 : Q) :
  calculateDistance rt lat1 lon1 lat2 lon2
  == calculateDistance rt lat2 lon2 lat1 lon1.
Proof.
  unfold calculateDistance. cbv zeta.
  assert (forall u v, toRad rt (u - v) / 2 == - (toRad rt (v - u) / 2)) as Hopp
      by (intros u v; unfold toRad; field).
  set (a := JS.Math_sin rt (toRad rt (lat2 - lat1) / 2)
            * JS.Math_sin rt (toRad rt (lat2 - lat1) / 2)
            + JS.Math_cos rt (toRad rt lat1) * JS.Math_cos rt (toRad rt lat2)
              * JS.Math_sin rt (toRad rt (lon2 - lon1) / 2)
              * JS.Math_sin rt (toRad rt (lon2 - lon1) / 2)).
  set (a' := JS.Math_sin rt (toRad rt (lat1 - lat2) / 2)
             * JS.Math_sin rt (toRad rt (lat1 - lat2) / 2)
             + JS.Math_cos rt (toRad rt lat2) * JS.Math_cos rt (toRad rt lat1)
               * JS.Math_sin rt (toRad rt (lon1 - lon2) / 2)
               * JS.Math_sin rt (toRad rt (lon1 - lon2) / 2)).
  assert (a == a') as Ha.
  { unfold a, a'.
    pose proof (sin_squared_opposite _ _ (Hopp lat2 lat1)) as Hlat.
    pose proof (sin_squared_opposite _ _ (Hopp lon2 lon1)) as Hlon.
    rewrite Hlat.
    rewrite <- !Qmult_assoc. rewrite Hlon. ring. }
  assert (1 - a == 1 - a') as H1 by (rewrite Ha; reflexivity).
  rewrite (JS.atan2_proper rt lawful _ _ _ _
             (JS.sqrt_proper rt lawful _ _ Ha)
             (JS.sqrt_proper rt lawful _ _ H1)).
  reflexivity.
Qed.

End Symmetry.

Lemma series_lawful : JS.Lawful Series.runtime.
Proof.
  pose proof RuntimeFacts.reference_lawful as [_ Hcos Hsqrt Hatan _ Hs0 Hs1 Hat].
  constructor.
  - intros x y E. cbn [JS.Math_sin Series.runtime]. unfold Series.sin.
    rewrite E. reflexivity.
  - exact Hcos.
  - exact Hsqrt.
  - exact Hatan.
  - vm_compute. reflexivity.
  - exact Hs0.
  - exact Hs1.
  - exact Hat.
Qed.

Lemma series_sin_odd (x : Q) :
  JS.Math_sin Series.runtime (- x) == - JS.Math_sin Series.runtime x.
Proof.
  cbn [JS.Math_sin Series.runtime]. unfold Series.sin. field.
Qed.

Lemma calculateDistance_symmetric_witness :
  JS.Lawful Series.runtime
  /\ (forall x, JS.Math_sin Series.runtime (- x) == - JS.Math_sin Series.runtime x)
  /\ calculateDistance Series.runtime (b_lat B1) (b_lng B1) (s_lat spotA) (s_lng spotA)
     == calculateDistance Series.runtime (s_lat spotA) (s_lng spotA) (b_lat B1) (b_lng B1).
Proof.
  split; [ exact series_lawful | split; [ exact series_sin_odd | ] ].
  exact (calculateDistance_symmetric Series.runtime series_lawful series_sin_odd
           (b_lat B1) (b_lng B1) (s_lat spotA) (s_lng spotA)).
Defined.

End GeoMore.

(** ** The candidate scanner: further facts *)

Module ScannerMoreFacts.

Import ZoneService Optimizer Scanner ScannerMore ScannerFacts PermutationFacts.

Lemma length_steps (lo hi : Z) : List.length (steps lo hi) = Z.to_nat (hi - lo + 1).
Proof.
  unfold steps. rewrite length_map, length_seq. reflexivity.
Qed.

(** X17: the grid of a scan has [(2 n + 1)^2] points, where [n] is the
    radius divided by the spacing of half a kilometre, rounded up. *)
Theorem gridPoints_count (rt : JS.Runtime) (center : Position) (radiusKm : Q) :
  List.length (gridPoints rt center radiusKm)
  = (Z.to_nat (2 * JS.Math_ceil (radiusKm / 0.5) + 1)
     * Z.to_nat (2 * JS.Math_ceil (radiusKm / 0.5) + 1))%nat.
Proof.
  unfold gridPoints. cbv zeta.
  set (n := JS.Math_ceil (radiusKm / 0.5)).
  rewrite (length_flat_map_constant _ (Z.to_nat (2 * n + 1))).
  - rewrite length_steps. f_equal. f_equal. lia.
  - intros latStep _. rewrite length_map, length_steps. f_equal. lia.
Qed.

Section Origin.

Variable rt : JS.Runtime.
Variable zoneService : Collaborator.
Variable center : Position.
Variable currentBagans : list Bagan.
Variable radiusKm : Q.
Variable date : CalendarDate.

Lemma tooClose_false (plat plng : Q) :
  tooClose rt currentBagans plat plng = false ->
  forall b, In b currentBagans ->
            0.3 <= calculateDistance rt (b_lat b) (b_lng b) plat plng.
Proof.
  unfold tooClose. intros Hnone b Hb.
  destruct (Qlt_le_dec (calculateDistance rt (b_lat b) (b_lng b) plat plng) 0.3)
    as [Hlt | Hge] eqn:Ecmp; [ | exact Hge ].
  exfalso. apply Bool.not_true_iff_false in Hnone. apply Hnone.
  apply existsb_exists. exists b. split; [ exact Hb | ].
  cbv zeta. rewrite Ecmp. reflexivity.
Qed.

Lemma visitPoint_Traced (points : list (Q * Q)) (st : Found) (point : Q * Q) :
  In point points ->
  Traced rt zoneService center currentBagans radiusKm date points st ->
  Traced rt zoneService center currentBagans radiusKm date points
         (visitPoint rt zoneService center currentBagans radiusKm date st point).
Proof.
  intros Hin [Hid Hspots]. unfold visitPoint. destruct point as [plat plng].
  destruct (Qlt_le_dec radiusKm _) as [Hout | Hinside]; [ split; assumption | ].
  destruct (tooClose rt currentBagans plat plng) eqn:Eclose; [ split; assumption | ].
  cbv zeta.
  destruct (Z.leb_spec 70 (estimateScoreForLocation zoneService plat plng date))
    as [Hge | Hlt]; [ | split; assumption ].
  split; cbn [spotId spots]; [ lia | ].
  apply Forall_app. split.
  - eapply Forall_impl; [ | exact Hspots ].
    intros s (p1 & p2 & k & Hp & Hk & Hmade).
    exists p1, p2, k. split; [ exact Hp | split; [ lia | exact Hmade ] ].
  - constructor; [ | constructor ].
    exists plat, plng, (spotId st). split; [ exact Hin | ]. split; [ lia | ].
    unfold MadeFrom. repeat split; try assumption.
    apply tooClose_false, Eclose.
Qed.

Lemma scan_Traced (points : list (Q * Q)) (visited : list (Q * Q)) :
  forall st,
    incl visited points ->
    Traced rt zoneService center currentBagans radiusKm date points st ->
    Traced rt zoneService center currentBagans radiusKm date points
           (fold_left (visitPoint rt zoneService center currentBagans radiusKm date)
                      visited st).
Proof.
  induction visited as [ | point visited IH ]; intros st Hincl Hst; cbn [fold_left].
  - exact Hst.
  - apply IH.
    + intros p Hp. apply Hincl. right. exact Hp.
    + apply visitPoint_Traced; [ apply Hincl; left; reflexivity | exact Hst ].
Qed.

(** X18: every candidate the scanner returns was made from a point of
    the grid that is within the radius of the centre and at least 0.3 km
    from every bagan, and whose score is 70 or more; its coordinates are
    those of the point rounded to four decimals, its score is that of the
    point and its estimated catch is [estimateCatch] of that score. *)
Theorem scanned_spots_come_from_the_grid :
  Forall
    (fun s =>
       exists plat plng,
         In (plat, plng) (gridPoints rt center radiusKm)
         /\ calculateDistance rt (lat center) (lng center) plat plng <= radiusKm
         /\ (forall b, In b currentBagans ->
             0.3 <= calculateDistance rt (b_lat b) (b_lng b) plat plng)
         /\ (70 <= estimateScoreForLocation zoneService plat plng date)%Z
         /\ s_lat s = JS.toFixed_value 4 plat
         /\ s_lng s = JS.toFixed_value 4 plng
         /\ s_score s = inject_Z (estimateScoreForLocation zoneService plat plng date)
         /\ s_estimatedCatch s = Some (estimateCatch (s_score s)))
    (scanAreaForSpots rt zoneService center currentBagans radiusKm date).
Proof.
  unfold scanAreaForSpots. cbv zeta.
  apply firstn_Forall, sortByScoreDescending_Forall.
  pose proof (scan_Traced (gridPoints rt center radiusKm)
                (gridPoints rt center radiusKm)
                {| spots := []; spotId := 1 |}
                (incl_refl _)) as Htraced.
  destruct Htraced as [_ Hspots].
  { split; cbn [spotId spots]; [ lia | constructor ]. }
  eapply Forall_impl; [ | exact Hspots ].
  intros s (plat & plng & k & Hin & _ & Hd & Hb & Hscore & _ & ->).
  exists plat, plng. cbn [s_lat s_lng s_score s_estimatedCatch].
  repeat split; assumption.
Qed.

Lemma visitPoint_Numbered (st : Found) (point : Q * Q) :
  Numbered st ->
  Numbered (visitPoint rt zoneService center currentBagans radiusKm date st point).
Proof.
  intros [Hid Hnth]. unfold visitPoint. destruct point as [plat plng].
  destruct (Qlt_le_dec radiusKm _); [ split; assumption | ].
  destruct (tooClose rt currentBagans plat plng); [ split; assumption | ].
  cbv zeta.
  destruct (70 <=? estimateScoreForLocation zoneService plat plng date)%Z;
    [ | split; assumption ].
  split; cbn [spots spotId].
  - rewrite length_app. cbn [List.length]. lia.
  - intros n s Hn.
    destruct (Nat.lt_ge_cases n (List.length (spots st))) as [Hold | Hnew].
    + rewrite nth_error_app1 in Hn by exact Hold. apply Hnth, Hn.
    + rewrite nth_error_app2 in Hn by exact Hnew.
      destruct (n - List.length (spots st))%nat as [ | later ] eqn:Elast;
        cbn [nth_error] in Hn.
      * injection Hn as <-. cbn [s_id s_name]. rewrite Hid.
        replace n with (List.length (spots st)) by lia.
        replace (Z.of_nat (List.length (spots st)) + 1 + 1)%Z
          with (Z.of_nat (List.length (spots st)) + 2)%Z by lia.
        split; reflexivity.
      * destruct later; discriminate.
Qed.

Lemma scan_Numbered (points : list (Q * Q)) :
  forall st,
    Numbered st ->
    Numbered (fold_left (visitPoint rt zoneService center currentBagans radiusKm date)
                        points st).
Proof.
  induction points as [ | point points IH ]; intros st Hst; cbn [fold_left].
  - exact Hst.
  - apply IH, visitPoint_Numbered, Hst.
Qed.

(** X19: the candidate found as the [n]-th one, in the order of the
    grid loops and counting from 1, has the identifier [SPOT_n] and the
    name [Candidate n+1], the counter being incremented between the
    two; the scanner returns the first twenty of the candidates found,
    sorted, and every candidate it returns is one of them, with the
    identifier and the name it was given when found. *)
Theorem scanned_spots_names :
  scanAreaForSpots rt zoneService center currentBagans radiusKm date
  = firstn 20 (sortByScoreDescending
                 (discovered rt zoneService center currentBagans radiusKm date))
  /\ (forall n s,
        nth_error (discovered rt zoneService center currentBagans radiusKm date) n
        = Some s ->
        s_id s = ("SPOT_" ++ JS.digits (Z.of_nat n + 1))%string
        /\ s_name s = ("Candidate " ++ JS.digits (Z.of_nat n + 2))%string)
  /\ Forall
       (fun s =>
          exists n,
            nth_error (discovered rt zoneService center currentBagans radiusKm date) n
            = Some s
            /\ s_id s = ("SPOT_" ++ JS.digits (Z.of_nat n + 1))%string
            /\ s_name s = ("Candidate " ++ JS.digits (Z.of_nat n + 2))%string)
       (scanAreaForSpots rt zoneService center currentBagans radiusKm date).
Proof.
  assert (Numbered (fold_left
                      (visitPoint rt zoneService center currentBagans radiusKm date)
                      (gridPoints rt center radiusKm)
                      {| spots := []; spotId := 1 |})) as [_ Hnth].
  { apply scan_Numbered. split; cbn [spots spotId List.length].
    - reflexivity.
    - intros [ | n ] s Hn; discriminate. }
  split; [ reflexivity | split; [ exact Hnth | ] ].
  unfold scanAreaForSpots. cbv zeta.
  apply firstn_Forall, sortByScoreDescending_Forall.
  apply Forall_forall. intros s Hin.
  apply In_nth_error in Hin as [n Hn].
  exists n. split; [ exact Hn | apply Hnth, Hn ].
Qed.

End Origin.

End ScannerMoreFacts.

(** ** zoneService.js: the fetches *)

Module FetcherFacts.

Import ZoneService Optimizer Scanner Fetchers RoundingFacts ZoneServiceFacts.
Import Scenarios MoreScenarios.

Section Retry.

Context {A : Type}.
Variable get : nat -> result A.

Lemma fetchWithRetryFrom_Ok (remaining : nat) :
  forall i d,
    fetchWithRetryFrom get i remaining = Ok d <->
    exists k, (i <= k <= i + remaining)%nat /\ get k = Ok d
              /\ forall j, (i <= j < k)%nat -> exists e, get j = Throw e.
Proof.
  induction remaining as [ | remaining IH ]; intros i d; cbn [fetchWithRetryFrom].
  - destruct (get i) as [data | error] eqn:Ei; split.
    + intros E. exists i. split; [ lia | ]. split; [ congruence | ].
      intros j Hj. lia.
    + intros (k & Hk & Ek & _). assert (k = i) by lia. subst k. congruence.
    + discriminate.
    + intros (k & Hk & Ek & _). assert (k = i) by lia. subst k. congruence.
  - destruct (get i) as [data | error] eqn:Ei; split.
    + intros E. exists i. split; [ lia | ]. split; [ congruence | ].
      intros j Hj. lia.
    + intros (k & Hk & Ek & Hbefore).
      destruct (Nat.eq_dec k i) as [-> | Hne]; [ congruence | ].
      destruct (Hbefore i) as [e He]; [ lia | congruence ].
    + intros E. apply IH in E as (k & Hk & Ek & Hbefore).
      exists k. split; [ lia | ]. split; [ exact Ek | ].
      intros j Hj. destruct (Nat.eq_dec j i) as [-> | Hne].
      * exists error. exact Ei.
      * apply Hbefore. lia.
    + intros (k & Hk & Ek & Hbefore). apply IH.
      assert (k <> i) by congruence.
      exists k. split; [ lia | ]. split; [ exact Ek | ].
      intros j Hj. apply Hbefore. lia.
Qed.

Lemma fetchWithRetryFrom_Throw (remaining : nat) :
  forall i e,
    fetchWithRetryFrom get i remaining = Throw e <->
    (forall j, (i <= j <= i + remaining)%nat -> exists e', get j = Throw e')
    /\ get (i + remaining)%nat = Throw e.
Proof.
  induction remaining as [ | remaining IH ]; intros i e; cbn [fetchWithRetryFrom].
  - rewrite Nat.add_0_r. destruct (get i) as [data | error] eqn:Ei; split.
    + discriminate.
    + intros [_ E]. discriminate.
    + intros E. split; [ | exact E ].
      intros j Hj. assert (j = i) by lia. subst j. exists error. exact Ei.
    + intros [_ E]. exact E.
  - replace (i + S remaining)%nat with (S i + remaining)%nat by lia.
    destruct (get i) as [data | error] eqn:Ei; split.
    + discriminate.
    + intros [Hall _]. destruct (Hall i) as [e' He']; [ lia | congruence ].
    + intros E. apply IH in E as [Hall Elast]. split; [ | exact Elast ].
      intros j Hj. destruct (Nat.eq_dec j i) as [-> | Hne].
      * exists error. exact Ei.
      * apply Hall. lia.
    + intros [Hall Elast]. apply IH. split; [ | exact Elast ].
      intros j Hj. apply Hall. lia.
Qed.

(** X20: [fetchWithRetry] returns the data of the first attempt that
    succeeds among the [retries + 1] it may make, every attempt before
    it having failed; and it throws exactly when they all fail, the error
    being that of the last attempt. *)
Theorem fetchWithRetry_first_success (retries : nat) :
  (forall d,
      fetchWithRetry get retries = Ok d <->
      exists k, (k <= retries)%nat /\ get k = Ok d
                /\ forall j, (j < k)%nat -> exists e, get j = Throw e)
  /\ (forall e,
        fetchWithRetry get retries = Throw e <->
        failing get retries /\ get retries = Throw e).
Proof.
  unfold fetchWithRetry, failing. split.
  - intros d. rewrite fetchWithRetryFrom_Ok. split.
    + intros (k & Hk & Ek & Hbefore). exists k. split; [ lia | ].
      split; [ exact Ek | ]. intros j Hj. apply Hbefore. lia.
    + intros (k & Hk & Ek & Hbefore). exists k. split; [ lia | ].
      split; [ exact Ek | ]. intros j Hj. apply Hbefore. lia.
  - intros e. rewrite fetchWithRetryFrom_Throw. cbn [Nat.add]. split.
    + intros [Hall E]. split; [ | exact E ]. intros i Hi. apply Hall. lia.
    + intros [Hall E]. split; [ | exact E ]. intros i Hi. apply Hall. lia.
Qed.

Lemma failing_throws (retries : nat) :
  failing get retries -> exists e, fetchWithRetry get retries = Throw e.
Proof.
  intros Hfail. destruct (Hfail retries (Nat.le_refl _)) as [e He].
  exists e. unfold fetchWithRetry. apply fetchWithRetryFrom_Throw.
  cbn [Nat.add]. split; [ | exact He ].
  intros j Hj. apply Hfail. lia.
Qed.

End Retry.

(** A request that fails twice succeeds at the third attempt when two
    retries are allowed, and throws with one retry only. *)
Example fetchWithRetry_third_attempt :
  fetchWithRetry thirdTimeLucky 2 = Ok 42%Z
  /\ fetchWithRetry thirdTimeLucky 1 = Throw (Rejected "timeout").
Proof.
  split; reflexivity.
Qed.

Section Fetch.

Variable net : Network.

Lemma chlorophyll_fallback (lat lon : Q) (date : CalendarDate) :
  failing (erddapChlorophyll net lat lon date) 2 ->
  exists message,
    getChlorophyllData net lat lon date = chlorophyllFallback message.
Proof.
  intros Hfail. destruct (failing_throws _ _ Hfail) as [e E].
  unfold getChlorophyllData. rewrite E. eexists. reflexivity.
Qed.

Lemma sst_fallback (lat lon : Q) (date : CalendarDate) :
  failing (erddapSST net lat lon date) 2 ->
  exists message, getSST net lat lon date = sstFallback message.
Proof.
  intros Hfail. destruct (failing_throws _ _ Hfail) as [e E].
  unfold getSST. rewrite E. eexists. reflexivity.
Qed.

Lemma marine_fallback (lat lon : Q) :
  failing (marineApi net lat lon) 2 ->
  exists message, getMarineWeather net lat lon = marineFallback message.
Proof.
  intros Hfail. destruct (failing_throws _ _ Hfail) as [e E].
  unfold getMarineWeather. rewrite E. eexists. reflexivity.
Qed.

Lemma wind_fallback (lat lon : Q) :
  openWeatherKey net = false \/ failing (openWeatherApi net lat lon) 2 ->
  exists message, getWindData net lat lon = windFallback message.
Proof.
  unfold getWindData. intros [Hkey | Hfail].
  - rewrite Hkey. eexists. reflexivity.
  - destruct (openWeatherKey net); cbn [negb]; [ | eexists; reflexivity ].
    destruct (failing_throws _ _ Hfail) as [e E]. rewrite E.
    eexists. reflexivity.
Qed.

(** X21: a fetch whose three attempts fail does not reject: it returns
    the estimated reading, tagged 'Estimated' and carrying the error:
    0.35 mg/m³ of chlorophyll, 28.5 °C, waves of 0.8 m and a wind of
    4.5 m/s.  The wind is estimated as well when no OpenWeather key is
    configured, without any request. *)
Theorem fetches_fall_back_to_estimates (lat lon : Q) (date : CalendarDate) :
  (failing (erddapChlorophyll net lat lon date) 2 ->
   cr_value (getChlorophyllData net lat lon date) = 0.35
   /\ cr_source (getChlorophyllData net lat lon date) = "Estimated"%string
   /\ cr_error (getChlorophyllData net lat lon date) <> None)
  /\ (failing (erddapSST net lat lon date) 2 ->
      sr_value (getSST net lat lon date) = 28.5
      /\ sr_source (getSST net lat lon date) = "Estimated"%string
      /\ sr_error (getSST net lat lon date) <> None)
  /\ (failing (marineApi net lat lon) 2 ->
      me_value (mr_waveHeight (getMarineWeather net lat lon)) = 0.8
      /\ mr_source (getMarineWeather net lat lon) = "Estimated"%string
      /\ mr_error (getMarineWeather net lat lon) <> None)
  /\ (openWeatherKey net = false \/ failing (openWeatherApi net lat lon) 2 ->
      me_value (wr_speed (getWindData net lat lon)) = 4.5
      /\ wr_source (getWindData net lat lon) = "Estimated"%string
      /\ wr_error (getWindData net lat lon) <> None).
Proof.
  split; [ | split; [ | split ] ].
  - intros H. destruct (chlorophyll_fallback lat lon date H) as [m ->].
    cbn. repeat split. discriminate.
  - intros H. destruct (sst_fallback lat lon date H) as [m ->].
    cbn. repeat split. discriminate.
  - intros H. destruct (marine_fallback lat lon H) as [m ->].
    cbn. repeat split. discriminate.
  - intros H. destruct (wind_fallback lat lon H) as [m ->].
    cbn. repeat split. discriminate.
Qed.

Lemma score_of_estimated_readings_holds (lat lng : Q) (date : CalendarDate) :
  failing (erddapChlorophyll net lat lng date) 2 ->
  failing (erddapSST net lat lng date) 2 ->
  failing (marineApi net lat lng) 2 ->
  openWeatherKey net = false \/ failing (openWeatherApi net lat lng) 2 ->
  score (calculateZoneScore (zoneData net lat lng date))
  = (70 + fscore (moonFactor (getMoonPhase date)))%Z.
Proof.
  intros Hchl Hsst Hmarine Hwind.
  rewrite score_is_earned. unfold spec_earned, zoneData.
  cbn [chlorophyll sst moon waveHeight wind earned].
  destruct (chlorophyll_fallback lat lng date Hchl) as [m1 ->].
  destruct (sst_fallback lat lng date Hsst) as [m2 ->].
  destruct (marine_fallback lat lng Hmarine) as [m3 ->].
  destruct (wind_fallback lat lng Hwind) as [m4 ->].
  change (fscore (chlorophyllFactor (chlorophyllOf (chlorophyllFallback m1))))
    with 20%Z.
  change (fscore (sstFactor (sstOf (sstFallback m2)))) with 25%Z.
  change (fscore (waveFactor (waveHeightOf (marineFallback m3)))) with 15%Z.
  change (fscore (windFactor (windOf (windFallback m4)))) with 10%Z.
  lia.
Qed.

(** X22: when the four fetches of a point fail, its score is 70 plus
    the points of the moon, between 75 and 90; [estimateScoreForLocation]
    returns that score, so the scanner keeps the point. *)
Theorem score_of_estimated_readings (lat lng : Q) (date : CalendarDate) :
  failing (erddapChlorophyll net lat lng date) 2 ->
  failing (erddapSST net lat lng date) 2 ->
  failing (marineApi net lat lng) 2 ->
  openWeatherKey net = false \/ failing (openWeatherApi net lat lng) 2 ->
  score (calculateZoneScore (zoneData net lat lng date))
  = (70 + fscore (moonFactor (getMoonPhase date)))%Z
  /\ (75 <= score (calculateZoneScore (zoneData net lat lng date)) <= 90)%Z
  /\ estimateScoreForLocation (zoneService net) lat lng date
     = score (calculateZoneScore (zoneData net lat lng date)).
Proof.
  intros Hchl Hsst Hmarine Hwind.
  pose proof (score_of_estimated_readings_holds lat lng date Hchl Hsst Hmarine Hwind)
    as Escore.
  split; [ exact Escore | split; [ | reflexivity ] ].
  rewrite Escore.
  assert (5 <= fscore (moonFactor (getMoonPhase date)) <= 20)%Z as Hmoon.
  { unfold moonFactor.
    repeat (destruct (_ <? _)%Z; [ cbn; lia | ]). cbn; lia. }
  lia.
Qed.

End Fetch.

Lemma offlineNet_failing :
  failing (erddapChlorophyll offlineNet (-6.75) 105.52 june_6_2024) 2
  /\ failing (erddapSST offlineNet (-6.75) 105.52 june_6_2024) 2
  /\ failing (marineApi offlineNet (-6.75) 105.52) 2
  /\ (openWeatherKey offlineNet = false
      \/ failing (openWeatherApi offlineNet (-6.75) 105.52) 2).
Proof.
  unfold failing. repeat split; try (intros i _; eexists; reflexivity).
  left. reflexivity.
Qed.

Lemma score_of_estimated_readings_witness :
  failing (erddapChlorophyll offlineNet (-6.75) 105.52 june_6_2024) 2
  /\ failing (erddapSST offlineNet (-6.75) 105.52 june_6_2024) 2
  /\ failing (marineApi offlineNet (-6.75) 105.52) 2
  /\ (openWeatherKey offlineNet = false
      \/ failing (openWeatherApi offlineNet (-6.75) 105.52) 2)
  /\ (75 <= score (calculateZoneScore (zoneData offlineNet (-6.75) 105.52 june_6_2024))
       <= 90)%Z.
Proof.
  destruct offlineNet_failing as (H1 & H2 & H3 & H4).
  split; [ exact H1 | split; [ exact H2 | split; [ exact H3 | split; [ exact H4 | ] ] ] ].
  exact (proj1 (proj2 (score_of_estimated_readings offlineNet (-6.75) 105.52
                         june_6_2024 H1 H2 H3 H4))).
Defined.

End FetcherFacts.

(** ** The candidate scanner over the fetches of zoneService.js *)

Module ScanFallbackFacts.

Import ZoneService Optimizer Scanner ScannerMore Fetchers.
Import ScannerFacts ScannerMoreFacts FetcherFacts Scenarios MoreScenarios.



Section Kept.

Variable rt : JS.Runtime.
Variable zoneService : Collaborator.
Variable center : Position.
Variable currentBagans : list Bagan.
Variable radiusKm : Q.
Variable date : CalendarDate.


End Kept.

Section Scan.

Variable rt : JS.Runtime.
Variable net : Network.
Variable center : Position.
Variable currentBagans : list Bagan.
Variable radiusKm : Q.
Variable date : CalendarDate.



End Scan.


(** With every request failing, a scan of one kilometre around [base]
    goes through the whole grid and returns the eight points that are
    within the radius and away from [B1], each with the score 90 on
    15 January 2024. *)
Example scan_with_every_request_failing :
  map (fun s => (s_id s, s_score s))
      (scanAreaForSpots Reference.runtime (zoneService offlineNet) base [B1] 1
                        january_15_2024)
  = [ ("SPOT_1"%string, inject_Z 90); ("SPOT_2"%string, inject_Z 90);
      ("SPOT_3"%string, inject_Z 90); ("SPOT_4"%string, inject_Z 90);
      ("SPOT_5"%string, inject_Z 90); ("SPOT_6"%string, inject_Z 90);
      ("SPOT_7"%string, inject_Z 90); ("SPOT_8"%string, inject_Z 90) ].
Proof.
  vm_compute. reflexivity.
Qed.

End ScanFallbackFacts.

(** ** zoneService.js: labels, bands and the moon *)

Module ZoneMore.

Import ZoneService Optimizer Scanner Fetchers RoundingFacts ZoneServiceFacts.
Import FetcherFacts Scenarios MoreScenarios.

Ltac bands :=
  repeat match goal with
         | |- context [Qlt_le_dec ?x ?y] => destruct (Qlt_le_dec x y)
         end;
  cbn; repeat split; intros; try discriminate; try reflexivity; try lia;
  try (exfalso; lra); auto.

Section Labels.

Variable net : Network.

Lemma chlorophyll_label (lat lon : Q) (date : CalendarDate) :
  let r := getChlorophyllData net lat lon date in
  (cr_quality r = "high"%string <-> fscore (chlorophyllFactor (chlorophyllOf r)) = 30%Z)
  /\ (cr_quality r = "medium"%string
      <-> fscore (chlorophyllFactor (chlorophyllOf r)) = 20%Z)
  /\ (cr_quality r = "low"%string
      <-> (fscore (chlorophyllFactor (chlorophyllOf r)) <= 10)%Z).
Proof.
  cbv zeta. unfold getChlorophyllData.
  destruct (fetchWithRetry _ 2) as [data | e].
  - destruct (firstRow data) as [row | ].
    + unfold chlorophyllFactor, chlorophyllOf.
      cbn [chlValue cr_value cr_quality]. bands.
    + cbn. repeat split; intros; try discriminate; try reflexivity; lia.
  - cbn. repeat split; intros; try discriminate; try reflexivity; lia.
Qed.

Lemma wave_label (lat lon : Q) :
  let r := getMarineWeather net lat lon in
  (me_quality (mr_waveHeight r) = "calm"%string
   <-> (10 <= fscore (waveFactor (waveHeightOf r)))%Z)
  /\ (me_quality (mr_waveHeight r) = "moderate"%string ->
      (fscore (waveFactor (waveHeightOf r)) <= 5)%Z)
  /\ (me_quality (mr_waveHeight r) = "rough"%string ->
      fscore (waveFactor (waveHeightOf r)) = 0%Z).
Proof.
  cbv zeta. unfold getMarineWeather.
  destruct (fetchWithRetry _ 2) as [data | e].
  - destruct (current data) as [cur | ].
    + unfold waveFactor, waveHeightOf.
      cbn [waveValue me_value me_quality mr_waveHeight]. bands.
    + cbn. repeat split; intros; try discriminate; try reflexivity; lia.
  - cbn. repeat split; intros; try discriminate; try reflexivity; lia.
Qed.

Lemma wind_label (lat lon : Q) :
  let r := getWindData net lat lon in
  (me_quality (wr_speed r) = "calm"%string
   <-> fscore (windFactor (windOf r)) = 10%Z)
  /\ (me_quality (wr_speed r) = "moderate"%string
      <-> fscore (windFactor (windOf r)) = 7%Z
          \/ fscore (windFactor (windOf r)) = 4%Z)
  /\ (me_quality (wr_speed r) = "strong"%string
      <-> fscore (windFactor (windOf r)) = 0%Z).
Proof.
  cbv zeta. unfold getWindData.
  destruct (negb (openWeatherKey net)).
  - cbn. repeat split; intros; try discriminate; try reflexivity;
      try lia; intuition lia.
  - destruct (fetchWithRetry _ 2) as [data | e].
    + destruct (wd_wind data) as [w | ].
      * unfold windFactor, windOf.
        cbn [windSpeedValue me_value me_quality wr_speed]. bands;
          try (intuition discriminate); try (intuition lia).
      * cbn. repeat split; intros; try discriminate; try reflexivity;
          try lia; intuition lia.
    + cbn. repeat split; intros; try discriminate; try reflexivity;
        try lia; intuition lia.
Qed.

(** X23: the quality label of a reading agrees with the points
    [calculateZoneScore] gives it.  Chlorophyll: 'high', 'medium' and
    'low' are 30 points, 20 points and 10 points or less.  Wind: 'calm'
    is 10 points, 'moderate' 7 or 4, 'strong' none.  Waves: 'calm' is
    10 points or more, 'moderate' 5 or less, 'rough' none. *)
Theorem quality_labels_agree_with_bands (lat lon : Q) (date : CalendarDate) :
  ((cr_quality (getChlorophyllData net lat lon date) = "high"%string
    <-> fscore (chlorophyllFactor (chlorophyllOf (getChlorophyllData net lat lon date)))
        = 30%Z)
   /\ (cr_quality (getChlorophyllData net lat lon date) = "medium"%string
       <-> fscore (chlorophyllFactor
                     (chlorophyllOf (getChlorophyllData net lat lon date)))
           = 20%Z)
   /\ (cr_quality (getChlorophyllData net lat lon date) = "low"%string
       <-> (fscore (chlorophyllFactor
                      (chlorophyllOf (getChlorophyllData net lat lon date)))
            <= 10)%Z))
  /\ ((me_quality (wr_speed (getWindData net lat lon)) = "calm"%string
       <-> fscore (windFactor (windOf (getWindData net lat lon))) = 10%Z)
      /\ (me_quality (wr_speed (getWindData net lat lon)) = "moderate"%string
          <-> fscore (windFactor (windOf (getWindData net lat lon))) = 7%Z
              \/ fscore (windFactor (windOf (getWindData net lat lon))) = 4%Z)
      /\ (me_quality (wr_speed (getWindData net lat lon)) = "strong"%string
          <-> fscore (windFactor (windOf (getWindData net lat lon))) = 0%Z))
  /\ ((me_quality (mr_waveHeight (getMarineWeather net lat lon)) = "calm"%string
       <-> (10 <= fscore (waveFactor (waveHeightOf (getMarineWeather net lat lon))))%Z)
      /\ (me_quality (mr_waveHeight (getMarineWeather net lat lon)) = "moderate"%string
          -> (fscore (waveFactor (waveHeightOf (getMarineWeather net lat lon))) <= 5)%Z)
      /\ (me_quality (mr_waveHeight (getMarineWeather net lat lon)) = "rough"%string
          -> fscore (waveFactor (waveHeightOf (getMarineWeather net lat lon))) = 0%Z)).
Proof.
  split; [ exact (chlorophyll_label lat lon date) | ].
  split; [ exact (wind_label lat lon) | exact (wave_label lat lon) ].
Qed.

Lemma toFixed_value_2_between (x : Q) (lo hi : Z) :
  (0 <= lo)%Z -> inject_Z lo <= x -> x <= inject_Z hi ->
  inject_Z lo <= JS.toFixed_value 2 x /\ JS.toFixed_value 2 x <= inject_Z hi.
Proof.
  intros Hlo Hx1 Hx2.
  assert (0 <= x) as Hpos.
  { eapply Qle_trans; [ | exact Hx1 ]. change 0 with (inject_Z 0).
    rewrite <- Zle_Qle. exact Hlo. }
  unfold JS.toFixed_value, JS.toFixed_units. cbv zeta.
  change (inject_Z (JS.pow10 2)) with 100.
  destruct (Qlt_le_dec x 0) as [Hneg | _]; [ exfalso; lra | ].
  rewrite (Qabs_pos x Hpos).
  pose proof (Qfloor_le (x * 100 + (1 # 2))) as Hfl.
  pose proof (Qlt_floor (x * 100 + (1 # 2))) as Hlt.
  set (n := Qfloor (x * 100 + (1 # 2))) in *.
  rewrite inject_Z_plus in Hlt. change (inject_Z 1) with 1 in Hlt.
  assert (lo * 100 <= n)%Z as Hn1.
  { assert (inject_Z (lo * 100) < inject_Z (n + 1)) as H.
    { rewrite inject_Z_mult, inject_Z_plus.
      change (inject_Z 100) with 100. change (inject_Z 1) with 1. lra. }
    rewrite <- Zlt_Qlt in H. lia. }
  assert (n <= hi * 100)%Z as Hn2.
  { assert (inject_Z n < inject_Z (hi * 100 + 1)) as H.
    { rewrite inject_Z_plus, inject_Z_mult.
      change (inject_Z 100) with 100. change (inject_Z 1) with 1. lra. }
    rewrite <- Zlt_Qlt in H. lia. }
  rewrite Zle_Qle, inject_Z_mult in Hn1, Hn2.
  change (inject_Z 100) with 100 in Hn1, Hn2.
  setoid_replace (inject_Z n / 100) with (inject_Z n * (1 # 100)) by field.
  split; lra.
Qed.

(** X24: a sea-surface temperature labelled 'optimal' gets the 25
    points of the best band: the label is decided on the temperature
    before it is rounded to two decimals and the points on the rounded
    value, and rounding keeps a temperature of [[27, 30]] in that
    range. *)
Theorem optimal_temperature_scores_25 (lat lon : Q) (date : CalendarDate) :
  sr_quality (getSST net lat lon date) = "optimal"%string ->
  fscore (sstFactor (sstOf (getSST net lat lon date))) = 25%Z.
Proof.
  unfold getSST.
  destruct (fetchWithRetry _ 2) as [data | e]; [ | reflexivity ].
  destruct (firstRow data) as [row | ]; [ | reflexivity ].
  cbv zeta. unfold sstFactor, sstOf. cbn [sr_quality sstValue sr_value].
  destruct (Qle_bool 27 (cell3 row - 273.15) && Qle_bool (cell3 row - 273.15) 30)
    eqn:Eopt; [ | discriminate ].
  intros _. apply andb_prop in Eopt as [H27 H30].
  apply Qle_bool_iff in H27. apply Qle_bool_iff in H30.
  destruct (toFixed_value_2_between (cell3 row - 273.15) 27 30) as [Hlo Hhi];
    [ lia | exact H27 | exact H30 | ].
  apply Qle_bool_iff in Hlo. apply Qle_bool_iff in Hhi.
  change (inject_Z 27) with 27 in Hlo. change (inject_Z 30) with 30 in Hhi.
  rewrite Hlo, Hhi. reflexivity.
Qed.

End Labels.

Lemma optimal_temperature_scores_25_witness :
  sr_quality (getSST (sstNet 301.65) (-6.75) 105.52 june_6_2024) = "optimal"%string
  /\ fscore (sstFactor (sstOf (getSST (sstNet 301.65) (-6.75) 105.52 june_6_2024)))
     = 25%Z.
Proof.
  assert (sr_quality (getSST (sstNet 301.65) (-6.75) 105.52 june_6_2024)
          = "optimal"%string) as H by (vm_compute; reflexivity).
  split; [ exact H | ].
  exact (optimal_temperature_scores_25 (sstNet 301.65) (-6.75) 105.52 june_6_2024 H).
Defined.

(** The converse fails: 300.146 K is 26.996 degrees, labelled
    'suboptimal', and it is scored on the rounded 27.00 degrees. *)
Example suboptimal_temperature_scoring_25 :
  sr_quality (getSST (sstNet 300.146) (-6.75) 105.52 june_6_2024)
  = "suboptimal"%string
  /\ fscore (sstFactor (sstOf (getSST (sstNet 300.146) (-6.75) 105.52 june_6_2024)))
     = 25%Z.
Proof.
  evaluate.
Qed.

(** X25: the score never exceeds the sum of the maxima of the factors
    that are present, so a score of 100 needs the five factors; and a
    bundle with a moon reading scores 5 at least, the moon having no band
    without points. *)
Theorem score_bounded_by_present_factors (data : ZoneData) :
  (score (calculateZoneScore data) <= spec_maxPossible data)%Z
  /\ (score (calculateZoneScore data) = 100%Z ->
      chlorophyll data <> None /\ sst data <> None /\ moon data <> None
      /\ waveHeight data <> None /\ wind data <> None)
  /\ (moon data <> None -> (5 <= score (calculateZoneScore data))%Z).
Proof.
  rewrite score_is_earned.
  pose proof (spec_earned_range data) as Hrange.
  split; [ lia | split ].
  - intros E100. unfold spec_maxPossible in Hrange.
    destruct (chlorophyll data), (sst data), (moon data), (waveHeight data),
      (wind data); cbn [presentMax] in Hrange; try lia;
      repeat split; discriminate.
  - intros Hmoon. unfold spec_earned.
    pose proof (earned_range chlorophyllFactor 30 (chlorophyll data)
                  chlorophyllFactor_range).
    pose proof (earned_range sstFactor 25 (sst data) sstFactor_range).
    pose proof (earned_range waveFactor 15 (waveHeight data) waveFactor_range).
    pose proof (earned_range windFactor 10 (wind data) windFactor_range).
    destruct (moon data) as [m | ]; [ | congruence ].
    assert (5 <= fscore (moonFactor m))%Z.
    { unfold moonFactor. repeat (destruct (_ <? _)%Z; [ cbn; lia | ]). cbn; lia. }
    cbn [earned]. lia.
Qed.

(** *** The period of the moon phase *)

Lemma Qfloor_plus_Z (x : Q) (z : Z) : Qfloor (x + inject_Z z) = (Qfloor x + z)%Z.
Proof.
  pose proof (Qfloor_le x) as Hfl.
  pose proof (Qlt_floor x) as Hlt.
  rewrite inject_Z_plus in Hlt. change (inject_Z 1) with 1 in Hlt.
  apply Qfloor_unique.
  - rewrite inject_Z_plus. lra.
  - rewrite !inject_Z_plus. change (inject_Z 1) with 1. lra.
Qed.

Lemma moonFraction_period (d later : CalendarDate) (k : Z) :
  julianDay later == julianDay d + inject_Z (2953 * k) ->
  moonFraction later == moonFraction d.
Proof.
  intros Hjd. unfold moonFraction. cbv zeta. unfold JS.Math_floor.
  assert ((julianDay later - 2451549.5) / 29.53
          == (julianDay d - 2451549.5) / 29.53 + inject_Z (100 * k)) as E.
  { rewrite Hjd, !inject_Z_mult.
    change (inject_Z 2953) with 2953. change (inject_Z 100) with 100. field. }
  rewrite (Qfloor_comp _ _ E), Qfloor_plus_Z, E, inject_Z_plus. ring.
Qed.

(** X26: [getMoonPhase] reads a date through the Julian Day it computes
    and is periodic in it, with a period of 2953 days, which are a
    hundred synodic months of 29.53 days: two dates whose Julian Days,
    as [getMoonPhase] computes them, differ by a multiple of 2953 have
    the same reading. *)
Theorem moon_phase_repeats_every_2953_days (d later : CalendarDate) (k : Z) :
  julianDay later == julianDay d + inject_Z (2953 * k) ->
  getMoonPhase later = getMoonPhase d.
Proof.
  intros Hjd. unfold getMoonPhase. cbv zeta.
  assert (JS.Math_round (moonFraction later * 100)
          = JS.Math_round (moonFraction d * 100)) as ->.
  { apply Math_round_comp. rewrite (moonFraction_period d later k Hjd). reflexivity. }
  reflexivity.
Qed.

(** X26 on 6 June 2024 and 7 July 2032, which is 2953 days later. *)
Lemma moon_phase_repeats_every_2953_days_witness :
  julianDay july_7_2032 == julianDay june_6_2024 + inject_Z (2953 * 1)
  /\ getMoonPhase july_7_2032 = getMoonPhase june_6_2024.
Proof.
  assert (julianDay july_7_2032 == julianDay june_6_2024 + inject_Z (2953 * 1)) as H
      by (vm_compute; reflexivity).
  split; [ exact H | ].
  exact (moon_phase_repeats_every_2953_days june_6_2024 july_7_2032 1 H).
Defined.

End ZoneMore.

(** ** getZoneRecommendations *)

Module RecommendationFacts.

Import ZoneService Optimizer Scanner Fetchers RoundingFacts ZoneServiceFacts.
Import FetcherFacts Scenarios MoreScenarios.

Lemma insertZone_Permutation (x : ZoneRecommendation) (l : list ZoneRecommendation) :
  Permutation (x :: l) (insertZone x l).
Proof.
  induction l as [ | y l IH ]; cbn [insertZone].
  - reflexivity.
  - destruct (zr_score y <=? zr_score x)%Z.
    + reflexivity.
    + rewrite perm_swap. apply perm_skip, IH.
Qed.

Lemma sortZones_Permutation (l : list ZoneRecommendation) :
  Permutation l (sortZones l).
Proof.
  unfold sortZones. induction l as [ | x l IH ]; cbn [fold_right].
  - reflexivity.
  - rewrite <- insertZone_Permutation. apply perm_skip, IH.
Qed.

Lemma insertZone_sorted (x : ZoneRecommendation) (l : list ZoneRecommendation) :
  StronglySorted byScore l -> StronglySorted byScore (insertZone x l).
Proof.
  intros Hl. induction Hl as [ | y l Hl IH Hy ]; cbn [insertZone].
  - constructor; constructor.
  - destruct (Z.leb_spec (zr_score y) (zr_score x)) as [Hle | Hgt].
    + constructor; [ constructor; assumption | ].
      constructor; [ exact Hle | ].
      eapply Forall_impl; [ | exact Hy ].
      intros z Hz. unfold byScore in *. lia.
    + constructor; [ exact IH | ].
      eapply Permutation_Forall; [ apply insertZone_Permutation | ].
      constructor; [ unfold byScore; lia | exact Hy ].
Qed.

Lemma sortZones_sorted (l : list ZoneRecommendation) :
  StronglySorted byScore (sortZones l).
Proof.
  unfold sortZones. induction l as [ | x l IH ]; cbn [fold_right].
  - constructor.
  - apply insertZone_sorted, IH.
Qed.

(** A list whose scores are all the same is left as it is. *)
Lemma sortZones_level (score : Z) (l : list ZoneRecommendation) :
  Forall (fun r => zr_score r = score) l -> sortZones l = l.
Proof.
  unfold sortZones. intros Hl.
  induction Hl as [ | x l Hx Hl IH ]; cbn [fold_right].
  - reflexivity.
  - rewrite IH. destruct l as [ | y l ]; cbn [insertZone]; [ reflexivity | ].
    pose proof (Forall_inv Hl) as Hy. cbn beta in Hy.
    rewrite Hx, Hy, Z.leb_refl. reflexivity.
Qed.

Section Recommendations.

Variable net : Network.
Variable zones : list Zone.

(** X27: on a cache miss [getZoneRecommendations] returns one
    recommendation per configured zone, none being dropped, in
    descending order of score, and stores that list in the cache; each
    score lies in [[0, 100]], the predicted catch is the minimum and the
    maximum [estimateCatch] gives for the score, and the label is 'Highly
    Recommended' from 80, 'Recommended' from 60 and 'Fair' from 40.  On a
    cache hit it returns the cached list and stores nothing. *)
Theorem getZoneRecommendations_answers (date : CalendarDate) :
  (forall cached,
      getZoneRecommendations net zones (Some cached) date = (cached, None))
  /\ (let answer := fst (getZoneRecommendations net zones None date) in
      snd (getZoneRecommendations net zones None date) = Some answer
      /\ Permutation (map (recommendZone net date) zones) answer
      /\ StronglySorted byScore answer
      /\ Forall
           (fun r =>
              (0 <= zr_score r <= 100)%Z
              /\ pc_min (predictedCatch r)
                 = c_min (estimateCatch (inject_Z (zr_score r)))
              /\ pc_max (predictedCatch r)
                 = c_max (estimateCatch (inject_Z (zr_score r)))
              /\ (zr_recommendation r = "Highly Recommended"%string
                  <-> (80 <= zr_score r)%Z)
              /\ (zr_recommendation r = "Recommended"%string
                  <-> (60 <= zr_score r < 80)%Z)
              /\ (zr_recommendation r = "Fair"%string
                  <-> (40 <= zr_score r < 60)%Z))
           answer).
Proof.
  split; [ reflexivity | ].
  cbv zeta. unfold getZoneRecommendations. cbn [fst snd].
  split; [ reflexivity | ].
  split; [ apply sortZones_Permutation | ].
  split; [ apply sortZones_sorted | ].
  eapply Permutation_Forall; [ apply sortZones_Permutation | ].
  apply Forall_forall. intros r Hr.
  apply in_map_iff in Hr as (zone & <- & _).
  unfold recommendZone. cbv zeta.
  cbn [zr_score predictedCatch pc_min pc_max zr_recommendation].
  set (data := zoneData net (z_lat zone) (z_lng zone) date).
  assert (0 <= score (calculateZoneScore data) <= 100)%Z as Hrange.
  { rewrite score_is_earned.
    pose proof (spec_earned_range data). pose proof (spec_maxPossible_le_100 data).
    lia. }
  revert Hrange. generalize (score (calculateZoneScore data)). intros z Hrange.
  split; [ exact Hrange | ].
  unfold estimateCatch. cbn [c_min c_max].
  split; [ reflexivity | ]. split; [ reflexivity | ].
  unfold recommendationLabel.
  destruct (Z.leb_spec 80 z); destruct (Z.leb_spec 60 z); destruct (Z.leb_spec 40 z);
    repeat split; intros; try discriminate; try reflexivity; lia.
Qed.

(** X28: when every fetch fails for every zone, the zones come back in
    the order of the configuration, all with the score of the estimated
    readings, 70 plus the points of the moon: the sort leaves ties in
    place. *)
Theorem offline_zones_keep_their_order (date : CalendarDate) :
  (forall zone, In zone zones ->
     failing (erddapChlorophyll net (z_lat zone) (z_lng zone) date) 2
     /\ failing (erddapSST net (z_lat zone) (z_lng zone) date) 2
     /\ failing (marineApi net (z_lat zone) (z_lng zone)) 2
     /\ (openWeatherKey net = false
         \/ failing (openWeatherApi net (z_lat zone) (z_lng zone)) 2)) ->
  map zoneId (fst (getZoneRecommendations net zones None date)) = map z_id zones
  /\ Forall (fun r => zr_score r = (70 + fscore (moonFactor (getMoonPhase date)))%Z)
            (fst (getZoneRecommendations net zones None date)).
Proof.
  intros Hoffline. unfold getZoneRecommendations. cbn [fst].
  assert (Forall (fun r => zr_score r
                           = (70 + fscore (moonFactor (getMoonPhase date)))%Z)
                 (map (recommendZone net date) zones)) as Hlevel.
  { apply Forall_forall. intros r Hr.
    apply in_map_iff in Hr as (zone & <- & Hzone).
    destruct (Hoffline zone Hzone) as (H1 & H2 & H3 & H4).
    unfold recommendZone. cbv zeta. cbn [zr_score].
    apply (score_of_estimated_readings_holds net _ _ _ H1 H2 H3 H4). }
  rewrite (sortZones_level _ _ Hlevel).
  split; [ | exact Hlevel ].
  rewrite map_map. reflexivity.
Qed.

End Recommendations.

Lemma offline_zones_keep_their_order_witness :
  (forall zone, In zone CONFIG_zones ->
     failing (erddapChlorophyll offlineNet (z_lat zone) (z_lng zone) june_6_2024) 2
     /\ failing (erddapSST offlineNet (z_lat zone) (z_lng zone) june_6_2024) 2
     /\ failing (marineApi offlineNet (z_lat zone) (z_lng zone)) 2
     /\ (openWeatherKey offlineNet = false
         \/ failing (openWeatherApi offlineNet (z_lat zone) (z_lng zone)) 2))
  /\ map zoneId (fst (getZoneRecommendations offlineNet CONFIG_zones None june_6_2024))
     = map z_id CONFIG_zones.
Proof.
  assert (forall zone, In zone CONFIG_zones ->
     failing (erddapChlorophyll offlineNet (z_lat zone) (z_lng zone) june_6_2024) 2
     /\ failing (erddapSST offlineNet (z_lat zone) (z_lng zone) june_6_2024) 2
     /\ failing (marineApi offlineNet (z_lat zone) (z_lng zone)) 2
     /\ (openWeatherKey offlineNet = false
         \/ failing (openWeatherApi offlineNet (z_lat zone) (z_lng zone)) 2)) as H.
  { intros zone _. unfold failing.
    repeat split; try (intros i _; eexists; reflexivity). left. reflexivity. }
  split; [ exact H | ].
  exact (proj1 (offline_zones_keep_their_order offlineNet CONFIG_zones june_6_2024 H)).
Defined.

End RecommendationFacts.

(** ** routes/optimize.js: the handlers *)

Module RouteHandlerFacts.

Import ZoneService Optimizer Scanner Routes DecisionFacts RouteFacts.
Import OrchestratorFacts RouteMore Scenarios MoreScenarios.

Section Handlers.

Variable rt : JS.Runtime.
Variable cfg : Config.
Variable zoneService : Collaborator.
Variable today : CalendarDate.

(** X29: [POST /analyze] answers 400 exactly when the vessel position
    or the list of bagans is missing or the list is empty.  Otherwise it
    scans for candidates and optimises: it answers 500, with the
    [TypeError], when exactly one bagan is to be moved, and 200
    otherwise, with one recommendation per bagan, in order. *)
Theorem analyze_answers (body : AnalyzeBody) :
  (status (analyze rt cfg zoneService today body) = 400%Z
   <-> ab_kapalPosition body = None
       \/ ab_currentBagans body = None
       \/ ab_currentBagans body = Some [])
  /\ (forall kapalPosition currentBagans,
        ab_kapalPosition body = Some kapalPosition ->
        ab_currentBagans body = Some currentBagans ->
        currentBagans <> [] ->
        let movers :=
          movesOf (findBestSpots rt cfg currentBagans
                     (scannedSpots rt zoneService today kapalPosition
                                   currentBagans body)) in
        (List.length movers = 1%nat ->
         analyze rt cfg zoneService today body
         = ServerError (TypeError "totalDistance"))
        /\ (List.length movers <> 1%nat ->
            exists result,
              analyze rt cfg zoneService today body = Success result
              /\ map bagan (or_recommendations result) = currentBagans
              /\ bagansToMove (or_summary result) = List.length movers)).
Proof.
  split.
  - unfold analyze.
    destruct (ab_kapalPosition body) as [kapal | ];
      destruct (ab_currentBagans body) as [[ | first others] | ]; cbn [status];
      try (split; [ intros _; auto | reflexivity ]).
    destruct (optimizeBaganOperations rt cfg _); cbn [status];
      (split; [ discriminate | intros [H | [H | H]]; discriminate ]).
  - intros kapal bagans Ekapal Ebagans Hsome. cbv zeta.
    unfold analyze. rewrite Ekapal, Ebagans.
    destruct bagans as [ | first others ]; [ contradiction | ].
    cbv zeta.
    set (input := {| kapalPosition := kapal;
                     currentBagans := first :: others;
                     candidateSpots :=
                       scannedSpots rt zoneService today kapal (first :: others)
                                    body |}).
    change (findBestSpots rt cfg (first :: others)
              (scannedSpots rt zoneService today kapal (first :: others) body))
      with (findBestSpots rt cfg (currentBagans input) (candidateSpots input)).
    split.
    + intros Hone. rewrite (single_mover_throws rt cfg input Hone). reflexivity.
    + intros Hnot1.
      assert (exists result,
                 optimizeBaganOperations rt cfg input = Ok result
                 /\ or_recommendations result
                    = findBestSpots rt cfg (currentBagans input) (candidateSpots input)
                 /\ bagansToMove (or_summary result)
                    = List.length
                        (movesOf (findBestSpots rt cfg (currentBagans input)
                                                (candidateSpots input))))
        as (result & Eresult & Erecs & Emove).
      { pose proof (movers_analysed rt cfg (currentBagans input)
                                    (candidateSpots input)) as Hall.
        unfold optimizeBaganOperations. cbv zeta.
        destruct (movesOf (findBestSpots rt cfg (currentBagans input)
                                         (candidateSpots input)))
          as [ | x [ | y l ] ] eqn:Emoves.
        - cbn. eexists. repeat split.
        - cbn [List.length] in Hnot1. contradiction.
        - destruct (optimizeRoute_detailed rt cfg (kapalPosition input)
                      (x :: y :: l)) as (best & d & profit & _ & _ & _ & _ & Eroute);
            [ cbn [List.length]; lia | exact Hall | ].
          cbn [List.length Nat.ltb Nat.leb]. rewrite Eroute. cbn.
          eexists. repeat split. }
      rewrite Eresult. exists result. split; [ reflexivity | ].
      split; [ | exact Emove ].
      rewrite Erecs. unfold findBestSpots. rewrite map_map. cbn [bagan].
      apply map_id.
Qed.

End Handlers.

(** X30: [PUT /config] composes: two updates in a row are the update
    by their merge, in which the fields of the second win; an update
    applied twice is the update applied once; the empty update changes
    nothing; and each of the seven fields is set to the value the
    update gives for it and kept when the update gives none. *)
Theorem assignConfig_composes (cfg : Config) (first second : ConfigUpdates) :
  assignConfig (assignConfig cfg first) second
  = assignConfig cfg (mergeUpdates first second)
  /\ assignConfig (assignConfig cfg first) first = assignConfig cfg first
  /\ assignConfig cfg noUpdates = cfg
  /\ fuelPricePerLiter (assignConfig cfg first)
     = match u_fuelPricePerLiter first with
       | Some v => v
       | None => fuelPricePerLiter cfg
       end
  /\ fuelConsumptionTow (assignConfig cfg first)
     = match u_fuelConsumptionTow first with
       | Some v => v
       | None => fuelConsumptionTow cfg
       end
  /\ catchPricePerKg (assignConfig cfg first)
     = match u_catchPricePerKg first with
       | Some v => v
       | None => catchPricePerKg cfg
       end
  /\ minProfitThreshold (assignConfig cfg first)
     = match u_minProfitThreshold first with
       | Some v => v
       | None => minProfitThreshold cfg
       end
  /\ towSpeedKnots (assignConfig cfg first)
     = match u_towSpeedKnots first with
       | Some v => v
       | None => towSpeedKnots cfg
       end
  /\ setupTimeMinutes (assignConfig cfg first)
     = match u_setupTimeMinutes first with
       | Some v => v
       | None => setupTimeMinutes cfg
       end
  /\ maxTowDistance (assignConfig cfg first)
     = match u_maxTowDistance first with
       | Some v => v
       | None => maxTowDistance cfg
       end.
Proof.
  destruct cfg, first as [f1 f2 f3 f4 f5 f6 f7], second as [s1 s2 s3 s4 s5 s6 s7].
  unfold assignConfig, mergeUpdates, noUpdates, updated, later; cbn.
  split; [ | split; [ | split ] ].
  - destruct s1, s2, s3, s4, s5, s6, s7; reflexivity.
  - destruct f1, f2, f3, f4, f5, f6, f7; reflexivity.
  - reflexivity.
  - repeat split.
Qed.

(** The update that turns the default configuration into the one with
    low prices. *)
Example lowPrices_by_update : assignConfig CONFIG lowPricesBody = lowPrices.
Proof.
  reflexivity.
Qed.

End RouteHandlerFacts.
